(** * InstagramOSINT: the fetch - parse - normalize pipeline

    A shallow embedding of [InstagramOSINT.py] and [main.py]: the paced,
    retrying HTTP layer, the page parser, the profile record, the post
    extractor, the media downloader and the output-directory allocator.

    The two files are near copies of each other.  What they share is written
    once; what differs (dictionary keys, the retry bound, the download entry
    points) lives in the modules [Osint] ([InstagramOSINT.py]) and [Main]
    ([main.py]). *)

From Stdlib Require Import QArith Qround Lqa Ascii.
From stdpp Require Import base gmap sets list strings pretty.

Local Open Scope string_scope.
Local Open Scope list_scope.
#[local] Set Warnings "-register-all".

(** ** Python values

    The values the tool handles are the ones [json.loads] produces, plus
    [None] and strings of its own: one type covers them.  Numbers are
    unbounded integers, as Python's are; the snapshot carries no fractional
    number on the paths the tool reads.  A [dict] is kept in insertion
    order. *)

Inductive json : Type :=
  | JNull
  | JBool (b : bool)
  | JInt (n : Z)
  | JStr (s : string)
  | JList (items : list json)
  | JDict (fields : list (string * json)).

Abbreviation pydict := (list (string * json)).

(** Exceptions raised by the operations below. *)
Inductive exn : Type :=
  | ValueError (msg : string)
  | JSONDecodeError
  | AttributeError
  | KeyError
  | IndexError
  | TypeError
  | DateError.

Inductive result (A : Type) : Type :=
  | Ok (a : A)
  | Raise (e : exn).
Arguments Ok {A} a.
Arguments Raise {A} e.

Definition rbind {A B} (r : result A) (k : A -> result B) : result B :=
  match r with
  | Ok a => k a
  | Raise e => Raise e
  end.

Declare Scope py_scope.
Delimit Scope py_scope with py.
Notation "x <~ c ; k" := (rbind c (fun x => k))
  (at level 100, c at next level, right associativity) : py_scope.

(** [bool(v)] *)
Definition truthy (v : json) : bool :=
  match v with
  | JNull => false
  | JBool b => b
  | JInt n => negb (n =? 0)%Z
  | JStr s => negb (String.eqb s "")
  | JList l => match l with [] => false | _ => true end
  | JDict d => match d with [] => false | _ => true end
  end.

Fixpoint dict_lookup (k : string) (d : pydict) : option json :=
  match d with
  | [] => None
  | (k', v) :: d' => if String.eqb k k' then Some v else dict_lookup k d'
  end.

(** [d.get(k, dflt)] on a dictionary *)
Definition dict_get (d : pydict) (k : string) (dflt : json) : json :=
  match dict_lookup k d with
  | Some v => v
  | None => dflt
  end.

(** [v.get(k, dflt)]: only a [dict] has the method. *)
Definition py_get (v : json) (k : string) (dflt : json) : result json :=
  match v with
  | JDict d => Ok (dict_get d k dflt)
  | _ => Raise AttributeError
  end.

(** [v[k]] with a string key *)
Definition py_item (v : json) (k : string) : result json :=
  match v with
  | JDict d =>
      match dict_lookup k d with
      | Some x => Ok x
      | None => Raise KeyError
      end
  | _ => Raise TypeError
  end.

(** [v[0]] *)
Definition py_item0 (v : json) : result json :=
  match v with
  | JList [] => Raise IndexError
  | JList (x :: _) => Ok x
  | JStr EmptyString => Raise IndexError
  | JStr (String c _) => Ok (JStr (String c EmptyString))
  | JDict _ => Raise KeyError
  | _ => Raise TypeError
  end.

(** The bounds of [s[:limit]] on a sequence of length [len]. *)
Definition slice_stop (len : nat) (limit : Z) : nat :=
  if (limit <? 0)%Z then Z.to_nat (Z.of_nat len + limit) else Z.to_nat limit.

Fixpoint string_take (n : nat) (s : string) : string :=
  match n, s with
  | S n', String c s' => String c (string_take n' s')
  | _, _ => EmptyString
  end.

(** [v[:limit]]; a [dict] refuses a slice as a key. *)
Definition py_slice_to (v : json) (limit : Z) : result json :=
  match v with
  | JList l => Ok (JList (take (slice_stop (length l) limit) l))
  | JStr s => Ok (JStr (string_take (slice_stop (String.length s) limit) s))
  | _ => Raise TypeError
  end.

Fixpoint string_chars (s : string) : list json :=
  match s with
  | EmptyString => []
  | String c s' => JStr (String c EmptyString) :: string_chars s'
  end.

(** The elements a [for] loop visits, for the two kinds of value a slice
    returns. *)
Definition py_iter (v : json) : list json :=
  match v with
  | JList l => l
  | JStr s => string_chars s
  | _ => []
  end.



(** ** The document, the network and the file system

    [BeautifulSoup] is not modelled: a response carries the answers of the
    three queries the tool asks of the parsed document. *)

(** A [meta] tag: [tag.get('content')]. *)
Record meta_tag := { content : option string }.

(** A [script] tag: [tag.string] and [tag.get_text()]. *)
Record script_tag := { script_string : option string; get_text : string }.

Record soup := {
  og_description : list meta_tag;   (* find_all('meta', property og:description) *)
  javascript : list script_tag;     (* find_all('script', type text/javascript) *)
  ld_json : option script_tag       (* find('script', type application/ld+json) *)
}.

Record response := { body : string; document : soup }.

(** [requests.exceptions.RequestException] *)
Inductive request_exception : Type :=
  | Timeout
  | ConnectionError
  | HTTPError (status : Z).

(** What [session.get] followed by [raise_for_status] does. *)
Inductive reply : Type :=
  | Served (r : response)
  | Failed (e : request_exception).

Record exchange := { latency : Q; outcome : reply }.

Inductive site := Pacing | Backoff | Jitter.
Inductive level := Debug | Info | Warning | Error.

Inductive message : Type :=
  | RequestFailed (attempt : Z) (bound : Z) (e : request_exception)
  | FetchGaveUp (url : json) (bound : Z)
  | ProfileFetchFailed (user : string)
  | ScrapeError (e : exn)
  | ScrapedProfile (user : string)
  | NoProfileData
  | PrivateProfile
  | ScrapedPosts (n : nat) (user : string)
  | PostsError (e : exn)
  | DownloadedPicture (path : string)
  | DownloadedPostTo (id : json) (path : string)
  | DownloadedPost (id : json)
  | ParseError (e : exn)
  | PrivateContent
  | DownloadedPosts (n : nat)
  | DownloadError (e : exn).

Inductive payload : Type :=
  | Bytes (b : string)
  | Dumped (v : json)
  | DumpedPosts (posts : list (json * pydict)).

Inductive event : Type :=
  | EvSleep (w : site) (d : Q)
  | EvGet (t : Q) (url : json) (agent : nat)
  | EvLog (l : level) (m : message)
  | EvMkdir (path : string)
  | EvWrite (path : string) (c : payload).

(** The world: the clock, the working directory, the file system as the
    set of paths that exist (a path stands for itself: two spellings of one
    directory are two paths), the server's answer to the i-th request ever
    issued, the random source (draws in [0, 1)) and what has been observed so
    far. *)
Record world := {
  now : Q;
  cwd : string;
  fs : gset string;
  net : nat -> exchange;
  issued : nat;
  entropy : nat -> Q;
  drawn : nat;
  trace : list event
}.

(** The instance.  [InstagramOSINT.py] has [max_retries] and no
    [output_dir]; [main.py] has [output_dir] and a literal 3 in place of
    [max_retries].  [description] and [profile_meta] do not exist until
    [scrape_profile] assigns them. *)
Record osint := {
  username : string;
  max_retries : Z;
  profile_data : pydict;
  description : option json;
  profile_meta : option json;
  last_request_time : Q;
  min_request_interval : Q;
  output_dir : string
}.

Record state := { self : osint; env : world }.

Definition set_now (t : Q) (w : world) : world :=
  {| now := t; cwd := cwd w; fs := fs w; net := net w; issued := issued w;
     entropy := entropy w; drawn := drawn w; trace := trace w |}.
Definition set_fs (f : gset string) (w : world) : world :=
  {| now := now w; cwd := cwd w; fs := f; net := net w; issued := issued w;
     entropy := entropy w; drawn := drawn w; trace := trace w |}.
Definition set_issued (n : nat) (w : world) : world :=
  {| now := now w; cwd := cwd w; fs := fs w; net := net w; issued := n;
     entropy := entropy w; drawn := drawn w; trace := trace w |}.
Definition set_drawn (n : nat) (w : world) : world :=
  {| now := now w; cwd := cwd w; fs := fs w; net := net w; issued := issued w;
     entropy := entropy w; drawn := n; trace := trace w |}.
Definition emit (e : event) (w : world) : world :=
  {| now := now w; cwd := cwd w; fs := fs w; net := net w; issued := issued w;
     entropy := entropy w; drawn := drawn w; trace := trace w ++ [e] |}.

Definition set_profile_data (d : pydict) (o : osint) : osint :=
  {| username := username o; max_retries := max_retries o; profile_data := d;
     description := description o; profile_meta := profile_meta o;
     last_request_time := last_request_time o;
     min_request_interval := min_request_interval o; output_dir := output_dir o |}.
Definition set_description (d : json) (o : osint) : osint :=
  {| username := username o; max_retries := max_retries o;
     profile_data := profile_data o;
     description := Some d; profile_meta := profile_meta o;
     last_request_time := last_request_time o;
     min_request_interval := min_request_interval o; output_dir := output_dir o |}.
Definition set_profile_meta (m : json) (o : osint) : osint :=
  {| username := username o; max_retries := max_retries o;
     profile_data := profile_data o;
     description := description o; profile_meta := Some m;
     last_request_time := last_request_time o;
     min_request_interval := min_request_interval o; output_dir := output_dir o |}.
Definition set_last_request_time (t : Q) (o : osint) : osint :=
  {| username := username o; max_retries := max_retries o;
     profile_data := profile_data o;
     description := description o; profile_meta := profile_meta o;
     last_request_time := t;
     min_request_interval := min_request_interval o; output_dir := output_dir o |}.
Definition set_output_dir (p : string) (o : osint) : osint :=
  {| username := username o; max_retries := max_retries o;
     profile_data := profile_data o;
     description := description o; profile_meta := profile_meta o;
     last_request_time := last_request_time o;
     min_request_interval := min_request_interval o; output_dir := p |}.

Definition on_self (f : osint -> osint) (s : state) : state :=
  {| self := f (self s); env := env s |}.
Definition on_env (f : world -> world) (s : state) : state :=
  {| self := self s; env := f (env s) |}.

(** [time.time()] *)
Definition time_time (s : state) : Q := now (env s).

(** [time.sleep(d)], called from [w] *)
Definition time_sleep (w : site) (d : Q) (s : state) : state :=
  on_env (fun e => set_now (now e + d)%Q (emit (EvSleep w d) e)) s.

Definition log (l : level) (m : message) (s : state) : state :=
  on_env (emit (EvLog l m)) s.

(** One draw of the random source. *)
Definition random (s : state) : Q * state :=
  (entropy (env s) (drawn (env s)), on_env (fun e => set_drawn (S (drawn e)) e) s).

(** [random.choice] over a pool of [n] entries: the index chosen. *)
Definition random_choice (n : nat) (s : state) : nat * state :=
  let (r, s) := random s in
  (Z.to_nat (Qfloor (r * inject_Z (Z.of_nat n))%Q), s).

(** [random.uniform(a, b)] *)
Definition random_uniform (a b : Q) (s : state) : Q * state :=
  let (r, s) := random s in
  ((a + (b - a) * r)%Q, s).

(** [session.get(url, ...)] then [raise_for_status()]: the request leaves
    at the current time and its answer arrives [latency] later. *)
Definition session_get (url : json) (agent : nat) (s : state) : reply * state :=
  let x := net (env s) (issued (env s)) in
  (outcome x,
   on_env (fun e => set_now (now e + latency x)%Q
                      (set_issued (S (issued e)) (emit (EvGet (now e) url agent) e))) s).

(** [os.path.exists], [os.makedirs] and writing a file.  The file system
    is the set of existing paths; creating and writing succeed. *)
Definition os_path_exists (p : string) (s : state) : bool :=
  bool_decide (p ∈ fs (env s)).

Definition os_makedirs (p : string) (s : state) : state :=
  on_env (fun e => set_fs ({[p]} ∪ fs e) (emit (EvMkdir p) e)) s.

Definition write_file (p : string) (c : payload) (s : state) : state :=
  on_env (fun e => set_fs ({[p]} ∪ fs e) (emit (EvWrite p c) e)) s.

(** [os.path.join(a, b)] on POSIX *)
Definition starts_with_sep (p : string) : bool :=
  match p with
  | String c _ => Ascii.eqb c "/"%char
  | EmptyString => false
  end.

Fixpoint ends_with_sep (p : string) : bool :=
  match p with
  | EmptyString => false
  | String c EmptyString => Ascii.eqb c "/"%char
  | String _ p' => ends_with_sep p'
  end.

Definition os_path_join (a b : string) : string :=
  if starts_with_sep b then b
  else if String.eqb a "" || ends_with_sep a then a +:+ b
  else a +:+ "/" +:+ b.


(** ** The paced, retrying fetcher *)

(** [_rate_limit] *)
Definition _rate_limit (s : state) : state :=
  let elapsed := (time_time s - last_request_time (self s))%Q in
  let s :=
    if Qlt_le_dec elapsed (min_request_interval (self s))
    then time_sleep Pacing (min_request_interval (self s) - elapsed)%Q s
    else s in
  on_self (set_last_request_time (time_time s)) s.

(** One attempt of [_make_request]: the pacing check, the choice of a
    user agent among [pool], then [session.get] and [raise_for_status]. *)
Definition attempt (pool : nat) (url : json) (s : state) : reply * state :=
  let s := _rate_limit s in
  let (agent, s) := random_choice pool s in
  session_get url agent s.

(** The body of [_make_request], with the bound on retries as a parameter
    ([self.max_retries] in [InstagramOSINT.py], 3 in [main.py]).  [fuel]
    bounds the depth of the recursion; the branch that runs out of it is
    never taken from [make_request] below. *)
Fixpoint make_request_from (fuel : nat) (bound : Z) (pool : nat)
    (url : json) (retry_count : nat) (s : state) : option response * state :=
  let (r, s) := attempt pool url s in
  match r with
  | Served resp => (Some resp, s)
  | Failed e =>
      if (Z.of_nat retry_count <? bound)%Z then
        match fuel with
        | S fuel' =>
            let s := log Warning (RequestFailed (Z.of_nat retry_count + 1) bound e) s in
            let s := time_sleep Backoff (inject_Z (2 ^ Z.of_nat retry_count)) s in
            make_request_from fuel' bound pool url (S retry_count) s
        | O => (None, s)
        end
      else
        let s := log Error (FetchGaveUp url bound) s in
        (None, s)
  end.

Definition make_request (bound : Z) (pool : nat) (url : json) (retry_count : nat)
    (s : state) : option response * state :=
  make_request_from (Z.to_nat (bound - Z.of_nat retry_count)) bound pool url retry_count s.

(** ** Strings

    Strings are sequences of ASCII characters. *)

(** [c.isspace()] *)
Definition is_space (c : ascii) : bool :=
  let n := nat_of_ascii c in
  ((9 <=? n)%nat && (n <=? 13)%nat) || ((28 <=? n)%nat && (n <=? 32)%nat).

(** [s.split()] *)
Fixpoint split_from (cur : string) (s : string) : list string :=
  match s with
  | EmptyString => if String.eqb cur "" then [] else [cur]
  | String c s' =>
      if is_space c
      then (if String.eqb cur "" then split_from "" s' else cur :: split_from "" s')
      else split_from (cur +:+ String c "") s'
  end.

Definition py_split (s : string) : list string := split_from "" s.

Fixpoint lstrip (p : ascii -> bool) (s : string) : string :=
  match s with
  | EmptyString => EmptyString
  | String c s' => if p c then lstrip p s' else s
  end.

(** [s.rstrip(chars)] *)
Fixpoint rstrip (p : ascii -> bool) (s : string) : string :=
  match s with
  | EmptyString => EmptyString
  | String c s' =>
      let r := rstrip p s' in
      if String.eqb r "" && p c then EmptyString else String c r
  end.

(** [s.strip()] *)
Definition py_strip (s : string) : string := rstrip is_space (lstrip is_space s).

Fixpoint strip_prefix (p s : string) : option string :=
  match p, s with
  | EmptyString, _ => Some s
  | String a p', String b s' => if Ascii.eqb a b then strip_prefix p' s' else None
  | String _ _, EmptyString => None
  end.

(** What follows the first occurrence of [sep] in [s]:
    [s.split(sep, 1)[1]], which raises [IndexError] when there is none. *)
Fixpoint after_first (sep s : string) : option string :=
  match strip_prefix sep s with
  | Some rest => Some rest
  | None =>
      match s with
      | EmptyString => None
      | String _ s' => after_first sep s'
      end
  end.

(** [needle in s] *)
Definition contains (needle s : string) : bool :=
  match after_first needle s with
  | Some _ => true
  | None => false
  end.




(** ** The Python runtime the tool calls into

    [json.loads], [str] and the two [datetime] renderings are library code:
    the development is parametric in them.  [json_loads] answers [None]
    where [json.loads] raises [JSONDecodeError]; [fromtimestamp_isoformat]
    answers [None] where [datetime.fromtimestamp] raises. *)
Class Runtime := {
  json_loads : string -> option json;
  py_str : json -> string;
  now_isoformat : Q -> string;
  fromtimestamp_isoformat : json -> option string
}.

(** ** Statements that read and assign attributes and may raise *)

Definition T (A : Type) : Type := state -> result A * state.

Definition tret {A} (a : A) : T A := fun s => (Ok a, s).
Definition lift {A} (r : result A) : T A := fun s => (r, s).
Definition assign (f : osint -> osint) : T unit := fun s => (Ok tt, on_self f s).
Definition tbind {A B} (m : T A) (k : A -> T B) : T B :=
  fun s =>
    match m s with
    | (Ok a, s') => k a s'
    | (Raise e, s') => (Raise e, s')
    end.

Notation "x <- c ;; k" := (tbind c (fun x => k))
  (at level 100, c at next level, right associativity) : py_scope.
Notation "c ;;; k" := (tbind c (fun _ => k))
  (at level 100, right associativity) : py_scope.

(** ** The dictionary keys of the two files *)
Record naming := {
  k_username : string; k_profile_name : string; k_url : string;
  k_followers : string; k_following : string; k_posts : string;
  k_bio : string; k_profile_pic_url : string; k_is_business_account : string;
  k_connected_to_facebook : string; k_external_url : string;
  k_joined_recently : string; k_business_category : string;
  k_is_private : string; k_is_verified : string; k_has_guides : string;
  k_has_clips : string; k_has_ar_effects : string; k_has_channel : string;
  k_highlight_reel_count : string; k_scraped_timestamp : string
}.

(** [InstagramOSINT.py] *)
Definition display_keys : naming := {|
  k_username := "Username"; k_profile_name := "Profile Name"; k_url := "URL";
  k_followers := "Followers"; k_following := "Following"; k_posts := "Posts";
  k_bio := "Bio"; k_profile_pic_url := "Profile Picture URL";
  k_is_business_account := "Is Business Account";
  k_connected_to_facebook := "Connected to Facebook";
  k_external_url := "External URL"; k_joined_recently := "Joined Recently";
  k_business_category := "Business Category"; k_is_private := "Is Private";
  k_is_verified := "Is Verified"; k_has_guides := "Has Guides";
  k_has_clips := "Has Clips"; k_has_ar_effects := "Has AR Effects";
  k_has_channel := "Has Channel";
  k_highlight_reel_count := "Highlight Reel Count";
  k_scraped_timestamp := "Scraped Timestamp" |}.

(** [main.py] *)
Definition snake_keys : naming := {|
  k_username := "username"; k_profile_name := "profile_name"; k_url := "url";
  k_followers := "followers"; k_following := "following"; k_posts := "posts";
  k_bio := "bio"; k_profile_pic_url := "profile_pic_url";
  k_is_business_account := "is_business_account";
  k_connected_to_facebook := "connected_to_facebook";
  k_external_url := "external_url"; k_joined_recently := "joined_recently";
  k_business_category := "business_category"; k_is_private := "is_private";
  k_is_verified := "is_verified"; k_has_guides := "has_guides";
  k_has_clips := "has_clips"; k_has_ar_effects := "has_ar_effects";
  k_has_channel := "has_channel";
  k_highlight_reel_count := "highlight_reel_count";
  k_scraped_timestamp := "scraped_timestamp" |}.

(** ** Parsing the page and building the profile record *)

Section Pipeline.
Context `{Runtime}.

(** [json.loads(text)] *)
Definition loads (text : string) : result json :=
  match json_loads text with
  | Some v => Ok v
  | None => Raise JSONDecodeError
  end.

(** [general_data[0].get('content').split()], after the check that
    [general_data] is not empty. *)
Definition summary_tokens (general_data : list meta_tag) : result (list string) :=
  match general_data with
  | [] => Raise (ValueError "No general profile data found")
  | tag :: _ =>
      match content tag with
      | Some c => Ok (py_split c)
      | None => Raise AttributeError
      end
  end.

(** [json.loads(description.get_text()) if description else {}] *)
Definition load_description (description : option script_tag) : result json :=
  match description with
  | Some tag => loads (get_text tag)
  | None => Ok (JDict [])
  end.

(** The loop over [more_data]: the first script whose string holds the
    marker. *)
Fixpoint find_profile_script (more_data : list script_tag) : option string :=
  match more_data with
  | [] => None
  | script :: rest =>
      match script_string script with
      | Some str =>
          if contains "window._sharedData" str then Some str
          else find_profile_script rest
      | None => find_profile_script rest
      end
  end.

(** [profile_script.strip().split(' = ', 1)[1].rstrip(';')] *)
Definition snapshot_literal (profile_script : string) : result string :=
  match after_first " = " (py_strip profile_script) with
  | Some rest => Ok (rstrip (Ascii.eqb ";") rest)
  | None => Raise IndexError
  end.

(** [profile_meta['entry_data']['ProfilePage'][0]['graphql']['user']] *)
Definition user_node (profile_meta : json) : result json :=
  (a <~ py_item profile_meta "entry_data";
   b <~ py_item a "ProfilePage";
   c <~ py_item0 b;
   d <~ py_item c "graphql";
   py_item d "user")%py.

(** [text[i] if len(text) > i else str(user_data.get(edge, {}).get('count', 'N/A'))] *)
Definition count_field (text : list string) (i : nat) (user_data : json)
    (edge : string) : result json :=
  if bool_decide (i < length text) then Ok (JStr (default "" (text !! i)))
  else
    (e <~ py_get user_data edge (JDict []);
     c <~ py_get e "count" (JStr "N/A");
     Ok (JStr (py_str c)))%py.

Definition profile_url (user : string) : string :=
  "https://www.instagram.com/" +:+ user +:+ "/".

(** The dictionary literal assigned to [self.profile_data]; its entries
    are evaluated in order, [stamp] being [datetime.now().isoformat()]. *)
Definition profile_record (K : naming) (user : string) (description user_data : json)
    (text : list string) (stamp : string) : result pydict :=
  (v_username <~ py_get user_data "username" JNull;
   v_name <~ (if truthy description
              then py_get description "name" (JStr "")
              else py_get user_data "full_name" (JStr ""));
   v_url <~ (if truthy description
             then (m <~ py_get description "mainEntityofPage" (JDict []);
                   py_get m "@id" (JStr ""))
             else Ok (JStr (profile_url user)));
   v_followers <~ count_field text 0 user_data "edge_followed_by";
   v_following <~ count_field text 2 user_data "edge_follow";
   v_posts <~ count_field text 4 user_data "edge_owner_to_timeline_media";
   v_bio <~ py_get user_data "biography" (JStr "");
   v_pic_sd <~ py_get user_data "profile_pic_url" (JStr "");
   v_pic <~ py_get user_data "profile_pic_url_hd" v_pic_sd;
   v_business <~ py_get user_data "is_business_account" (JBool false);
   v_fb <~ py_get user_data "connected_fb_page" JNull;
   v_external <~ py_get user_data "external_url" (JStr "");
   v_joined <~ py_get user_data "is_joined_recently" (JBool false);
   v_category <~ py_get user_data "business_category_name" (JStr "");
   v_private <~ py_get user_data "is_private" (JBool false);
   v_verified <~ py_get user_data "is_verified" (JBool false);
   v_guides <~ py_get user_data "has_guides" (JBool false);
   v_clips <~ py_get user_data "has_clips" (JBool false);
   v_ar <~ py_get user_data "has_ar_effects" (JBool false);
   v_channel <~ py_get user_data "has_channel" (JBool false);
   v_reels <~ py_get user_data "highlight_reel_count" (JInt 0);
   Ok [ (k_username K, v_username); (k_profile_name K, v_name); (k_url K, v_url);
        (k_followers K, v_followers); (k_following K, v_following);
        (k_posts K, v_posts); (k_bio K, v_bio); (k_profile_pic_url K, v_pic);
        (k_is_business_account K, v_business); (k_connected_to_facebook K, v_fb);
        (k_external_url K, v_external); (k_joined_recently K, v_joined);
        (k_business_category K, v_category); (k_is_private K, v_private);
        (k_is_verified K, v_verified); (k_has_guides K, v_guides);
        (k_has_clips K, v_clips); (k_has_ar_effects K, v_ar);
        (k_has_channel K, v_channel); (k_highlight_reel_count K, v_reels);
        (k_scraped_timestamp K, JStr stamp) ])%py.

(** The [try] block shared by [scrape_profile] and [_fetch_profile_data]:
    from the three query results to the assignment of
    [self.profile_data]. *)
Definition parse_profile (K : naming) (doc : soup) : T pydict :=
  (text <- lift (summary_tokens (og_description doc)) ;;
   desc <- lift (load_description (ld_json doc)) ;;
   assign (set_description desc) ;;;
   profile_script <- lift (match find_profile_script (javascript doc) with
                           | Some p => Ok p
                           | None => Raise (ValueError "Profile data script not found")
                           end) ;;
   json_data <- lift (snapshot_literal profile_script) ;;
   meta <- lift (loads json_data) ;;
   assign (set_profile_meta meta) ;;;
   user_data <- lift (user_node meta) ;;
   data <- (fun s => (profile_record K (username (self s)) desc user_data text
                        (now_isoformat (time_time s)), s)) ;;
   assign (set_profile_data data) ;;;
   tret data)%py.

(** [self.profile_meta[...]['edge_owner_to_timeline_media']['edges'][:limit]] *)
Definition timeline_edges (profile_meta : option json) (limit : Z) : result json :=
  (meta <~ match profile_meta with
           | Some m => Ok m
           | None => Raise AttributeError
           end;
   user <~ user_node meta;
   media <~ py_item user "edge_owner_to_timeline_media";
   edges <~ py_item media "edges";
   py_slice_to edges limit)%py.

(** [post_node.get('edge_media_to_caption', {}).get('edges', [{}])[0]
      .get('node', {}).get('text', '')] *)
Definition post_caption (post_node : json) : result json :=
  (a <~ py_get post_node "edge_media_to_caption" (JDict []);
   b <~ py_get a "edges" (JList [JDict []]);
   c <~ py_item0 b;
   d <~ py_get c "node" (JDict []);
   py_get d "text" (JStr ""))%py.

(** [post_node.get(outer, {}).get('count', 0)] *)
Definition edge_count (post_node : json) (outer : string) : result json :=
  (e <~ py_get post_node outer (JDict []);
   py_get e "count" (JInt 0))%py.

End Pipeline.

(** ** Dictionaries keyed by post id

    [posts[post_id] = entry]: a key that is a list or a dict is unhashable;
    [True] and [1] are the same key, and an existing key keeps its place. *)
Definition hashable (k : json) : bool :=
  match k with
  | JList _ | JDict _ => false
  | _ => true
  end.

Definition key_eqb (a b : json) : bool :=
  match a, b with
  | JNull, JNull => true
  | JStr x, JStr y => String.eqb x y
  | JBool x, JBool y => Bool.eqb x y
  | JInt x, JInt y => (x =? y)%Z
  | JBool x, JInt y | JInt y, JBool x => ((if x then 1 else 0) =? y)%Z
  | _, _ => false
  end.

Abbreviation postdict := (list (json * pydict)).

Fixpoint posts_set (k : json) (v : pydict) (posts : postdict) : postdict :=
  match posts with
  | [] => [(k, v)]
  | (k', v') :: rest =>
      if key_eqb k k' then (k', v) :: rest else (k', v') :: posts_set k v rest
  end.

Definition py_setitem (k : json) (v : pydict) (posts : postdict) : result postdict :=
  if hashable k then Ok (posts_set k v posts) else Raise TypeError.

(** [s.lower()] *)
Definition lower_char (c : ascii) : ascii :=
  let n := nat_of_ascii c in
  if ((65 <=? n)%nat && (n <=? 90)%nat) then ascii_of_nat (n + 32) else c.

Fixpoint py_lower (s : string) : string :=
  match s with
  | EmptyString => EmptyString
  | String c s' => String (lower_char c) (py_lower s')
  end.

(** The attributes [__init__] assigns before it starts the run. *)
Definition initial (user : string) (retries : Z) : osint :=
  {| username := py_strip (py_lower user); max_retries := retries;
     profile_data := []; description := None; profile_meta := None;
     last_request_time := 0; min_request_interval := 2; output_dir := "" |}.

(** ** [InstagramOSINT.py] *)
Module Osint.
Section Osint.
Context `{Runtime}.

(** Seven user agents; the bound on retries is [self.max_retries]. *)
Definition _make_request (url : json) (retry_count : nat) (s : state)
    : option response * state :=
  make_request (max_retries (self s)) 7 url retry_count s.

Definition scrape_profile (s : state) : option pydict * state :=
  let url := JStr (profile_url (username (self s))) in
  let (response, s) := _make_request url 0 s in
  match response with
  | None => (None, log Error (ProfileFetchFailed (username (self s))) s)
  | Some response =>
      match parse_profile display_keys (document response) s with
      | (Ok data, s) => (Some data, log Info (ScrapedProfile (username (self s))) s)
      | (Raise e, s) => (None, log Error (ScrapeError e) s)
      end
  end.

(** [__init__] *)
Definition init (user : string) (retries : Z) (w : world) : state :=
  snd (scrape_profile {| self := initial user retries; env := w |}).

(** The dictionary stored under [posts[post_id]]. *)
Definition post_entry (post_node : json) : result pydict :=
  (caption <~ post_caption post_node;
   comments <~ edge_count post_node "edge_media_to_comment";
   disabled <~ py_get post_node "comments_disabled" (JBool false);
   timestamp <~ py_get post_node "taken_at_timestamp" (JInt 0);
   date <~ match fromtimestamp_isoformat timestamp with
           | Some d => Ok (JStr d)
           | None => Raise DateError
           end;
   likes <~ edge_count post_node "edge_liked_by";
   location <~ py_get post_node "location" (JDict []);
   accessibility <~ py_get post_node "accessibility_caption" (JStr "");
   is_video <~ py_get post_node "is_video" (JBool false);
   views <~ (if truthy is_video
             then py_get post_node "video_view_count" (JInt 0)
             else Ok JNull);
   shortcode <~ py_get post_node "shortcode" (JStr "");
   dimensions <~ py_get post_node "dimensions" (JDict []);
   display_url <~ py_get post_node "display_url" (JStr "");
   thumbnails <~ py_get post_node "thumbnail_resources" (JList []);
   Ok [ ("Caption", caption); ("Comments Count", comments);
        ("Comments Disabled", disabled); ("Timestamp", timestamp);
        ("Date", date); ("Likes Count", likes); ("Location", location);
        ("Accessibility Caption", accessibility); ("Is Video", is_video);
        ("Video Views", views); ("Shortcode", shortcode);
        ("Dimensions", dimensions); ("Display URL", display_url);
        ("Thumbnail Resources", thumbnails);
        ("Post URL",
         JStr ("https://www.instagram.com/p/" +:+ py_str shortcode +:+ "/")) ])%py.

(** The [for] loop of [scrape_posts]. *)
Fixpoint scrape_edges (edges : list json) (posts : postdict) : result postdict :=
  match edges with
  | [] => Ok posts
  | post :: rest =>
      (post_node <~ py_item post "node";
       post_id <~ py_item post_node "id";
       entry <~ post_entry post_node;
       posts <~ py_setitem post_id entry posts;
       scrape_edges rest posts)%py
  end.

Definition scrape_posts (limit : Z) (s : state) : option postdict * state :=
  if negb (truthy (JDict (profile_data (self s)))) then
    (None, log Error NoProfileData s)
  else if truthy (dict_get (profile_data (self s)) "Is Private" (JBool true)) then
    (None, log Warning PrivateProfile s)
  else
    match (edges <~ timeline_edges (profile_meta (self s)) limit;
           scrape_edges (py_iter edges) [])%py with
    | Ok posts => (Some posts, log Info (ScrapedPosts (length posts) (username (self s))) s)
    | Raise e => (None, log Error (PostsError e) s)
    end.

(** The loop over [posts.items()] in [download_media]. *)
Fixpoint download_items (posts_dir : string) (items : postdict) (s : state) : state :=
  match items with
  | [] => s
  | (post_id, post_data) :: rest =>
      let media_url := dict_get post_data "Display URL" JNull in
      if negb (truthy media_url) then download_items posts_dir rest s
      else
        let (response, s) := _make_request media_url 0 s in
        let s :=
          match response with
          | Some response =>
              let ext := if truthy (dict_get post_data "Is Video" JNull)
                         then "mp4" else "jpg" in
              let filename := os_path_join posts_dir (py_str post_id +:+ "." +:+ ext) in
              let s := write_file filename (Bytes (body response)) s in
              log Debug (DownloadedPostTo post_id filename) s
          | None => s
          end in
        download_items posts_dir rest s
  end.

Definition download_media (output_dir : option string) (limit : Z) (s : state)
    : bool * state :=
  if negb (truthy (JDict (profile_data (self s)))) then
    (false, log Error NoProfileData s)
  else
    let output_dir :=
      match output_dir with
      | Some d => if String.eqb d "" then username (self s) else d
      | None => username (self s)
      end in
    let s := os_makedirs output_dir s in
    let profile_pic_url := dict_get (profile_data (self s)) "Profile Picture URL" JNull in
    let s :=
      if truthy profile_pic_url then
        let (response, s) := _make_request profile_pic_url 0 s in
        match response with
        | Some response =>
            let filename :=
              os_path_join output_dir (username (self s) +:+ "_profile_pic.jpg") in
            let s := write_file filename (Bytes (body response)) s in
            log Info (DownloadedPicture filename) s
        | None => s
        end
      else s in
    let s :=
      if negb (truthy (dict_get (profile_data (self s)) "Is Private" (JBool true))) then
        let (posts, s) := scrape_posts limit s in
        match posts with
        | Some ((_ :: _) as posts) =>
            let posts_dir := os_path_join output_dir "posts" in
            let s := os_makedirs posts_dir s in
            let s := write_file (os_path_join posts_dir "posts_metadata.json")
                       (DumpedPosts posts) s in
            download_items posts_dir posts s
        | _ => s
        end
      else s in
    (true, s).

End Osint.
End Osint.

(** ** [main.py] *)
Module Main.
Section Main.
Context `{Runtime}.

(** Five user agents, at most three retries. *)
Definition _make_request (url : json) (retry_count : nat) (s : state)
    : option response * state :=
  make_request 3 5 url retry_count s.

(** The [while] loop of [_create_output_directory].  [fuel] bounds the
    number of iterations; [_create_output_directory] supplies enough. *)
Fixpoint next_free (fuel : nat) (base_dir user output_dir : string) (counter : nat)
    (s : state) : string :=
  if os_path_exists output_dir s then
    match fuel with
    | S fuel' =>
        next_free fuel' base_dir user
          (os_path_join base_dir (user +:+ "_" +:+ pretty counter)) (S counter) s
    | O => output_dir
    end
  else output_dir.

(** The part of [_create_output_directory] below the creation of
    [base_dir]. *)
Definition allocate_directory (base_dir user : string) (s : state) : string * state :=
  let output_dir := os_path_join base_dir user in
  let counter := 1%nat in
  let output_dir :=
    next_free (S (size (fs (env s)))) base_dir user output_dir counter s in
  let s := os_makedirs output_dir s in
  (output_dir, s).

Definition _create_output_directory (s : state) : string * state :=
  let base_dir := os_path_join (cwd (env s)) "instagram_osint_results" in
  let s := os_makedirs base_dir s in
  allocate_directory base_dir (username (self s)) s.

Definition _fetch_profile_data (s : state) : bool * state :=
  let url := JStr (profile_url (username (self s))) in
  let (response, s) := _make_request url 0 s in
  match response with
  | None => (false, s)
  | Some response =>
      match parse_profile snake_keys (document response) s with
      | (Ok _, s) => (true, s)
      | (Raise e, s) => (false, log Error (ParseError e) s)
      end
  end.

Definition _download_profile_picture (s : state) : state :=
  let pic_url := dict_get (profile_data (self s)) "profile_pic_url" JNull in
  if negb (truthy pic_url) then s
  else
    let (response, s) := _make_request pic_url 0 s in
    match response with
    | Some response =>
        let filename :=
          os_path_join (output_dir (self s)) (username (self s) +:+ "_profile_pic.jpg") in
        let s := write_file filename (Bytes (body response)) s in
        log Info (DownloadedPicture filename) s
    | None => s
    end.

(** The dictionary appended to [posts_data]. *)
Definition post_metadata (post_id post_node : json) : result pydict :=
  (caption <~ post_caption post_node;
   comments <~ edge_count post_node "edge_media_to_comment";
   likes <~ edge_count post_node "edge_liked_by";
   timestamp <~ py_get post_node "taken_at_timestamp" (JInt 0);
   is_video <~ py_get post_node "is_video" (JBool false);
   shortcode <~ py_get post_node "shortcode" (JStr "");
   display_url <~ py_get post_node "display_url" (JStr "");
   Ok [ ("id", post_id); ("caption", caption); ("comments_count", comments);
        ("likes_count", likes); ("timestamp", timestamp); ("is_video", is_video);
        ("shortcode", shortcode); ("display_url", display_url) ])%py.

(** Fetching one post's media, then the pause between downloads. *)
Definition download_one (posts_dir : string) (post_id media_url : json)
    (post_data : pydict) (s : state) : state :=
  let s :=
    if truthy media_url then
      let (response, s) := _make_request media_url 0 s in
      match response with
      | Some response =>
          let ext := if truthy (dict_get post_data "is_video" JNull)
                     then "mp4" else "jpg" in
          let filename := os_path_join posts_dir (py_str post_id +:+ "." +:+ ext) in
          let s := write_file filename (Bytes (body response)) s in
          log Debug (DownloadedPost post_id) s
      | None => s
      end
    else s in
  let (d, s) := random_uniform 1 3 s in
  time_sleep Jitter d s.

(** The [for] loop of [_download_posts]. *)
Fixpoint download_edges (posts_dir : string) (edges : list json)
    (posts_data : list pydict) : T (list pydict) :=
  match edges with
  | [] => tret posts_data
  | post :: rest =>
      (post_node <- lift (py_item post "node") ;;
       post_id <- lift (py_item post_node "id") ;;
       post_data <- lift (post_metadata post_id post_node) ;;
       media_url <- lift (py_get post_node "display_url" JNull) ;;
       (fun s => (Ok tt, download_one posts_dir post_id media_url post_data s)) ;;;
       download_edges posts_dir rest (posts_data ++ [post_data]))%py
  end.

Definition _download_posts (limit : Z) (s : state) : state :=
  match (edges <- (fun s => (timeline_edges (profile_meta (self s)) limit, s)) ;;
         posts_dir <- (fun s => (Ok (os_path_join (output_dir (self s)) "posts"), s)) ;;
         (fun s => (Ok tt, os_makedirs posts_dir s)) ;;;
         posts_data <- download_edges posts_dir (py_iter edges) [] ;;
         (fun s => (Ok tt,
                    write_file (os_path_join posts_dir "posts_metadata.json")
                      (Dumped (JList (JDict <$> posts_data))) s)) ;;;
         (fun s => (Ok tt, log Info (DownloadedPosts (length posts_data)) s)))%py s with
  | (Ok _, s) => s
  | (Raise e, s) => log Error (DownloadError e) s
  end.

Definition _download_content (s : state) : state :=
  if truthy (dict_get (profile_data (self s)) "is_private" (JBool true)) then
    log Warning PrivateContent s
  else
    let s := _download_profile_picture s in
    _download_posts 12 s.

End Main.
End Main.

(** ** A concrete runtime

    An executable instance of [Runtime], used to run the tool on concrete
    pages: a JSON decoder for documents without fractional numbers and
    without escapes beyond ASCII, Python's [str] and [repr] on ASCII
    strings, and [datetime] in UTC. *)
Module Py.

Definition is_json_space (c : ascii) : bool :=
  let n := nat_of_ascii c in
  (n =? 32)%nat || (n =? 9)%nat || (n =? 10)%nat || (n =? 13)%nat.

Definition skip_ws (s : string) : string := lstrip is_json_space s.

Definition is_digit (c : ascii) : bool :=
  let n := nat_of_ascii c in (48 <=? n)%nat && (n <=? 57)%nat.

Definition digit_value (c : ascii) : Z := Z.of_nat (nat_of_ascii c) - 48.

(** The digits at the head of [s], as a number, and what follows. *)
Fixpoint digits (acc : Z) (s : string) : Z * string :=
  match s with
  | String c s' => if is_digit c then digits (10 * acc + digit_value c) s' else (acc, s)
  | EmptyString => (acc, s)
  end.

Definition starts_fraction (s : string) : bool :=
  match s with
  | String c _ => Ascii.eqb c "." || Ascii.eqb c "e" || Ascii.eqb c "E"
  | EmptyString => false
  end.

(** An optional minus sign, then 0 or a run of digits that does not start
    with 0, not followed by a fraction or an exponent. *)
Definition parse_int (s : string) : option (Z * string) :=
  let '(neg, s) := match s with
                   | String "-" s' => (true, s')
                   | _ => (false, s)
                   end in
  match s with
  | String c s' =>
      if Ascii.eqb c "0" then
        if starts_fraction s' then None else Some (0%Z, s')
      else if is_digit c then
        let '(n, rest) := digits 0 s in
        if starts_fraction rest then None
        else Some (if neg then (- n)%Z else n, rest)
      else None
  | EmptyString => None
  end.

Definition quote : ascii := ascii_of_nat 34.
Definition backslash : ascii := ascii_of_nat 92.

(** The character an escape letter stands for. *)
Definition escaped (e : ascii) : option ascii :=
  if Ascii.eqb e quote then Some quote
  else if Ascii.eqb e backslash then Some backslash
  else if Ascii.eqb e "/" then Some "/"%char
  else if Ascii.eqb e "b" then Some (ascii_of_nat 8)
  else if Ascii.eqb e "f" then Some (ascii_of_nat 12)
  else if Ascii.eqb e "n" then Some (ascii_of_nat 10)
  else if Ascii.eqb e "r" then Some (ascii_of_nat 13)
  else if Ascii.eqb e "t" then Some (ascii_of_nat 9)
  else None.

(** The body of a string literal, after the opening quote: up to the
    closing quote, and what follows it. *)
Fixpoint parse_chars (s : string) : option (string * string) :=
  match s with
  | EmptyString => None
  | String c rest =>
      if Ascii.eqb c quote then Some (EmptyString, rest)
      else if Ascii.eqb c backslash then
        match rest with
        | String e rest' =>
            x ← escaped e;
            '(t, r) ← parse_chars rest';
            Some (String x t, r)
        | EmptyString => None
        end
      else if (nat_of_ascii c <? 32)%nat then None
      else '(t, r) ← parse_chars rest; Some (String c t, r)
  end.

Fixpoint dict_set (k : string) (v : json) (d : pydict) : pydict :=
  match d with
  | [] => [(k, v)]
  | (k', v') :: d' =>
      if String.eqb k k' then (k', v) :: d' else (k', v') :: dict_set k v d'
  end.

Section Containers.
Variable value : string -> option (json * string).

(** After ['['] and a first look for [']']: values separated by commas. *)
Fixpoint parse_elements (n : nat) (acc : list json) (s : string)
    : option (list json * string) :=
  match n with
  | O => None
  | S n' =>
      '(v, r) ← value s;
      match skip_ws r with
      | String "," r' => parse_elements n' (acc ++ [v])%list r'
      | String "]" r' => Some ((acc ++ [v])%list, r')
      | _ => None
      end
  end.

(** After ['{'] and a first look for ['}']: members separated by commas. *)
Fixpoint parse_members (n : nat) (acc : pydict) (s : string)
    : option (pydict * string) :=
  match n with
  | O => None
  | S n' =>
      match skip_ws s with
      | String c r =>
          if Ascii.eqb c quote then
            '(k, r) ← parse_chars r;
            match skip_ws r with
            | String ":" r =>
                '(v, r) ← value r;
                match skip_ws r with
                | String "," r' => parse_members n' (dict_set k v acc) r'
                | String "}" r' => Some (dict_set k v acc, r')
                | _ => None
                end
            | _ => None
            end
          else None
      | EmptyString => None
      end
  end.
End Containers.

Fixpoint parse_value (fuel : nat) (s : string) : option (json * string) :=
  match fuel with
  | O => None
  | S fuel' =>
      match skip_ws s with
      | String "{" r =>
          match skip_ws r with
          | String "}" r' => Some (JDict [], r')
          | _ => '(d, r') ← parse_members (parse_value fuel') (String.length r) [] r;
                 Some (JDict d, r')
          end
      | String "[" r =>
          match skip_ws r with
          | String "]" r' => Some (JList [], r')
          | _ => '(l, r') ← parse_elements (parse_value fuel') (String.length r) [] r;
                 Some (JList l, r')
          end
      | String c r' as r =>
          if Ascii.eqb c quote then '(t, r'') ← parse_chars r'; Some (JStr t, r'')
          else
          match strip_prefix "true" r, strip_prefix "false" r, strip_prefix "null" r with
          | Some r', _, _ => Some (JBool true, r')
          | _, Some r', _ => Some (JBool false, r')
          | _, _, Some r' => Some (JNull, r')
          | _, _, _ => '(n, r') ← parse_int r; Some (JInt n, r')
          end
      | EmptyString => None
      end
  end.

(** [json.loads] *)
Definition json_decode (s : string) : option json :=
  '(v, r) ← parse_value (S (String.length s)) s;
  match skip_ws r with
  | EmptyString => Some v
  | _ => None
  end.

(** [repr] of a string: single quotes unless the string holds one and no
    double quote. *)
Definition hex_digit (n : nat) : ascii :=
  if (n <? 10)%nat then ascii_of_nat (48 + n) else ascii_of_nat (87 + n).

Definition repr_char (q c : ascii) : string :=
  let n := nat_of_ascii c in
  if Ascii.eqb c backslash then String backslash (String backslash EmptyString)
  else if Ascii.eqb c q then String backslash (String q EmptyString)
  else if (n =? 9)%nat then String backslash "t"
  else if (n =? 10)%nat then String backslash "n"
  else if (n =? 13)%nat then String backslash "r"
  else if (n <? 32)%nat || (n =? 127)%nat then
    String backslash (String "x" (String (hex_digit (n / 16)) (String (hex_digit (n mod 16)) EmptyString)))
  else String c EmptyString.

Fixpoint repr_chars (q : ascii) (s : string) : string :=
  match s with
  | EmptyString => EmptyString
  | String c s' => repr_char q c +:+ repr_chars q s'
  end.

Definition repr_str (s : string) : string :=
  let q := if contains "'" s && negb (contains (String quote EmptyString) s)
           then quote else "'"%char in
  String q (repr_chars q s) +:+ String q EmptyString.

Fixpoint py_repr (v : json) : string :=
  match v with
  | JNull => "None"
  | JBool true => "True"
  | JBool false => "False"
  | JInt n => pretty n
  | JStr s => repr_str s
  | JList l =>
      "[" +:+ (fix items (l : list json) : string :=
                 match l with
                 | [] => EmptyString
                 | [x] => py_repr x
                 | x :: l' => py_repr x +:+ ", " +:+ items l'
                 end) l +:+ "]"
  | JDict d =>
      "{" +:+ (fix members (d : pydict) : string :=
                 match d with
                 | [] => EmptyString
                 | [(k, x)] => repr_str k +:+ ": " +:+ py_repr x
                 | (k, x) :: d' => repr_str k +:+ ": " +:+ py_repr x +:+ ", " +:+ members d'
                 end) d +:+ "}"
  end.

(** [str] *)
Definition str (v : json) : string :=
  match v with
  | JStr s => s
  | _ => py_repr v
  end.

(** The civil date of a day count since 1970-01-01. *)
Definition civil_from_days (days : Z) : Z * Z * Z :=
  let z := (days + 719468)%Z in
  let era := (z / 146097)%Z in
  let doe := (z - era * 146097)%Z in
  let yoe := ((doe - doe / 1460 + doe / 36524 - doe / 146096) / 365)%Z in
  let doy := (doe - (365 * yoe + yoe / 4 - yoe / 100))%Z in
  let mp := ((5 * doy + 2) / 153)%Z in
  let d := (doy - (153 * mp + 2) / 5 + 1)%Z in
  let m := (if mp <? 10 then mp + 3 else mp - 9)%Z in
  let y := (yoe + era * 400 + (if m <=? 2 then 1 else 0))%Z in
  (y, m, d).

Fixpoint pad_left (width : nat) (s : string) : string :=
  if (String.length s <? width)%nat then
    match width with
    | S w => "0" +:+ pad_left w s
    | O => s
    end
  else s.

Definition digits_of (width : nat) (n : Z) : string := pad_left width (pretty n).

(** [datetime.fromtimestamp(seconds).isoformat()] in UTC, for a whole
    number of seconds within the years 1 to 9999. *)
Definition isoformat_seconds (seconds : Z) : option string :=
  if ((seconds <? -62135596800) || (253402300799 <? seconds))%Z then None
  else
    let '(y, m, d) := civil_from_days (seconds / 86400) in
    let r := (seconds mod 86400)%Z in
    Some (digits_of 4 y +:+ "-" +:+ digits_of 2 m +:+ "-" +:+ digits_of 2 d +:+ "T" +:+
          digits_of 2 (r / 3600) +:+ ":" +:+ digits_of 2 (r mod 3600 / 60) +:+ ":" +:+
          digits_of 2 (r mod 60)).

Definition fromtimestamp (v : json) : option string :=
  match v with
  | JInt n => isoformat_seconds n
  | JBool b => isoformat_seconds (if b then 1 else 0)
  | _ => None
  end.

(** [datetime.now().isoformat()] at clock reading [t]: the microseconds are
    printed unless they are zero. *)
Definition isoformat_at (t : Q) : string :=
  let seconds := Qfloor t in
  let micro := Qfloor ((t - inject_Z seconds) * 1000000)%Q in
  match isoformat_seconds seconds with
  | Some d => if (micro =? 0)%Z then d else d +:+ "." +:+ digits_of 6 micro
  | None => EmptyString
  end.

#[export] Instance runtime : Runtime :=
  {| json_loads := json_decode; py_str := str;
     now_isoformat := isoformat_at; fromtimestamp_isoformat := fromtimestamp |}.

(** JSON text is written below with an apostrophe where the document has
    a double quote. *)
Fixpoint dq (s : string) : string :=
  match s with
  | EmptyString => EmptyString
  | String c s' => String (if Ascii.eqb c "'" then quote else c) (dq s')
  end.






End Py.

(** ** What a trace shows *)

Definition request_time (e : event) : option Q :=
  match e with
  | EvGet t _ _ => Some t
  | _ => None
  end.

Definition fetched_url (e : event) : option json :=
  match e with
  | EvGet _ url _ => Some url
  | _ => None
  end.

Definition written (e : event) : option string :=
  match e with
  | EvWrite p _ => Some p
  | _ => None
  end.

(** What a fetch is seen to do: an attempt, or a wait before a retry. *)
Inductive mark : Type :=
  | Attempt
  | Wait (d : Q).

Definition fetch_mark (e : event) : option mark :=
  match e with
  | EvGet _ _ _ => Some Attempt
  | EvSleep Backoff d => Some (Wait d)
  | _ => None
  end.

(** The times at which requests left, the addresses they went to, the files
    written and the attempts and waits, each in order of occurrence. *)
Definition requests (t : list event) : list Q := omap request_time t.
Definition urls (t : list event) : list json := omap fetched_url t.
Definition writes (t : list event) : list string := omap written t.
Definition marks (t : list event) : list mark := omap fetch_mark t.

(** [n] failed attempts, the first of them made with [retry_count = k],
    each followed by its wait of [2 ^ retry_count], then one more attempt. *)
Fixpoint retry_marks (k n : nat) : list mark :=
  match n with
  | O => [Attempt]
  | S n' => Attempt :: Wait (inject_Z (2 ^ Z.of_nat k)) :: retry_marks (S k) n'
  end.

Definition failed (r : reply) : Prop := exists e, r = Failed e.

(** Everything of the instance but the time of the last request. *)
Definition attributes (o : osint) : osint := set_last_request_time 0 o.

(** Any two requests, in the order they were issued, are at least [gap]
    apart. *)
Definition apart (gap : Q) (ts : list Q) : Prop :=
  forall i j ti tj,
    ts !! i = Some ti -> ts !! j = Some tj -> (i < j)%nat -> (ti + gap <= tj)%Q.

(** The invariant of the fetcher: the requests seen so far are spaced, and
    none left after [last_request_time]. *)
Definition paced (s : state) : Prop :=
  apart (min_request_interval (self s)) (requests (trace (env s))) /\
  forall t, t ∈ requests (trace (env s)) -> (t <= last_request_time (self s))%Q.

(** The fetcher is in order: its interval is [gap], which is not negative,
    and its requests so far are paced. *)
Definition well_paced (gap : Q) (s : state) : Prop :=
  min_request_interval (self s) = gap /\ (0 <= gap)%Q /\ paced s.

(** The operations of the two files that issue requests or are called
    around those that do. *)
Inductive operation : Type :=
  | ScrapeProfile
  | ScrapePosts (limit : Z)
  | DownloadMedia (out : option string) (limit : Z)
  | CreateOutputDirectory
  | FetchProfileData
  | DownloadContent.

(** What an instance does over its life: it calls one of its operations,
    it fetches an address directly, or it spends time on something else. *)
Inductive activity : Type :=
  | Call (op : operation)
  | Fetch (url : json)
  | Elapse (d : Q).

Section Activities.
Context `{Runtime}.

Definition operate (op : operation) (s : state) : state :=
  match op with
  | ScrapeProfile => snd (Osint.scrape_profile s)
  | ScrapePosts limit => snd (Osint.scrape_posts limit s)
  | DownloadMedia out limit => snd (Osint.download_media out limit s)
  | CreateOutputDirectory =>
      let (path, s) := Main._create_output_directory s in
      on_self (set_output_dir path) s
  | FetchProfileData => snd (Main._fetch_profile_data s)
  | DownloadContent => Main._download_content s
  end.

(** A direct fetch is made with the bound [bound] on retries and a pool of
    [pool] user agents. *)
Definition perform (bound : Z) (pool : nat) (a : activity) (s : state) : state :=
  match a with
  | Call op => operate op s
  | Fetch url => snd (make_request bound pool url 0 s)
  | Elapse d => time_sleep Jitter d s
  end.

Definition perform_all (bound : Z) (pool : nat) (l : list activity) (s : state) : state :=
  fold_left (fun s a => perform bound pool a s) l s.

End Activities.

(** ** The candidates of the directory allocation *)



(** ** The places of a download *)

(** [output_dir or self.username] *)
Definition chosen_dir (out : option string) (s : state) : string :=
  match out with
  | Some d => if String.eqb d "" then username (self s) else d
  | None => username (self s)
  end.

Definition picture_path (dir : string) (s : state) : string :=
  os_path_join dir (username (self s) +:+ "_profile_pic.jpg").

(** ** The sources of a page and the precedence among them *)

Section Sources.
Context `{Runtime}.

(** The sources of a page: the tokens of the summary, the JSON-LD mapping,
    the snapshot and its user node. *)
Definition raw_page_data (doc : soup) : result (list string * json * json * json) :=
  (text <~ summary_tokens (og_description doc);
   desc <~ load_description (ld_json doc);
   profile_script <~ match find_profile_script (javascript doc) with
                     | Some p => Ok p
                     | None => Raise (ValueError "Profile data script not found")
                     end;
   json_data <~ snapshot_literal profile_script;
   meta <~ loads json_data;
   user_data <~ user_node meta;
   Ok (text, desc, meta, user_data))%py.

(** The count kept for token index [i]: the token when there is one, else
    [str] of the snapshot's count, ['N/A'] when the snapshot has none. *)
Definition count_value (text : list string) (i : nat) (u : pydict) (edge : string) : json :=
  match text !! i with
  | Some token => JStr token
  | None =>
      match dict_get u edge (JDict []) with
      | JDict e => JStr (py_str (dict_get e "count" (JStr "N/A")))
      | _ => JNull
      end
  end.

(** Once [resp] has been fetched, the run produces a record, and the
    record satisfies [P]. *)
Definition osint_yields (s : state) (resp : response) (P : pydict -> Prop) : Prop :=
  forall s1,
    Osint._make_request (JStr (profile_url (username (self s)))) 0 s = (Some resp, s1) ->
    exists data s',
      Osint.scrape_profile s = (Some data, s') /\ profile_data (self s') = data /\ P data.

Definition main_yields (s : state) (resp : response) (P : pydict -> Prop) : Prop :=
  forall s1,
    Main._make_request (JStr (profile_url (username (self s)))) 0 s = (Some resp, s1) ->
    exists s', Main._fetch_profile_data s = (true, s') /\ P (profile_data (self s')).

End Sources.

(** The three counts of a record. *)
Definition counts_are (K : naming) (followers following posts : json) (data : pydict) : Prop :=
  dict_lookup (k_followers K) data = Some followers /\
  dict_lookup (k_following K) data = Some following /\
  dict_lookup (k_posts K) data = Some posts.

(** The JSON-LD mapping can serve the name and the address: it is empty, or
    it is a mapping whose [mainEntityofPage], if any, is a mapping. *)
Definition usable (desc : json) : Prop :=
  truthy desc = false \/
  exists d m, desc = JDict d /\ dict_get d "mainEntityofPage" (JDict []) = JDict m.

(** The edge consulted for token index [i] is a mapping, or is missing. *)
Definition consultable (text : list string) (i : nat) (u : pydict) (edge : string) : Prop :=
  (length text <= i)%nat -> exists e, dict_get u edge (JDict []) = JDict e.

(** How the record's name and address follow from the JSON-LD mapping
    [desc] and the snapshot's user node. *)
Definition name_and_url (K : naming) (user : string) (desc user_data : json)
    (data : pydict) : Prop :=
  match desc with
  | JDict ((_ :: _) as d) =>
      dict_lookup (k_profile_name K) data = Some (dict_get d "name" (JStr "")) /\
      exists m, dict_get d "mainEntityofPage" (JDict []) = JDict m /\
                dict_lookup (k_url K) data = Some (dict_get m "@id" (JStr ""))
  | _ =>
      truthy desc = false /\
      exists u, user_data = JDict u /\
                dict_lookup (k_profile_name K) data = Some (dict_get u "full_name" (JStr "")) /\
                dict_lookup (k_url K) data = Some (JStr (profile_url user))
  end.

(** ** Concrete pages and worlds *)
Module Scenario.
Import Py.

(** The assignment script of a profile page, with the privacy flag and the
    post edges left open. *)
Definition snapshot (private edges : string) : string :=
  dq ("window._sharedData = {'entry_data': {'ProfilePage': [{'graphql': {'user': {"
      +:+ "'username': 'alice', 'full_name': 'Alice A', 'is_private': " +:+ private
      +:+ ", 'profile_pic_url': 'http://cdn/pic.jpg', 'edge_followed_by': {'count': 10}, "
      +:+ "'edge_follow': {'count': 7}, 'edge_owner_to_timeline_media': {'count': 2, "
      +:+ "'edges': [" +:+ edges +:+ "]}}}}]}};").

(** A video post with a caption, and a picture post without one. *)
Definition captioned : string :=
  "{'node': {'id': '1', 'is_video': true, 'video_view_count': 5, "
  +:+ "'display_url': 'http://cdn/1', "
  +:+ "'edge_media_to_caption': {'edges': [{'node': {'text': 'hi'}}]}}}".

Definition uncaptioned : string :=
  "{'node': {'id': '2', 'display_url': 'http://cdn/2', "
  +:+ "'edge_media_to_caption': {'edges': []}}}".

Definition script (text : string) : script_tag :=
  {| script_string := Some text; get_text := text |}.

(** A profile page: the JSON-LD block if any, the summary and the inline
    scripts. *)
Definition page (ld : option string) (summary : string) (scripts : list string) : soup :=
  {| og_description := [ {| content := Some summary |} ];
     javascript := script <$> scripts;
     ld_json := script <$> ld |}.

Definition summary : string := "1,234 Followers, 56 Following, 78 Posts".

Definition served (doc : soup) : exchange :=
  {| latency := 1 # 2; outcome := Served {| body := "bytes"; document := doc |} |}.

Definition down : exchange := {| latency := 1 # 10; outcome := Failed Timeout |}.

(** A world that answers the first requests as listed and fails the rest. *)
Definition world_of (answers : list exchange) : world :=
  {| now := 1000; cwd := "/home/u"; fs := ∅;
     net := fun i => nth i answers down; issued := 0;
     entropy := fun _ => 1 # 2; drawn := 0; trace := [] |}.

(** A new instance for [alice], before [__init__] starts the run. *)
Definition start (answers : list exchange) : state :=
  {| self := initial " Alice " 3; env := world_of answers |}.

Definition public_page : soup :=
  page None summary [snapshot "false" captioned].

Definition private_page : soup :=
  page None summary [snapshot "true" captioned].

(** A page whose JSON-LD block says nothing of the name or the address. *)
Definition typed_page : soup :=
  page (Some (dq "{'@type': 'Person'}")) summary [snapshot "false" captioned].


(** A page whose JSON-LD block is not JSON and that has no snapshot. *)
Definition broken_ld_bare_page : soup :=
  page (Some "{oops") summary ["var x = 1;"].

Definition bare_page : soup := page None summary ["var x = 1;"].

(** A page with a short summary. *)
Definition short_page : soup :=
  page None "9 Followers," [snapshot "false" captioned].

(** A page whose second post has no caption. *)
Definition uncaptioned_page : soup :=
  page None summary [snapshot "false" (captioned +:+ ", " +:+ uncaptioned)].

End Scenario.

(** * Saving, reporting and the command line

    The rest of the two files: [__getitem__], [save_data],
    [print_profile_data] and [main] of [InstagramOSINT.py]; [_save_data],
    [_print_results], [scan_profile], [__init__] and [main] of [main.py].

    These functions print on standard output, log records of their own and
    may end the process.  What they print and log is kept in a console beside
    the state of the instance; the records logged by the fetcher, the
    parser and the downloads stay in the trace.  [_setup_logger] only
    configures which records the handler shows ([verbose]); the trace and
    the console keep every call to the logger.  The handlers around
    [json.dump] and [open] are reached only when the file system fails,
    which it does not here. *)

(** [Colors] *)
Module Colors.
Definition esc : string := String (ascii_of_nat 27) "[".
Definition HEADER : string := esc +:+ "95m".
Definition OKBLUE : string := esc +:+ "94m".
Definition OKGREEN : string := esc +:+ "92m".
Definition WARNING : string := esc +:+ "93m".
Definition FAIL : string := esc +:+ "91m".
Definition ENDC : string := esc +:+ "0m".
Definition BOLD : string := esc +:+ "1m".
Definition UNDERLINE : string := esc +:+ "4m".
End Colors.

(** Records logged by the functions of this part.  [DataSaved] carries the
    directory the text is built from. *)
Inductive notice : Type :=
  | NoDataToSave
  | DataSaved (output_dir : string)
  | StartingScan (user : string)
  | FetchFailed.

Inductive output : Type :=
  | Printed (text : string)
  | Noted (l : level) (n : notice).

Record process := { tool : state; console : list output }.

(** How a run ends: it returns, or [sys.exit(status)] ends it. *)
Inductive ending : Type :=
  | Returned
  | Exited (status : Z).

(** [print(text)] *)
Definition py_print (text : string) (p : process) : process :=
  {| tool := tool p; console := console p ++ [Printed text] |}.

Definition note (l : level) (n : notice) (p : process) : process :=
  {| tool := tool p; console := console p ++ [Noted l n] |}.

(** A method of the instance, called from this part. *)
Definition on_tool (f : state -> state) (p : process) : process :=
  {| tool := f (tool p); console := console p |}.

Definition call {A} (f : state -> A * state) (p : process) : A * process :=
  let (a, s) := f (tool p) in
  (a, {| tool := s; console := console p |}).

Definition print_all (texts : list string) (p : process) : process :=
  fold_left (fun p text => py_print text p) texts p.

Definition newline : string := String (ascii_of_nat 10) "".

(** [c * n] *)
Fixpoint py_repeat (c : string) (n : nat) : string :=
  match n with
  | O => EmptyString
  | S n' => c +:+ py_repeat c n'
  end.

(** [f"{s:^width}"] *)
Definition center (width : nat) (s : string) : string :=
  let total := (width - String.length s)%nat in
  let left := (total / 2)%nat in
  py_repeat " " left +:+ s +:+ py_repeat " " (total - left).

(** ['Yes' if v else 'No'] *)
Definition yes_no (v : json) : string := if truthy v then "Yes" else "No".

(** The truth value of an optional command-line string. *)
Definition given (o : option string) : bool :=
  match o with
  | Some d => negb (String.eqb d "")
  | None => false
  end.

(** ** [InstagramOSINT.py] *)
Module OsintApp.
Section OsintApp.
Context `{Runtime}.

Definition __repr__ (o : osint) : string :=
  "InstagramOSINT(username='" +:+ username o +:+ "')".

Definition __str__ (o : osint) : string :=
  "Instagram OSINT tool for username: " +:+ username o.

(** [self.profile_data.get(key, None)] *)
Definition __getitem__ (key : string) (o : osint) : json :=
  dict_get (profile_data o) key JNull.

Definition save_data (output_dir : option string) (p : process) : bool * process :=
  if negb (truthy (JDict (profile_data (self (tool p))))) then
    (false, note Error NoDataToSave p)
  else
    let output_dir :=
      match output_dir with
      | Some d => if String.eqb d "" then username (self (tool p)) else d
      | None => username (self (tool p))
      end in
    let p := on_tool (os_makedirs output_dir) p in
    let p := on_tool (write_file (os_path_join output_dir "profile_data.json")
                        (Dumped (JDict (profile_data (self (tool p)))))) p in
    let p :=
      if negb (truthy (dict_get (profile_data (self (tool p))) "Is Private" (JBool true)))
      then
        let (posts, p) := call (Osint.scrape_posts 12) p in
        match posts with
        | Some ((_ :: _) as posts) =>
            on_tool (write_file (os_path_join output_dir "posts_data.json")
                       (DumpedPosts posts)) p
        | _ => p
        end
      else p in
    (true, note Info (DataSaved output_dir) p).

(** The texts [print_profile_data] prints for a record that is not empty,
    one for each call of [print]. *)
Definition report (data : pydict) : list string :=
  let value key := py_str (dict_get data key JNull) in
  let flag key := yes_no (dict_get data key JNull) in
  let bold label := Colors.BOLD +:+ label +:+ Colors.ENDC in
  let rule := Colors.HEADER +:+ py_repeat "=" 50 +:+ Colors.ENDC in
  [ rule;
    Colors.OKGREEN +:+ center 50 "Instagram Profile Report" +:+ Colors.ENDC;
    rule;
    bold "Username:" +:+ " " +:+ value "Username";
    bold "Profile Name:" +:+ " " +:+ value "Profile Name";
    bold "URL:" +:+ " " +:+ value "URL";
    bold "Followers:" +:+ " " +:+ value "Followers";
    bold "Following:" +:+ " " +:+ value "Following";
    bold "Posts:" +:+ " " +:+ value "Posts";
    newline +:+ bold "Bio:" +:+ newline +:+ value "Bio" ]
  ++ (if truthy (dict_get data "External URL" JNull)
      then [ newline +:+ bold "External URL:" +:+ " " +:+ value "External URL" ]
      else [])
  ++ [ newline +:+ bold "Business Account:" +:+ " " +:+ flag "Is Business Account" ]
  ++ (if truthy (dict_get data "Is Business Account" JNull)
      then [ bold "Business Category:" +:+ " " +:+ value "Business Category" ]
      else [])
  ++ [ bold "Private Account:" +:+ " " +:+ flag "Is Private";
       bold "Verified Account:" +:+ " " +:+ flag "Is Verified";
       bold "Connected to Facebook:" +:+ " " +:+ flag "Connected to Facebook";
       newline +:+ bold "Additional Features:";
       "Has Guides: " +:+ flag "Has Guides";
       "Has Clips: " +:+ flag "Has Clips";
       "Has AR Effects: " +:+ flag "Has AR Effects";
       "Has Channel: " +:+ flag "Has Channel";
       "Highlight Reels: " +:+ value "Highlight Reel Count";
       newline +:+ bold "Scraped At:" +:+ " " +:+ value "Scraped Timestamp";
       rule ].

Definition print_profile_data (p : process) : process :=
  if negb (truthy (JDict (profile_data (self (tool p))))) then
    py_print (Colors.FAIL +:+ "No profile data available" +:+ Colors.ENDC) p
  else print_all (report (profile_data (self (tool p)))) p.

(** The parsed command line. *)
Record arguments := {
  arg_username : string;
  arg_output : option string;
  arg_download : bool;
  arg_limit : Z;
  arg_verbose : bool
}.

(** [main], from the parsed command line on. *)
Definition main (args : arguments) (w : world) : ending * process :=
  let p := {| tool := Osint.init (arg_username args) 3 w; console := [] |} in
  if negb (truthy (JDict (profile_data (self (tool p))))) then
    (Exited 1,
     py_print (Colors.FAIL +:+ "Failed to retrieve data for " +:+ arg_username args
               +:+ Colors.ENDC) p)
  else
    let p := print_profile_data p in
    let p :=
      if arg_download args
      then snd (call (Osint.download_media (arg_output args) (arg_limit args)) p)
      else p in
    let p :=
      if given (arg_output args) && negb (arg_download args)
      then snd (save_data (arg_output args) p)
      else p in
    (Returned, p).

End OsintApp.
End OsintApp.

(** ** [main.py] *)
Module MainApp.
Section MainApp.
Context `{Runtime}.

Definition _save_data (p : process) : process :=
  let p := on_tool (write_file (os_path_join (output_dir (self (tool p))) "profile_data.json")
                      (Dumped (JDict (profile_data (self (tool p)))))) p in
  note Info (DataSaved (output_dir (self (tool p)))) p.

(** The texts [_print_results] prints, one for each call of [print]. *)
Definition results (data : pydict) : list string :=
  let value key := py_str (dict_get data key JNull) in
  let flag key := yes_no (dict_get data key JNull) in
  let bold label := Colors.BOLD +:+ label +:+ Colors.ENDC in
  [ newline +:+ Colors.HEADER +:+ py_repeat "=" 60 +:+ Colors.ENDC;
    Colors.OKGREEN +:+ center 60 "Instagram Profile Report" +:+ Colors.ENDC;
    Colors.HEADER +:+ py_repeat "=" 60 +:+ Colors.ENDC;
    bold "Username:" +:+ " " +:+ value "username";
    bold "Profile Name:" +:+ " " +:+ value "profile_name";
    bold "URL:" +:+ " " +:+ value "url";
    bold "Followers:" +:+ " " +:+ value "followers";
    bold "Following:" +:+ " " +:+ value "following";
    bold "Posts:" +:+ " " +:+ value "posts";
    newline +:+ bold "Bio:";
    py_str (dict_get data "bio" (JStr "No bio available")) ]
  ++ (if truthy (dict_get data "external_url" JNull)
      then [ newline +:+ bold "External URL:" +:+ " " +:+ value "external_url" ]
      else [])
  ++ [ newline +:+ bold "Account Type:";
       "Business Account: " +:+ flag "is_business_account" ]
  ++ (if truthy (dict_get data "is_business_account" JNull)
      then [ "Business Category: "
             +:+ py_str (dict_get data "business_category" (JStr "N/A")) ]
      else [])
  ++ [ "Private Account: " +:+ flag "is_private";
       "Verified Account: " +:+ flag "is_verified";
       "Connected to Facebook: " +:+ flag "connected_to_facebook";
       newline +:+ bold "Additional Features:";
       "Has Guides: " +:+ flag "has_guides";
       "Has Clips: " +:+ flag "has_clips";
       "Has AR Effects: " +:+ flag "has_ar_effects";
       "Has Channel: " +:+ flag "has_channel";
       "Highlight Reels: " +:+ py_str (dict_get data "highlight_reel_count" (JInt 0));
       newline +:+ bold "Scraped At:" +:+ " " +:+ value "scraped_timestamp";
       Colors.HEADER +:+ py_repeat "=" 60 +:+ Colors.ENDC ].

Definition _print_results (p : process) : process :=
  print_all (results (profile_data (self (tool p)))) p.

Definition scan_profile (download_photos : bool) (p : process) : ending * process :=
  let p := note Info (StartingScan (username (self (tool p)))) p in
  let (fetched, p) := call Main._fetch_profile_data p in
  if negb fetched then (Exited 1, note Error FetchFailed p)
  else
    let p := _save_data p in
    let p := if download_photos then on_tool Main._download_content p else p in
    let p := _print_results p in
    (Returned, p).

(** [__init__]: the attributes, the output directory, then the scan. *)
Definition __init__ (user : string) (download_photos : bool) (w : world)
    (shown : list output) : ending * process :=
  let s := {| self := initial user 3; env := w |} in
  let (path, s) := Main._create_output_directory s in
  let s := on_self (set_output_dir path) s in
  scan_profile download_photos {| tool := s; console := shown |}.

(** The parsed command line. *)
Record arguments := {
  arg_username : string;
  arg_download : bool;
  arg_verbose : bool
}.

(** [main], with the banner it found.  [SystemExit] is not an [Exception]:
    the handler around the construction lets it through. *)
Definition main (banner : string) (args : arguments) (w : world) : ending * process :=
  __init__ (arg_username args) (arg_download args) w
    [Printed (Colors.OKBLUE +:+ banner +:+ Colors.ENDC)].

End MainApp.
End MainApp.

(** ** What a run shows *)

(** The files written with what was written, the directories created and
    the pauses between downloads, each in order of occurrence. *)
Definition written_file (e : event) : option (string * payload) :=
  match e with
  | EvWrite p c => Some (p, c)
  | _ => None
  end.

Definition created (e : event) : option string :=
  match e with
  | EvMkdir p => Some p
  | _ => None
  end.

Definition pause (e : event) : option Q :=
  match e with
  | EvSleep Jitter d => Some d
  | _ => None
  end.

Definition backoff (e : event) : option Q :=
  match e with
  | EvSleep Backoff d => Some d
  | _ => None
  end.

Definition files (t : list event) : list (string * payload) := omap written_file t.
Definition directories (t : list event) : list string := omap created t.
Definition pauses (t : list event) : list Q := omap pause t.
Definition backoffs (t : list event) : list Q := omap backoff t.

(** The sum of a list of durations. *)
Definition total (ds : list Q) : Q := fold_right Qplus 0%Q ds.

(** ** What a run leaves alone *)

(** What a run of some steps leaves alone: everything of the instance but
    [last_request_time], the file system, the working directory, the
    answers of the network and the random source. *)
Definition same_surroundings (s s' : state) : Prop :=
  attributes (self s') = attributes (self s) /\
  fs (env s') = fs (env s) /\
  cwd (env s') = cwd (env s) /\
  net (env s') = net (env s) /\
  entropy (env s') = entropy (env s).

(** A run that only asks for [url], [n] times, and waits in between:
    it writes nothing, creates nothing and does not pause for a download. *)
Definition asks_only (url : json) (n : nat) (t : list event) : Prop :=
  urls t = replicate n url /\
  files t = [] /\ directories t = [] /\ pauses t = [] /\ writes t = [].

(** ** Strings of white space *)

(** A string of white space only. *)
Definition blank (ws : string) : Prop := lstrip is_space ws = "".

(** The script of a profile page: the assignment of the literal [j],
    closed by a semicolon, with white space around it. *)
Definition assignment_script (ws1 j ws2 : string) : string :=
  ws1 +:+ "window._sharedData = " +:+ j +:+ ";" +:+ ws2.

(** ** The record and the snapshot it is read from *)

(** The keys of the dictionary literal, in its order. *)
Definition record_keys (K : naming) : list string :=
  [ k_username K; k_profile_name K; k_url K; k_followers K; k_following K;
    k_posts K; k_bio K; k_profile_pic_url K; k_is_business_account K;
    k_connected_to_facebook K; k_external_url K; k_joined_recently K;
    k_business_category K; k_is_private K; k_is_verified K; k_has_guides K;
    k_has_clips K; k_has_ar_effects K; k_has_channel K;
    k_highlight_reel_count K; k_scraped_timestamp K ].

(** The record built from the user node [u] of the snapshot, given its
    name, its address, its three counts and its time stamp. *)
Definition record_of (K : naming) (u : pydict)
    (v_name v_url v_followers v_following v_posts : json) (stamp : string) : pydict :=
  [ (k_username K, dict_get u "username" JNull);
    (k_profile_name K, v_name); (k_url K, v_url);
    (k_followers K, v_followers); (k_following K, v_following);
    (k_posts K, v_posts);
    (k_bio K, dict_get u "biography" (JStr ""));
    (k_profile_pic_url K,
     dict_get u "profile_pic_url_hd" (dict_get u "profile_pic_url" (JStr "")));
    (k_is_business_account K, dict_get u "is_business_account" (JBool false));
    (k_connected_to_facebook K, dict_get u "connected_fb_page" JNull);
    (k_external_url K, dict_get u "external_url" (JStr ""));
    (k_joined_recently K, dict_get u "is_joined_recently" (JBool false));
    (k_business_category K, dict_get u "business_category_name" (JStr ""));
    (k_is_private K, dict_get u "is_private" (JBool false));
    (k_is_verified K, dict_get u "is_verified" (JBool false));
    (k_has_guides K, dict_get u "has_guides" (JBool false));
    (k_has_clips K, dict_get u "has_clips" (JBool false));
    (k_has_ar_effects K, dict_get u "has_ar_effects" (JBool false));
    (k_has_channel K, dict_get u "has_channel" (JBool false));
    (k_highlight_reel_count K, dict_get u "highlight_reel_count" (JInt 0));
    (k_scraped_timestamp K, JStr stamp) ].

(** The instance holds the record [data] and the snapshot it was read
    from, whose user node is [u]. *)
Definition holds_record (K : naming) (o : osint) (u : pydict) (data : pydict) : Prop :=
  profile_data o = data /\
  (exists meta, profile_meta o = Some meta /\
                user_node meta = Ok (JDict u)) /\
  exists v_name v_url v_followers v_following v_posts stamp,
    data = record_of K u v_name v_url v_followers v_following v_posts stamp.

(** A run from [s] to [s'] that asks for the profile page of the instance,
    between one and [bound + 1] times, and for nothing else; that writes
    and creates nothing; and that leaves the name, the settings and the
    output directory of the instance alone. *)
Definition reads_profile_only (bound : Z) (s s' : state) : Prop :=
  (exists t n,
     trace (env s') = trace (env s) ++ t /\
     urls t = replicate (S n) (JStr (profile_url (username (self s)))) /\
     (Z.of_nat n <= Z.max bound 0)%Z /\
     files t = [] /\ directories t = []) /\
  fs (env s') = fs (env s) /\
  username (self s') = username (self s) /\
  max_retries (self s') = max_retries (self s) /\
  min_request_interval (self s') = min_request_interval (self s) /\
  output_dir (self s') = output_dir (self s).

(** ** The posts of the snapshot *)

(** The post edges of the snapshot, before the slice:
    [self.profile_meta[...]['edge_owner_to_timeline_media']['edges']]. *)
Definition all_edges (profile_meta : option json) : result json :=
  (meta <~ match profile_meta with
           | Some m => Ok m
           | None => Raise AttributeError
           end;
   user <~ user_node meta;
   media <~ py_item user "edge_owner_to_timeline_media";
   py_item media "edges")%py.



(** ** What a download may ask for and write *)

Section Media.
Context `{Runtime}.







End Media.

(** ** Successive output directories *)

(** The directories [n] successive calls of [_create_output_directory]
    return. *)
Fixpoint successive_directories (n : nat) (s : state) : list string :=
  match n with
  | O => []
  | S n' =>
      let (path, s') := Main._create_output_directory s in
      path :: successive_directories n' s'
  end.


(** ** More concrete pages *)
Module Cases.
Import Py.

(** The assignment script of a page whose user node has the entries
    [fields]. *)
Definition user_script (fields : string) : string :=
  dq ("window._sharedData = {'entry_data': {'ProfilePage': [{'graphql': {'user': {"
      +:+ fields +:+ "}}}]}};").

Definition page_of (fields : string) : soup :=
  Scenario.page None Scenario.summary [user_script fields].

(** A snapshot that says nothing of privacy. *)
Definition unflagged_page : soup :=
  page_of ("'username': 'alice', 'profile_pic_url': 'http://cdn/pic.jpg', "
           +:+ "'edge_owner_to_timeline_media': {'edges': []}").

(** A snapshot whose high-definition picture is null. *)
Definition null_hd_page : soup :=
  page_of ("'username': 'alice', 'is_private': false, 'profile_pic_url_hd': null, "
           +:+ "'profile_pic_url': 'http://cdn/pic.jpg', "
           +:+ "'edge_owner_to_timeline_media': {'edges': []}").

(** A page whose first marked script is no assignment, followed by one
    that is. *)
Definition unassigned_page : soup :=
  Scenario.page None Scenario.summary
    [ "window._sharedData={};"; Scenario.snapshot "false" Scenario.captioned ].

(** A page with three posts, the first and the third with the same id. *)
Definition post (id url : string) : string :=
  "{'node': {'id': '" +:+ id +:+ "', 'display_url': '" +:+ url +:+ "'}}".

Definition repeated_page : soup :=
  Scenario.page None Scenario.summary
    [ Scenario.snapshot "false"
        (post "1" "http://cdn/a" +:+ ", " +:+ post "2" "http://cdn/b" +:+ ", "
         +:+ post "1" "http://cdn/c") ].

End Cases.
(** ** The dictionary of posts

    [k in posts], and whether no two of [keys] are the same dictionary
    key. *)
Definition has_key (k : json) (posts : postdict) : bool :=
  existsb (key_eqb k) posts.*1.

Fixpoint distinct_keys (keys : list json) : bool :=
  match keys with
  | [] => true
  | k :: rest => negb (existsb (key_eqb k) rest) && distinct_keys rest
  end.

(** The entry [e] of the posts is what [scrape_posts] makes of one of
    [edges], whose id is its key. *)
Definition entry_of_edge `{Runtime} (edges : list json) (e : json * pydict) : Prop :=
  exists post post_node post_id,
    post ∈ edges /\ py_item post "node" = Ok post_node /\
    py_item post_node "id" = Ok post_id /\ key_eqb post_id e.1 = true /\
    Osint.post_entry post_node = Ok e.2.

(** The edge [post] has an entry in [posts]. *)
Definition edge_has_entry (posts : postdict) (post : json) : Prop :=
  exists post_node post_id,
    py_item post "node" = Ok post_node /\ py_item post_node "id" = Ok post_id /\
    has_key post_id posts = true.

(** * Properties *)

(** ** Sanity checks of the building blocks *)

Example truthy_empty_dict : truthy (JDict []) = false.
Proof. reflexivity. Qed.

Example slice_negative : py_slice_to (JList [JInt 1; JInt 2; JInt 3]) (-1) = Ok (JList [JInt 1; JInt 2]).
Proof. reflexivity. Qed.

Example join_plain : os_path_join "out" "alice" = "out/alice".
Proof. reflexivity. Qed.

Example split_summary :
  py_split "1,234 Followers, 56 Following, 78 Posts" =
  ["1,234"; "Followers,"; "56"; "Following,"; "78"; "Posts"].
Proof. reflexivity. Qed.

Example split_blank : py_split "  " = [].
Proof. reflexivity. Qed.

Example after_assignment :
  rstrip (Ascii.eqb ";") <$> after_first " = " (py_strip " window._sharedData = {};; ")
  = Some "{}".
Proof. reflexivity. Qed.

Example decode_object :
  Py.json_decode (Py.dq "{ 'a': [1, -2, true, null], 'b': {'c': 'x/y'}, 'a': 0 }")
  = Some (JDict [("a", JInt 0); ("b", JDict [("c", JStr "x/y")])]).
Proof. reflexivity. Qed.

Example decode_garbage : Py.json_decode "{oops" = None.
Proof. reflexivity. Qed.

Example decode_trailing : Py.json_decode "[1] 2" = None.
Proof. reflexivity. Qed.

Example epoch_day : Py.fromtimestamp (JInt 1625140800) = Some "2021-07-01T12:00:00".
Proof. reflexivity. Qed.

Example repr_nested :
  Py.str (JDict [("a", JList [JInt 1; JStr "it's"; JNull])])
  = "{'a': [1, " +:+ String Py.quote "it's" +:+ String Py.quote ", None]}".
Proof. reflexivity. Qed.

(** ** The fetcher *)

Lemma requests_app t u : requests (t ++ u) = requests t ++ requests u.
Proof. apply omap_app. Qed.

Lemma marks_app t u : marks (t ++ u) = marks t ++ marks u.
Proof. apply omap_app. Qed.

(** One step of the recursion. *)
Lemma make_request_from_eq fuel bound pool url k s :
  make_request_from fuel bound pool url k s =
  let (r, s) := attempt pool url s in
  match r with
  | Served resp => (Some resp, s)
  | Failed e =>
      if (Z.of_nat k <? bound)%Z then
        match fuel with
        | S fuel' =>
            make_request_from fuel' bound pool url (S k)
              (time_sleep Backoff (inject_Z (2 ^ Z.of_nat k))
                 (log Warning (RequestFailed (Z.of_nat k + 1) bound e) s))
        | O => (None, s)
        end
      else (None, log Error (FetchGaveUp url bound) s)
  end.
Proof.
  destruct fuel; simpl; unfold attempt;
  destruct (random_choice pool (_rate_limit s)) as [agent s1];
  destruct (session_get url agent s1) as [r s2]; reflexivity.
Qed.

Lemma writes_app t u : writes (t ++ u) = writes t ++ writes u.
Proof. apply omap_app. Qed.

(** What one attempt does. *)
Lemma attempt_spec pool url s :
  let (r, s') := attempt pool url s in
  r = outcome (net (env s) (issued (env s))) /\
  net (env s') = net (env s) /\
  issued (env s') = S (issued (env s)) /\
  fs (env s') = fs (env s) /\
  cwd (env s') = cwd (env s) /\
  attributes (self s') = attributes (self s) /\
  exists t tm ag,
    trace (env s') = trace (env s) ++ t ++ [EvGet tm url ag] /\
    requests t = [] /\ marks t = [] /\ writes t = [] /\
    tm = last_request_time (self s') /\
    (last_request_time (self s) + min_request_interval (self s) <= tm)%Q.
Proof.
  unfold attempt, _rate_limit, random_choice, random, session_get, time_sleep, time_time.
  destruct (Qlt_le_dec _ _) as [Hlt | Hle]; simpl.
  - repeat (split; [reflexivity|]).
    eexists [_], _, _. rewrite <- app_assoc. repeat (split; [reflexivity|]). lra.
  - repeat (split; [reflexivity|]).
    exists [], (now (env s)); eexists. repeat (split; [reflexivity|]). lra.
Qed.

Lemma make_request_from_succeeds n : forall fuel bound pool url k s resp,
  n <= fuel ->
  n <= Z.to_nat (bound - Z.of_nat k) ->
  (forall i, i < n -> failed (outcome (net (env s) (issued (env s) + i)))) ->
  outcome (net (env s) (issued (env s) + n)) = Served resp ->
  exists s' t,
    make_request_from fuel bound pool url k s = (Some resp, s') /\
    trace (env s') = trace (env s) ++ t /\
    marks t = retry_marks k n /\
    (exists t0 tm ag, t = t0 ++ [EvGet tm url ag]).
Proof.
  induction n as [|n IH]; intros fuel bound pool url k s resp Hfuel Hk Hfail Hok;
    rewrite make_request_from_eq;
    pose proof (attempt_spec pool url s) as Ha;
    destruct (attempt pool url s) as [r s1];
    destruct Ha as (Hr & Hnet & Hiss & _ & _ & _ & t & tm & ag & Ht & Hreq & Hbk & _).
  - rewrite Nat.add_0_r in Hok. rewrite Hr, Hok.
    exists s1, (t ++ [EvGet tm url ag]). split; [reflexivity|]. split; [exact Ht|].
    rewrite marks_app, Hbk. simpl.
    repeat split. eauto.
  - destruct (Hfail 0%nat) as [e He]; [lia|]. rewrite Nat.add_0_r in He.
    rewrite Hr, He.
    replace (Z.of_nat k <? bound)%Z with true by (symmetry; apply Z.ltb_lt; lia).
    destruct fuel as [|fuel]; [lia|].
    set (s2 := time_sleep Backoff _ _).
    destruct (IH fuel bound pool url (S k) s2 resp) as (s' & u & Hrun & Hu & Hb & Hlast).
    + lia.
    + lia.
    + intros i Hi. unfold s2; simpl. rewrite Hnet, Hiss.
      replace (S (issued (env s)) + i) with (issued (env s) + S i) by lia.
      apply Hfail. lia.
    + unfold s2; simpl. rewrite Hnet, Hiss.
      replace (S (issued (env s)) + n) with (issued (env s) + S n) by lia. exact Hok.
    + exists s'.
      exists (t ++ [EvGet tm url ag] ++
              [EvLog Warning (RequestFailed (Z.of_nat k + 1) bound e);
               EvSleep Backoff (inject_Z (2 ^ Z.of_nat k))] ++ u).
      split; [exact Hrun|]. split.
      * rewrite Hu. unfold s2; simpl. rewrite Ht. rewrite <- !app_assoc. reflexivity.
      * rewrite !marks_app, Hbk, Hb. simpl.
        split; [reflexivity|].
        destruct Hlast as (t0 & tm' & ag' & ->).
        exists (t ++ EvGet tm url ag
                  :: EvLog Warning (RequestFailed (Z.of_nat k + 1) bound e)
                  :: EvSleep Backoff (inject_Z (2 ^ Z.of_nat k)) :: t0), tm', ag'.
        rewrite <- app_assoc. reflexivity.
Qed.

Lemma make_request_from_exhausts n : forall fuel bound pool url k s,
  n <= fuel ->
  n = Z.to_nat (bound - Z.of_nat k) ->
  (forall i, i <= n -> failed (outcome (net (env s) (issued (env s) + i)))) ->
  exists s' t,
    make_request_from fuel bound pool url k s = (None, s') /\
    trace (env s') = trace (env s) ++ t /\
    marks t = retry_marks k n /\
    (exists t0, t = t0 ++ [EvLog Error (FetchGaveUp url bound)]).
Proof.
  induction n as [|n IH]; intros fuel bound pool url k s Hfuel Hn Hfail;
    rewrite make_request_from_eq;
    pose proof (attempt_spec pool url s) as Ha;
    destruct (attempt pool url s) as [r s1];
    destruct Ha as (Hr & Hnet & Hiss & _ & _ & _ & t & tm & ag & Ht & Hreq & Hbk & _);
    destruct (Hfail 0%nat) as [e He]; try lia;
    rewrite Nat.add_0_r in He; rewrite Hr, He.
  - replace (Z.of_nat k <? bound)%Z with false by (symmetry; apply Z.ltb_ge; lia).
    eexists _, (t ++ [EvGet tm url ag] ++ [EvLog Error (FetchGaveUp url bound)]).
    split; [reflexivity|]. simpl. rewrite Ht, <- !app_assoc.
    split; [reflexivity|].
    rewrite !marks_app, Hbk. simpl.
    repeat split. exists (t ++ [EvGet tm url ag]). rewrite <- app_assoc. reflexivity.
  - replace (Z.of_nat k <? bound)%Z with true by (symmetry; apply Z.ltb_lt; lia).
    destruct fuel as [|fuel]; [lia|].
    set (s2 := time_sleep Backoff _ _).
    destruct (IH fuel bound pool url (S k) s2) as (s' & u & Hrun & Hu & Hb & Hlast).
    + lia.
    + lia.
    + intros i Hi. unfold s2; simpl. rewrite Hnet, Hiss.
      replace (S (issued (env s)) + i) with (issued (env s) + S i) by lia.
      apply Hfail. lia.
    + exists s'.
      exists (t ++ [EvGet tm url ag] ++
              [EvLog Warning (RequestFailed (Z.of_nat k + 1) bound e);
               EvSleep Backoff (inject_Z (2 ^ Z.of_nat k))] ++ u).
      split; [exact Hrun|]. split.
      * rewrite Hu. unfold s2; simpl. rewrite Ht. rewrite <- !app_assoc. reflexivity.
      * rewrite !marks_app, Hbk, Hb. simpl.
        split; [reflexivity|].
        destruct Hlast as (t0 & ->).
        exists (t ++ EvGet tm url ag
                  :: EvLog Warning (RequestFailed (Z.of_nat k + 1) bound e)
                  :: EvSleep Backoff (inject_Z (2 ^ Z.of_nat k)) :: t0).
        rewrite <- app_assoc. reflexivity.
Qed.

(** Among the first [m] replies either all fail or there is a first one
    that is served. *)
Lemma first_served (f : nat -> reply) (m : nat) :
  (forall i, i < m -> failed (f i)) \/
  (exists n resp, n < m /\ f n = Served resp /\ forall i, i < n -> failed (f i)).
Proof.
  induction m as [|m [Hall | (n & resp & Hn & Hs & Hf)]].
  - left. intros i Hi. lia.
  - destruct (f m) as [resp | e] eqn:Hm.
    + right. exists m, resp. auto.
    + left. intros i Hi. destruct (decide (i = m)) as [-> | Hne].
      * exists e. exact Hm.
      * apply Hall. lia.
  - right. exists n, resp. split; [lia | auto].
Qed.

(** C3.  Let the answers to the requests a fetch issues be given, the i-th
    of them being [reply_at i], and let [limit] be the bound on retries
    ([self.max_retries], by default 3, in [InstagramOSINT.py]; 3 in
    [main.py]).

    - If the first [n] answers are failures and the next one is served, with
      [n <= limit] (so in particular for [n < limit]), the fetch returns that
      response after exactly [n + 1] attempts; before the retry made with
      [retry_count = k + 1] it waits [2 ^ k], for k = 0 .. n - 1; the served
      request is the last thing it does.
    - If the first [limit + 1] answers are failures, the fetch returns
      [None] after exactly [limit + 1] attempts, with the same waits between
      them, and its last act is to log the failure.
    - The fetch returns [None] only if all of these [limit + 1] answers are
      failures. *)
Theorem fetch_retry_schedule (bound : Z) (pool : nat) (url : json) (s : state) :
  let reply_at i := outcome (net (env s) (issued (env s) + i)) in
  let limit := Z.to_nat bound in
  (forall n resp,
      n <= limit ->
      (forall i, i < n -> failed (reply_at i)) ->
      reply_at n = Served resp ->
      exists s' t,
        make_request bound pool url 0 s = (Some resp, s') /\
        trace (env s') = trace (env s) ++ t /\
        marks t = retry_marks 0 n /\
        (exists t0 tm ag, t = t0 ++ [EvGet tm url ag])) /\
  ((forall i, i <= limit -> failed (reply_at i)) ->
      exists s' t,
        make_request bound pool url 0 s = (None, s') /\
        trace (env s') = trace (env s) ++ t /\
        marks t = retry_marks 0 limit /\
        (exists t0, t = t0 ++ [EvLog Error (FetchGaveUp url bound)])) /\
  (forall s', make_request bound pool url 0 s = (None, s') ->
      forall i, i <= limit -> failed (reply_at i)).
Proof.
  intros reply_at limit.
  assert (Hsucc : forall n resp,
      n <= limit ->
      (forall i, i < n -> failed (reply_at i)) ->
      reply_at n = Served resp ->
      exists s' t,
        make_request bound pool url 0 s = (Some resp, s') /\
        trace (env s') = trace (env s) ++ t /\
        marks t = retry_marks 0 n /\
        (exists t0 tm ag, t = t0 ++ [EvGet tm url ag])).
  { intros n resp Hn Hfail Hok. unfold make_request.
    apply make_request_from_succeeds; try assumption; unfold limit in *; simpl; lia. }
  split; [exact Hsucc|]. split.
  - intros Hfail. unfold make_request.
    apply make_request_from_exhausts; try assumption; unfold limit; simpl; lia.
  - intros s' Hnone.
    destruct (first_served reply_at (S limit)) as [Hall | (n & resp & Hn & Hs & Hf)].
    + intros i Hi. apply Hall. lia.
    + destruct (Hsucc n resp) as (s'' & t & Hrun & _); [lia | assumption | assumption |].
      rewrite Hrun in Hnone. discriminate.
Qed.

(** ** Pacing *)

Lemma apart_nil gap : apart gap [].
Proof. intros i j ti tj Hi. rewrite lookup_nil in Hi. discriminate. Qed.

Lemma apart_snoc gap ts t :
  apart gap ts ->
  (forall x, x ∈ ts -> (x + gap <= t)%Q) ->
  apart gap (ts ++ [t]).
Proof.
  intros Hts Hnew i j ti tj Hi Hj Hij.
  destruct (decide (j < length ts)) as [Hlt | Hge].
  - rewrite lookup_app_l in Hj by exact Hlt.
    rewrite lookup_app_l in Hi by lia.
    eapply Hts; eassumption.
  - rewrite lookup_app_r in Hj by lia.
    destruct (j - length ts) as [|m] eqn:Hm; simpl in Hj; [|rewrite lookup_nil in Hj; discriminate].
    injection Hj as <-.
    rewrite lookup_app_l in Hi by lia.
    apply Hnew. eapply list_elem_of_lookup_2. exact Hi.
Qed.

Lemma attributes_gap s s' :
  attributes (self s') = attributes (self s) ->
  min_request_interval (self s') = min_request_interval (self s).
Proof. intros E. change (min_request_interval (attributes (self s')) = min_request_interval (attributes (self s))). rewrite E. reflexivity. Qed.

Lemma attempt_paced pool url s :
  (0 <= min_request_interval (self s))%Q ->
  paced s -> paced (snd (attempt pool url s)).
Proof.
  intros Hgap [Hap Hlast].
  pose proof (attempt_spec pool url s) as Ha.
  destruct (attempt pool url s) as [r s1]. simpl.
  destruct Ha as (_ & _ & _ & _ & _ & Hattr & t & tm & ag & Ht & Hreq & _ & _ & Htm & Hle).
  unfold paced. rewrite (attributes_gap _ _ Hattr), Ht.
  rewrite !requests_app, Hreq. simpl. rewrite <- Htm.
  split.
  - apply apart_snoc; [exact Hap|].
    intros x Hx. apply Hlast in Hx. lra.
  - intros x Hx. apply elem_of_app in Hx as [Hx | Hx].
    + apply Hlast in Hx. lra.
    + apply list_elem_of_singleton in Hx as ->. lra.
Qed.

(** Steps that issue no request and leave the instance alone keep the
    invariant. *)
Lemma paced_quiet s s' :
  requests (trace (env s')) = requests (trace (env s)) ->
  self s' = self s ->
  paced s -> paced s'.
Proof. unfold paced. intros -> ->. auto. Qed.

Lemma make_request_from_paced fuel : forall bound pool url k s,
  (0 <= min_request_interval (self s))%Q ->
  paced s -> paced (snd (make_request_from fuel bound pool url k s)).
Proof.
  induction fuel as [|fuel IH]; intros bound pool url k s Hgap Hp;
    rewrite make_request_from_eq;
    pose proof (attempt_paced pool url s Hgap Hp) as Hp1;
    pose proof (attempt_spec pool url s) as Ha;
    destruct (attempt pool url s) as [r s1]; simpl in Hp1;
    destruct Ha as (_ & _ & _ & _ & _ & Hattr & _);
    destruct r as [resp | e]; try exact Hp1;
    destruct (Z.of_nat k <? bound)%Z; try exact Hp1.
  - simpl. eapply paced_quiet; [| |exact Hp1]; simpl; [|reflexivity].
    unfold requests. rewrite omap_app. simpl. apply app_nil_r.
  - apply IH.
    + simpl. rewrite (attributes_gap _ _ Hattr). exact Hgap.
    + eapply paced_quiet; [| |exact Hp1]; simpl; [|reflexivity].
      unfold requests. rewrite !omap_app. simpl. rewrite !app_nil_r. reflexivity.
  - simpl. eapply paced_quiet; [| |exact Hp1]; simpl; [|reflexivity].
    unfold requests. rewrite omap_app. simpl. apply app_nil_r.
Qed.

(** What one attempt leaves alone, and what it adds to the trace. *)
Lemma attempt_footprint pool url s :
  let (r, s') := attempt pool url s in
  attributes (self s') = attributes (self s) /\
  fs (env s') = fs (env s) /\
  cwd (env s') = cwd (env s) /\
  exists t, trace (env s') = trace (env s) ++ t /\ writes t = [] /\ urls t = [url].
Proof.
  unfold attempt, _rate_limit, random_choice, random, session_get, time_sleep, time_time.
  destruct (Qlt_le_dec _ _) as [Hlt | Hle]; simpl.
  - repeat (split; [reflexivity|]).
    eexists [_; _]. rewrite <- app_assoc. repeat split.
  - repeat (split; [reflexivity|]).
    eexists [_]. repeat split.
Qed.

Lemma urls_app t u : urls (t ++ u) = urls t ++ urls u.
Proof. apply omap_app. Qed.

(** A fetch touches neither the attributes other than [last_request_time]
    nor the file system, writes nothing and asks for nothing but [url]. *)
Lemma make_request_from_footprint fuel : forall bound pool url k s,
  let (r, s') := make_request_from fuel bound pool url k s in
  attributes (self s') = attributes (self s) /\
  fs (env s') = fs (env s) /\
  cwd (env s') = cwd (env s) /\
  exists t, trace (env s') = trace (env s) ++ t /\ writes t = [] /\
            Forall (eq url) (urls t).
Proof.
  induction fuel as [|fuel IH]; intros bound pool url k s;
    rewrite make_request_from_eq;
    pose proof (attempt_footprint pool url s) as Ha;
    destruct (attempt pool url s) as [r s1];
    destruct Ha as (Hattr & Hfs & Hcwd & t & Ht & Hw & Hu);
    assert (Hbase : attributes (self s1) = attributes (self s) /\
                    fs (env s1) = fs (env s) /\ cwd (env s1) = cwd (env s) /\
                    exists t, trace (env s1) = trace (env s) ++ t /\ writes t = [] /\
                              Forall (eq url) (urls t))
      by (repeat (split; [assumption|]); exists t; rewrite Hu; repeat split;
          [assumption.. | repeat constructor]);
    assert (Hlog : forall lvl m,
              attributes (self (log lvl m s1)) = attributes (self s) /\
              fs (env (log lvl m s1)) = fs (env s) /\
              cwd (env (log lvl m s1)) = cwd (env s) /\
              exists t, trace (env (log lvl m s1)) = trace (env s) ++ t /\ writes t = [] /\
                        Forall (eq url) (urls t))
      by (intros lvl m; repeat (split; [assumption|]);
          exists (t ++ [EvLog lvl m]); simpl; rewrite Ht, <- app_assoc,
            writes_app, urls_app, Hw, Hu; repeat split; repeat constructor);
    destruct r as [resp | e]; try exact Hbase;
    destruct (Z.of_nat k <? bound)%Z; try exact Hbase; try apply Hlog.
  set (s2 := time_sleep Backoff _ _).
  specialize (IH bound pool url (S k) s2).
  destruct (make_request_from fuel bound pool url (S k) s2) as [r s'].
  destruct IH as (Hattr' & Hfs' & Hcwd' & u & Hu' & Hw' & Hurls').
  split; [rewrite Hattr'; exact Hattr|].
  split; [rewrite Hfs'; exact Hfs|].
  split; [rewrite Hcwd'; exact Hcwd|].
  exists (t ++ [EvLog Warning (RequestFailed (Z.of_nat k + 1) bound e);
                EvSleep Backoff (inject_Z (2 ^ Z.of_nat k))] ++ u).
  split; [rewrite Hu'; unfold s2; simpl; rewrite Ht, <- !app_assoc; reflexivity|].
  rewrite !writes_app, !urls_app, Hw, Hw', Hu. simpl.
  split; [reflexivity|]. constructor; [reflexivity | exact Hurls'].
Qed.

Lemma make_request_from_gap fuel bound pool url k s :
  min_request_interval (self (snd (make_request_from fuel bound pool url k s))) =
  min_request_interval (self s).
Proof.
  pose proof (make_request_from_footprint fuel bound pool url k s) as Hf.
  destruct (make_request_from fuel bound pool url k s) as [r s'].
  destruct Hf as (Hattr & _). simpl. exact (attributes_gap _ _ Hattr).
Qed.

(** What the pacing check does: it sleeps for the remainder of the interval
    when less than the interval has elapsed, not at all otherwise, and
    records the time at which it lets the request go. *)
Lemma rate_limit_spec s :
  let elapsed := (now (env s) - last_request_time (self s))%Q in
  let gap := min_request_interval (self s) in
  let s' := _rate_limit s in
  last_request_time (self s') = now (env s') /\
  (last_request_time (self s) + gap <= now (env s'))%Q /\
  ((elapsed < gap)%Q -> trace (env s') = trace (env s) ++ [EvSleep Pacing (gap - elapsed)]) /\
  ((gap <= elapsed)%Q -> env s' = env s).
Proof.
  unfold _rate_limit, time_time. simpl.
  destruct (Qlt_le_dec _ _) as [Hlt | Hle]; simpl.
  - split; [reflexivity|]. split; [lra|]. split; [reflexivity | intros Hge; lra].
  - split; [reflexivity|]. split; [lra|]. split; [intros Hlt; lra | reflexivity].
Qed.

(** The two files' [_make_request] are instances of [make_request]. *)
Remark osint_make_request url k s :
  Osint._make_request url k s = make_request (max_retries (self s)) 7 url k s.
Proof. reflexivity. Qed.

Remark main_make_request url k s :
  Main._make_request url k s = make_request 3 5 url k s.
Proof. reflexivity. Qed.

(** Two timeouts, then the page: three attempts, with waits of 1 and 2. *)
Lemma fetch_retry_schedule_witness :
  let s := Scenario.start [Scenario.down; Scenario.down;
                           Scenario.served Scenario.public_page] in
  exists s' t,
    make_request 3 5 (JStr "https://www.instagram.com/alice/") 0 s =
      (Some {| body := "bytes"; document := Scenario.public_page |}, s') /\
    trace (env s') = trace (env s) ++ t /\
    marks t = [Attempt; Wait 1; Attempt; Wait 2; Attempt] /\
    (exists t0 tm ag, t = t0 ++ [EvGet tm (JStr "https://www.instagram.com/alice/") ag]).
Proof.
  intros s.
  apply (proj1 (fetch_retry_schedule 3 5 (JStr "https://www.instagram.com/alice/") s)
           2%nat {| body := "bytes"; document := Scenario.public_page |}).
  - vm_compute. lia.
  - intros i Hi. destruct i as [|[|i]]; [exists Timeout; reflexivity.. | lia].
  - reflexivity.
Defined.

(** ** Parsing and the profile record *)

Section ParseFacts.
Context `{Runtime}.

(** [parse_profile] in terms of the sources and of the record built from
    them. *)
Lemma parse_profile_ok K doc s text desc meta user_data :
  raw_page_data doc = Ok (text, desc, meta, user_data) ->
  parse_profile K doc s =
  match profile_record K (username (self s)) desc user_data text
          (now_isoformat (time_time s)) with
  | Ok data =>
      (Ok data,
       on_self (set_profile_data data)
         (on_self (set_profile_meta meta) (on_self (set_description desc) s)))
  | Raise e =>
      (Raise e, on_self (set_profile_meta meta) (on_self (set_description desc) s))
  end.
Proof.
  unfold raw_page_data, parse_profile, tbind, lift, assign, tret, rbind.
  destruct (summary_tokens _) as [text0|]; [|discriminate].
  destruct (load_description _) as [desc0|]; [|discriminate].
  destruct (find_profile_script _) as [p|]; [|discriminate].
  destruct (snapshot_literal p) as [j|]; [|discriminate].
  destruct (loads j) as [meta0|]; [|discriminate].
  destruct (user_node meta0) as [u|]; [|discriminate].
  intros [= -> -> -> ->]. simpl.
  destruct (profile_record _ _ _ _ _ _); reflexivity.
Qed.

Lemma parse_profile_raise K doc s e :
  raw_page_data doc = Raise e ->
  exists s', parse_profile K doc s = (Raise e, s') /\
             profile_data (self s') = profile_data (self s).
Proof.
  unfold raw_page_data, parse_profile, tbind, lift, assign, tret, rbind.
  destruct (summary_tokens _) as [text0|]; [|intros [= ->]; eauto].
  destruct (load_description _) as [desc0|]; [|intros [= ->]; eauto].
  destruct (find_profile_script _) as [p|]; [|intros [= <-]; eauto].
  destruct (snapshot_literal p) as [j|]; [|intros [= ->]; eauto].
  destruct (loads j) as [meta0|]; [|intros [= ->]; eauto].
  destruct (user_node meta0) as [u|]; [|intros [= ->]; eauto].
  discriminate.
Qed.

(** Whatever the page, a parse that raises leaves [profile_data] as it was,
    and one that returns has assigned what it returns. *)
Lemma parse_profile_data K doc s :
  match parse_profile K doc s with
  | (Ok data, s') => profile_data (self s') = data
  | (Raise _, s') => profile_data (self s') = profile_data (self s)
  end.
Proof.
  destruct (raw_page_data doc) as [[[[text desc] meta] user]|e] eqn:Hraw.
  - rewrite (parse_profile_ok _ _ _ _ _ _ _ Hraw).
    destruct (profile_record _ _ _ _ _ _); reflexivity.
  - destruct (parse_profile_raise K doc s e Hraw) as (s' & -> & Hs'). exact Hs'.
Qed.


(** The first six entries of the record, each with the expression that
    produced it. *)
Lemma profile_record_fields K user desc user_data text stamp data :
  profile_record K user desc user_data text stamp = Ok data ->
  exists v_username v_name v_url v_followers v_following v_posts rest,
    data = (k_username K, v_username) :: (k_profile_name K, v_name) ::
           (k_url K, v_url) :: (k_followers K, v_followers) ::
           (k_following K, v_following) :: (k_posts K, v_posts) :: rest /\
    (if truthy desc then py_get desc "name" (JStr "")
     else py_get user_data "full_name" (JStr "")) = Ok v_name /\
    (if truthy desc
     then (m <~ py_get desc "mainEntityofPage" (JDict []); py_get m "@id" (JStr ""))%py
     else Ok (JStr (profile_url user))) = Ok v_url /\
    count_field text 0 user_data "edge_followed_by" = Ok v_followers /\
    count_field text 2 user_data "edge_follow" = Ok v_following /\
    count_field text 4 user_data "edge_owner_to_timeline_media" = Ok v_posts.
Proof.
  unfold profile_record.
  destruct user_data as [| | | | |u]; try discriminate.
  cbn [py_get rbind].
  destruct (if truthy desc then _ else _) as [v_name|] eqn:Hname; [|discriminate].
  cbn [rbind].
  destruct (if truthy desc then _ else _) as [v_url|] eqn:Hurl in |- *; [|discriminate].
  cbn [rbind].
  destruct (count_field text 0 _ _) as [v0|] eqn:H0; [|discriminate].
  cbn [rbind].
  destruct (count_field text 2 _ _) as [v2|] eqn:H2; [|discriminate].
  cbn [rbind].
  destruct (count_field text 4 _ _) as [v4|] eqn:H4; [|discriminate].
  cbn [rbind].
  intros [= <-]. do 7 eexists. split; [reflexivity|]. auto.
Qed.


(** A fetch leaves the user name alone. *)
Lemma make_request_username bound pool url k s :
  username (self (snd (make_request bound pool url k s))) = username (self s).
Proof.
  unfold make_request.
  pose proof (make_request_from_footprint (Z.to_nat (bound - Z.of_nat k)) bound pool url k s) as Hf.
  destruct (make_request_from _ bound pool url k s) as [r s'].
  destruct Hf as (Hattr & _). simpl.
  change (username (attributes (self s')) = username (attributes (self s))).
  rewrite Hattr. reflexivity.
Qed.

Lemma make_request_profile_data bound pool url k s :
  profile_data (self (snd (make_request bound pool url k s))) = profile_data (self s).
Proof.
  unfold make_request.
  pose proof (make_request_from_footprint (Z.to_nat (bound - Z.of_nat k)) bound pool url k s) as Hf.
  destruct (make_request_from _ bound pool url k s) as [r s'].
  destruct Hf as (Hattr & _). simpl.
  change (profile_data (attributes (self s')) = profile_data (attributes (self s))).
  rewrite Hattr. reflexivity.
Qed.

(** A parse that returns a record had all its sources. *)
Lemma parse_profile_inv K doc s data s' :
  parse_profile K doc s = (Ok data, s') ->
  exists text desc meta user_data,
    raw_page_data doc = Ok (text, desc, meta, user_data) /\
    profile_record K (username (self s)) desc user_data text
      (now_isoformat (time_time s)) = Ok data /\
    s' = on_self (set_profile_data data)
           (on_self (set_profile_meta meta) (on_self (set_description desc) s)).
Proof.
  intros Hrun.
  destruct (raw_page_data doc) as [[[[text desc] meta] user]|e] eqn:Hraw.
  - rewrite (parse_profile_ok _ _ _ _ _ _ _ Hraw) in Hrun.
    destruct (profile_record _ _ _ _ _ _) as [data0|] eqn:Hrec; [|discriminate].
    injection Hrun as <- <-. exists text, desc, meta, user. auto.
  - destruct (parse_profile_raise K doc s e Hraw) as (s0 & Hs0 & _).
    rewrite Hs0 in Hrun. discriminate.
Qed.

(** What [scrape_profile] and [_fetch_profile_data] return, in terms of the
    fetch and of the parse. *)
Lemma scrape_profile_inv s data s' :
  Osint.scrape_profile s = (Some data, s') ->
  exists resp s1 s2,
    Osint._make_request (JStr (profile_url (username (self s)))) 0 s = (Some resp, s1) /\
    parse_profile display_keys (document resp) s1 = (Ok data, s2) /\
    s' = log Info (ScrapedProfile (username (self s2))) s2.
Proof.
  unfold Osint.scrape_profile.
  destruct (Osint._make_request _ 0 s) as [[resp|] s1] eqn:Hget; [|discriminate].
  destruct (parse_profile display_keys (document resp) s1) as [[data0|e] s2] eqn:Hparse;
    [|discriminate].
  intros [= <- <-]. exists resp, s1, s2. repeat split; assumption || reflexivity.
Qed.

Lemma fetch_profile_data_inv s s' :
  Main._fetch_profile_data s = (true, s') ->
  exists resp s1 data,
    Main._make_request (JStr (profile_url (username (self s)))) 0 s = (Some resp, s1) /\
    parse_profile snake_keys (document resp) s1 = (Ok data, s').
Proof.
  unfold Main._fetch_profile_data.
  destruct (Main._make_request _ 0 s) as [[resp|] s1] eqn:Hget; [|discriminate].
  destruct (parse_profile snake_keys (document resp) s1) as [[data0|e] s2] eqn:Hparse;
    [|discriminate].
  intros [= <-]. exists resp, s1, data0. repeat split; assumption || reflexivity.
Qed.

Lemma scrape_profile_raises s resp s1 e s2 :
  Osint._make_request (JStr (profile_url (username (self s)))) 0 s = (Some resp, s1) ->
  parse_profile display_keys (document resp) s1 = (Raise e, s2) ->
  Osint.scrape_profile s = (None, log Error (ScrapeError e) s2).
Proof. unfold Osint.scrape_profile. intros -> ->. reflexivity. Qed.

Lemma fetch_profile_data_raises s resp s1 e s2 :
  Main._make_request (JStr (profile_url (username (self s)))) 0 s = (Some resp, s1) ->
  parse_profile snake_keys (document resp) s1 = (Raise e, s2) ->
  Main._fetch_profile_data s = (false, log Error (ParseError e) s2).
Proof. unfold Main._fetch_profile_data. intros -> ->. reflexivity. Qed.

Lemma scrape_profile_returns s resp s1 data s2 :
  Osint._make_request (JStr (profile_url (username (self s)))) 0 s = (Some resp, s1) ->
  parse_profile display_keys (document resp) s1 = (Ok data, s2) ->
  Osint.scrape_profile s = (Some data, log Info (ScrapedProfile (username (self s2))) s2).
Proof. unfold Osint.scrape_profile. intros -> ->. reflexivity. Qed.

Lemma fetch_profile_data_returns s resp s1 data s2 :
  Main._make_request (JStr (profile_url (username (self s)))) 0 s = (Some resp, s1) ->
  parse_profile snake_keys (document resp) s1 = (Ok data, s2) ->
  Main._fetch_profile_data s = (true, s2).
Proof. unfold Main._fetch_profile_data. intros -> ->. reflexivity. Qed.

End ParseFacts.

(** ** Pacing over the life of an instance *)

Section Paced.
Context `{Runtime}.
Variable gap : Q.

(** Steps that issue no request and touch neither [last_request_time] nor
    [min_request_interval] keep the fetcher in order. *)
Lemma well_paced_same s s' :
  requests (trace (env s')) = requests (trace (env s)) ->
  last_request_time (self s') = last_request_time (self s) ->
  min_request_interval (self s') = min_request_interval (self s) ->
  well_paced gap s -> well_paced gap s'.
Proof.
  intros Hr Hl Hg (Hgap & Hpos & Hp).
  split; [congruence|]. split; [exact Hpos|].
  unfold paced in *. rewrite Hr, Hl, Hg. exact Hp.
Qed.

Lemma requests_snoc_quiet t e :
  request_time e = None -> requests (t ++ [e]) = requests t.
Proof. intros He. rewrite requests_app. simpl. rewrite He. apply app_nil_r. Qed.

Ltac quiet :=
  eapply well_paced_same; [| | | eassumption];
  cbn; rewrite ?requests_snoc_quiet by reflexivity; reflexivity.

Lemma make_request_well_paced bound pool url k s :
  well_paced gap s -> well_paced gap (snd (make_request bound pool url k s)).
Proof.
  intros (Hgap & Hpos & Hp). split; [|split].
  - unfold make_request. rewrite make_request_from_gap. exact Hgap.
  - exact Hpos.
  - apply make_request_from_paced; [rewrite Hgap; exact Hpos | exact Hp].
Qed.

Lemma parse_profile_well_paced K doc s :
  well_paced gap s -> well_paced gap (snd (parse_profile K doc s)).
Proof.
  intros Hs.
  destruct (raw_page_data doc) as [[[[text desc] meta] user]|e] eqn:Hraw.
  - rewrite (parse_profile_ok _ _ _ _ _ _ _ Hraw).
    destruct (profile_record _ _ _ _ _ _); quiet.
  - revert Hraw.
    unfold raw_page_data, parse_profile, tbind, lift, assign, tret, rbind.
    destruct (summary_tokens _) as [text0|]; [|intros _; exact Hs].
    destruct (load_description _) as [desc0|]; [|intros _; exact Hs].
    destruct (find_profile_script _) as [p|]; [|intros _; quiet].
    destruct (snapshot_literal p) as [j|]; [|intros _; quiet].
    destruct (loads j) as [meta0|]; [|intros _; quiet].
    destruct (user_node meta0) as [u|]; [|intros _; quiet].
    discriminate.
Qed.

Lemma scrape_profile_well_paced s :
  well_paced gap s -> well_paced gap (snd (Osint.scrape_profile s)).
Proof.
  intros Hs. unfold Osint.scrape_profile.
  pose proof (make_request_well_paced (max_retries (self s)) 7
                (JStr (profile_url (username (self s)))) 0 s Hs) as H1.
  unfold Osint._make_request.
  destruct (make_request _ 7 _ 0 s) as [[resp|] s1]; simpl in H1; [|simpl; quiet].
  pose proof (parse_profile_well_paced display_keys (document resp) s1 H1) as H2.
  destruct (parse_profile display_keys (document resp) s1) as [[data|e] s2];
    simpl in H2; simpl; quiet.
Qed.

Lemma scrape_posts_well_paced limit s :
  well_paced gap s -> well_paced gap (snd (Osint.scrape_posts limit s)).
Proof.
  intros Hs. unfold Osint.scrape_posts.
  destruct (negb _); [simpl; quiet|].
  destruct (truthy _); [simpl; quiet|].
  destruct (rbind _ _); simpl; quiet.
Qed.

Lemma download_items_well_paced posts_dir items : forall s,
  well_paced gap s -> well_paced gap (Osint.download_items posts_dir items s).
Proof.
  induction items as [|[post_id post_data] rest IH]; intros s Hs; [exact Hs|].
  simpl. destruct (negb _); [apply IH; exact Hs|].
  pose proof (make_request_well_paced (max_retries (self s)) 7
                (dict_get post_data "Display URL" JNull) 0 s Hs) as H1.
  unfold Osint._make_request.
  destruct (make_request _ 7 _ 0 s) as [[resp|] s1]; simpl in H1; apply IH; [quiet | exact H1].
Qed.

Lemma download_media_well_paced out limit s :
  well_paced gap s -> well_paced gap (snd (Osint.download_media out limit s)).
Proof.
  intros Hs. unfold Osint.download_media.
  destruct (negb (truthy (JDict (profile_data (self s))))); [simpl; quiet|].
  set (dir := match out with Some d => _ | None => _ end).
  assert (H0 : well_paced gap (os_makedirs dir s)) by quiet.
  set (s0 := os_makedirs dir s) in *. clearbody s0.
  cbn [snd].
  match goal with
  | |- context [Osint.scrape_posts limit ?p] => set (s1 := p) in *
  end.
  assert (H1 : well_paced gap s1).
  { unfold s1. destruct (truthy _); [|exact H0].
    pose proof (make_request_well_paced (max_retries (self s0)) 7
                  (dict_get (profile_data (self s0)) "Profile Picture URL" JNull) 0 s0 H0) as H1.
    unfold Osint._make_request.
    destruct (make_request _ 7 _ 0 s0) as [[resp|] s2]; simpl in H1; [quiet | exact H1]. }
  clearbody s1.
  destruct (negb _); [|exact H1].
  pose proof (scrape_posts_well_paced limit s1 H1) as H2.
  destruct (Osint.scrape_posts limit s1) as [[[|post posts]|] s2]; simpl in H2;
    try exact H2.
  apply download_items_well_paced. quiet.
Qed.

Lemma fetch_profile_data_well_paced s :
  well_paced gap s -> well_paced gap (snd (Main._fetch_profile_data s)).
Proof.
  intros Hs. unfold Main._fetch_profile_data.
  pose proof (make_request_well_paced 3 5
                (JStr (profile_url (username (self s)))) 0 s Hs) as H1.
  unfold Main._make_request.
  destruct (make_request 3 5 _ 0 s) as [[resp|] s1]; simpl in H1; [|exact H1].
  pose proof (parse_profile_well_paced snake_keys (document resp) s1 H1) as H2.
  destruct (parse_profile snake_keys (document resp) s1) as [[data|e] s2];
    simpl in H2; simpl; [exact H2 | quiet].
Qed.

Lemma download_profile_picture_well_paced s :
  well_paced gap s -> well_paced gap (Main._download_profile_picture s).
Proof.
  intros Hs. unfold Main._download_profile_picture.
  destruct (negb _); [exact Hs|].
  pose proof (make_request_well_paced 3 5
                (dict_get (profile_data (self s)) "profile_pic_url" JNull) 0 s Hs) as H1.
  unfold Main._make_request.
  destruct (make_request 3 5 _ 0 s) as [[resp|] s1]; simpl in H1; [quiet | exact H1].
Qed.

Lemma download_one_well_paced posts_dir post_id media_url post_data s :
  well_paced gap s ->
  well_paced gap (Main.download_one posts_dir post_id media_url post_data s).
Proof.
  intros Hs. unfold Main.download_one.
  match goal with
  | |- context [random_uniform 1 3 ?p] => set (s1 := p) in *
  end.
  assert (H1 : well_paced gap s1).
  { unfold s1. destruct (truthy media_url); [|exact Hs].
    pose proof (make_request_well_paced 3 5 media_url 0 s Hs) as H1.
    unfold Main._make_request.
    destruct (make_request 3 5 media_url 0 s) as [[resp|] s2]; simpl in H1;
      [quiet | exact H1]. }
  clearbody s1. unfold random_uniform, random. quiet.
Qed.

Lemma download_edges_well_paced posts_dir edges : forall posts_data s,
  well_paced gap s ->
  well_paced gap (snd (Main.download_edges posts_dir edges posts_data s)).
Proof.
  induction edges as [|post rest IH]; intros posts_data s Hs; [exact Hs|].
  simpl. unfold tbind, lift.
  destruct (py_item post "node") as [post_node|]; [|exact Hs].
  destruct (py_item post_node "id") as [post_id|]; [|exact Hs].
  destruct (Main.post_metadata post_id post_node) as [post_data|]; [|exact Hs].
  destruct (py_get post_node "display_url" JNull) as [media_url|]; [|exact Hs].
  apply IH. apply download_one_well_paced. exact Hs.
Qed.

Lemma download_posts_well_paced limit s :
  well_paced gap s -> well_paced gap (Main._download_posts limit s).
Proof.
  intros Hs. unfold Main._download_posts, tbind.
  destruct (timeline_edges (profile_meta (self s)) limit) as [edges|]; [|quiet].
  set (posts_dir := os_path_join (output_dir (self s)) "posts").
  assert (H1 : well_paced gap (os_makedirs posts_dir s)) by quiet.
  pose proof (download_edges_well_paced posts_dir (py_iter edges) []
                (os_makedirs posts_dir s) H1) as H2.
  destruct (Main.download_edges posts_dir (py_iter edges) [] (os_makedirs posts_dir s))
    as [[posts_data|e] s2]; simpl in H2; quiet.
Qed.

Lemma download_content_well_paced s :
  well_paced gap s -> well_paced gap (Main._download_content s).
Proof.
  intros Hs. unfold Main._download_content.
  destruct (truthy _); [quiet|].
  apply download_posts_well_paced, download_profile_picture_well_paced, Hs.
Qed.

Lemma create_output_directory_well_paced s :
  well_paced gap s -> well_paced gap (snd (Main._create_output_directory s)).
Proof. intros Hs. unfold Main._create_output_directory, Main.allocate_directory. quiet. Qed.

Lemma operate_well_paced op s : well_paced gap s -> well_paced gap (operate op s).
Proof.
  intros Hs. destruct op; cbn [operate].
  - apply scrape_profile_well_paced, Hs.
  - apply scrape_posts_well_paced, Hs.
  - apply download_media_well_paced, Hs.
  - pose proof (create_output_directory_well_paced s Hs) as H1.
    destruct (Main._create_output_directory s) as [path s1]. simpl in H1. clear Hs. quiet.
  - apply fetch_profile_data_well_paced, Hs.
  - apply download_content_well_paced, Hs.
Qed.

Lemma perform_well_paced bound pool a s :
  well_paced gap s -> well_paced gap (perform bound pool a s).
Proof.
  intros Hs. destruct a as [op | url | d]; simpl.
  - apply operate_well_paced, Hs.
  - apply make_request_well_paced, Hs.
  - quiet.
Qed.

Lemma perform_all_well_paced bound pool l : forall s,
  well_paced gap s -> well_paced gap (perform_all bound pool l s).
Proof.
  induction l as [|a l IH]; intros s Hs; [exact Hs|].
  simpl. apply IH, perform_well_paced, Hs.
Qed.

End Paced.

(** C4.  Take an instance that has issued no request yet and whose minimum
    interval is not negative (it is 2 after [__init__]), and let it do
    anything, in any order: call [scrape_profile], [scrape_posts] and
    [download_media] of [InstagramOSINT.py], call
    [_create_output_directory], [_fetch_profile_data] and
    [_download_content] of [main.py], fetch an address directly, each fetch
    with all its retries, and spend time in between.  Then the interval is
    still what it was, and any two requests the instance has issued left at
    least that interval apart. *)
Theorem requests_are_paced `{Runtime} (bound : Z) (pool : nat) (l : list activity)
    (s : state) :
  (0 <= min_request_interval (self s))%Q ->
  requests (trace (env s)) = [] ->
  let s' := perform_all bound pool l s in
  min_request_interval (self s') = min_request_interval (self s) /\
  apart (min_request_interval (self s)) (requests (trace (env s'))).
Proof.
  intros Hpos Hnone s'.
  destruct (perform_all_well_paced (min_request_interval (self s)) bound pool l s)
    as (Hsame & _ & Hap & _).
  - split; [reflexivity|]. split; [exact Hpos|]. split; rewrite Hnone.
    + apply apart_nil.
    + intros t Ht. apply elem_of_nil in Ht. contradiction.
  - split; [exact Hsame|]. unfold s'. rewrite <- Hsame at 1. exact Hap.
Qed.


(** A run of [InstagramOSINT.py] on a public profile, with a direct fetch
    and a pause: every two requests are 2 apart. *)
Lemma requests_are_paced_witness :
  let s := Scenario.start [Scenario.down; Scenario.served Scenario.public_page] in
  let s' := @perform_all Py.runtime 3 5
              [Call ScrapeProfile; Fetch (JStr "a"); Elapse (1 # 2);
               Call (DownloadMedia None 12)] s in
  min_request_interval (self s') = min_request_interval (self s) /\
  apart (min_request_interval (self s)) (requests (trace (env s'))).
Proof.
  intros s.
  apply (@requests_are_paced Py.runtime 3 5
           [Call ScrapeProfile; Fetch (JStr "a"); Elapse (1 # 2);
            Call (DownloadMedia None 12)] s).
  - vm_compute. discriminate.
  - reflexivity.
Defined.

Example paced_requests_example :
  Qred <$> requests (trace (env (@perform_all Py.runtime 3 5
     [Fetch (JStr "a"); Elapse (1 # 2); Fetch (JStr "b")]
     (Scenario.start [Scenario.down; Scenario.served Scenario.public_page]))))
  = [1000; 1002; 1004; 1006; 10081 # 10; 5061 # 5]%Q.
Proof. vm_compute. reflexivity. Qed.

Section ProfileClaims.
Context `{Runtime}.



(** The name and the address of a record that was built. *)
Lemma record_name_and_url K user desc user_data text stamp data :
  K = display_keys \/ K = snake_keys ->
  profile_record K user desc user_data text stamp = Ok data ->
  name_and_url K user desc user_data data.
Proof.
  intros HK Hrec.
  destruct (profile_record_fields _ _ _ _ _ _ _ Hrec)
    as (v0 & v_name & v_url & v1 & v2 & v3 & rest & -> & Hname & Hurl & _).
  assert (Hn : dict_lookup (k_profile_name K)
                 ((k_username K, v0) :: (k_profile_name K, v_name) :: (k_url K, v_url) ::
                  (k_followers K, v1) :: (k_following K, v2) :: (k_posts K, v3) :: rest)
               = Some v_name)
    by (destruct HK as [-> | ->]; reflexivity).
  assert (Hu : dict_lookup (k_url K)
                 ((k_username K, v0) :: (k_profile_name K, v_name) :: (k_url K, v_url) ::
                  (k_followers K, v1) :: (k_following K, v2) :: (k_posts K, v3) :: rest)
               = Some v_url)
    by (destruct HK as [-> | ->]; reflexivity).
  unfold name_and_url.
  destruct (truthy desc) eqn:Htruthy.
  - destruct desc as [| b | n | str | l | [|p d]]; try discriminate.
    simpl in Hname, Hurl. injection Hname as <-.
    destruct (dict_get (p :: d) "mainEntityofPage" (JDict [])) as [| | | | |m] eqn:Hm;
      try discriminate.
    simpl in Hurl. injection Hurl as <-.
    split; [exact Hn|]. exists m. split; [reflexivity | exact Hu].
  - destruct user_data as [| | | | |u]; try discriminate.
    simpl in Hname. injection Hname as <-. injection Hurl as <-.
    destruct desc as [| b | n | str | l | [|p d]];
      try (simpl in Htruthy; discriminate Htruthy);
      (split; [reflexivity|]; exists u; auto).
Qed.

(** C1, as the code has it.  Whenever a record is produced, its name and
    its address come from the JSON-LD mapping as soon as that mapping is not
    empty -- the entry [name], the entry [@id] of [mainEntityofPage], each
    replaced by the empty string where missing -- and from the snapshot's
    [full_name] and the address built from the user name only when the
    JSON-LD block is absent or decodes to an empty value.  A block that is
    there but lacks the field does not fall through. *)
Theorem name_and_url_precedence (s : state) (data : pydict) (s' : state) :
  (Osint.scrape_profile s = (Some data, s') ->
   exists resp s1 text desc meta user_data,
     Osint._make_request (JStr (profile_url (username (self s)))) 0 s = (Some resp, s1) /\
     raw_page_data (document resp) = Ok (text, desc, meta, user_data) /\
     profile_data (self s') = data /\
     name_and_url display_keys (username (self s)) desc user_data data) /\
  (Main._fetch_profile_data s = (true, s') ->
   exists resp s1 text desc meta user_data,
     Main._make_request (JStr (profile_url (username (self s)))) 0 s = (Some resp, s1) /\
     raw_page_data (document resp) = Ok (text, desc, meta, user_data) /\
     name_and_url snake_keys (username (self s)) desc user_data (profile_data (self s'))).
Proof.
  split.
  - intros Hrun.
    destruct (scrape_profile_inv _ _ _ Hrun) as (resp & s1 & s2 & Hget & Hparse & ->).
    destruct (parse_profile_inv _ _ _ _ _ Hparse)
      as (text & desc & meta & user & Hraw & Hrec & ->).
    exists resp, s1, text, desc, meta, user.
    split; [exact Hget|]. split; [exact Hraw|]. split; [reflexivity|].
    assert (Hname : username (self s1) = username (self s))
      by (rewrite <- (make_request_username (max_retries (self s)) 7
                        (JStr (profile_url (username (self s)))) 0 s);
          rewrite <- osint_make_request, Hget; reflexivity).
    rewrite <- Hname. eapply record_name_and_url; [left; reflexivity | exact Hrec].
  - intros Hrun.
    destruct (fetch_profile_data_inv _ _ Hrun) as (resp & s1 & data0 & Hget & Hparse).
    destruct (parse_profile_inv _ _ _ _ _ Hparse)
      as (text & desc & meta & user & Hraw & Hrec & ->).
    exists resp, s1, text, desc, meta, user.
    split; [exact Hget|]. split; [exact Hraw|].
    assert (Hname : username (self s1) = username (self s))
      by (rewrite <- (make_request_username 3 5
                        (JStr (profile_url (username (self s)))) 0 s);
          rewrite <- main_make_request, Hget; reflexivity).
    rewrite <- Hname. simpl. eapply record_name_and_url; [right; reflexivity | exact Hrec].
Qed.



Lemma find_profile_script_none more_data :
  (forall tag str, tag ∈ more_data -> script_string tag = Some str ->
                   contains "window._sharedData" str = false) ->
  find_profile_script more_data = None.
Proof.
  induction more_data as [|tag rest IH]; intros Hnone; [reflexivity|].
  simpl. destruct (script_string tag) as [str|] eqn:Hstr.
  - rewrite (Hnone tag str); [|left|exact Hstr].
    apply IH. intros tag' str' Hin. apply Hnone. right. exact Hin.
  - apply IH. intros tag' str' Hin. apply Hnone. right. exact Hin.
Qed.

(** Without a marked script the parse raises, and leaves [profile_data]
    alone. *)
Lemma parse_profile_no_script K doc s :
  og_description doc <> [] ->
  find_profile_script (javascript doc) = None ->
  exists e s2,
    parse_profile K doc s = (Raise e, s2) /\
    profile_data (self s2) = profile_data (self s) /\
    ((exists text desc, summary_tokens (og_description doc) = Ok text /\
                        load_description (ld_json doc) = Ok desc) ->
     e = ValueError "Profile data script not found").
Proof.
  intros _ Hnone.
  assert (Hraw : exists e, raw_page_data doc = Raise e /\
            ((exists text desc, summary_tokens (og_description doc) = Ok text /\
                                load_description (ld_json doc) = Ok desc) ->
             e = ValueError "Profile data script not found")).
  { unfold raw_page_data, rbind. rewrite Hnone.
    destruct (summary_tokens (og_description doc)) as [text|e0].
    - destruct (load_description (ld_json doc)) as [desc|e1].
      + eexists. split; [reflexivity | intros _; reflexivity].
      + exists e1. split; [reflexivity | intros (t & d & _ & Hd); discriminate].
    - exists e0. split; [reflexivity | intros (t & d & Ht & _); discriminate]. }
  destruct Hraw as (e & Hraw & He).
  destruct (parse_profile_raise K doc s e Hraw) as (s2 & Hparse & Hdata).
  exists e, s2. auto.
Qed.

(** C8, as the code has it.  When the summary tag is present and no inline
    script holds the marker, the parse raises and no record is produced:
    [scrape_profile] returns [None], [_fetch_profile_data] returns [False],
    and [profile_data] is left as it was.  The exception is the one for the
    missing snapshot provided the two earlier steps went through, that is,
    the summary tag has its [content] and the JSON-LD block, if any,
    decodes; otherwise it is the exception of the step that failed first. *)
Theorem missing_snapshot_is_fatal (s : state) (resp : response) (s1 : state) :
  og_description (document resp) <> [] ->
  (forall tag str, tag ∈ javascript (document resp) -> script_string tag = Some str ->
                   contains "window._sharedData" str = false) ->
  (Osint._make_request (JStr (profile_url (username (self s)))) 0 s = (Some resp, s1) ->
   exists e s2,
     Osint.scrape_profile s = (None, log Error (ScrapeError e) s2) /\
     profile_data (self s2) = profile_data (self s) /\
     ((exists text desc, summary_tokens (og_description (document resp)) = Ok text /\
                         load_description (ld_json (document resp)) = Ok desc) ->
      e = ValueError "Profile data script not found")) /\
  (Main._make_request (JStr (profile_url (username (self s)))) 0 s = (Some resp, s1) ->
   exists e s2,
     Main._fetch_profile_data s = (false, log Error (ParseError e) s2) /\
     profile_data (self s2) = profile_data (self s) /\
     ((exists text desc, summary_tokens (og_description (document resp)) = Ok text /\
                         load_description (ld_json (document resp)) = Ok desc) ->
      e = ValueError "Profile data script not found")).
Proof.
  intros Hmeta Hnone. apply find_profile_script_none in Hnone.
  split; intros Hget.
  - destruct (parse_profile_no_script display_keys (document resp) s1 Hmeta Hnone)
      as (e & s2 & Hparse & Hdata & He).
    exists e, s2. split; [exact (scrape_profile_raises _ _ _ _ _ Hget Hparse)|].
    split; [|exact He]. rewrite Hdata.
    rewrite osint_make_request in Hget.
    pose proof (make_request_profile_data (max_retries (self s)) 7
                  (JStr (profile_url (username (self s)))) 0 s) as Hd.
    rewrite Hget in Hd. exact Hd.
  - destruct (parse_profile_no_script snake_keys (document resp) s1 Hmeta Hnone)
      as (e & s2 & Hparse & Hdata & He).
    exists e, s2. split; [exact (fetch_profile_data_raises _ _ _ _ _ Hget Hparse)|].
    split; [|exact He]. rewrite Hdata.
    rewrite main_make_request in Hget.
    pose proof (make_request_profile_data 3 5
                  (JStr (profile_url (username (self s)))) 0 s) as Hd.
    rewrite Hget in Hd. exact Hd.
Qed.

Lemma count_value_token text i u edge token :
  text !! i = Some token -> count_value text i u edge = JStr token.
Proof. unfold count_value. intros ->. reflexivity. Qed.

Lemma count_value_missing text i u edge e :
  (length text <= i)%nat ->
  dict_get u edge (JDict []) = JDict e ->
  count_value text i u edge = JStr (py_str (dict_get e "count" (JStr "N/A"))).
Proof.
  unfold count_value. intros Hlen ->.
  rewrite (lookup_ge_None_2 text i Hlen). reflexivity.
Qed.

(** The expression of a count evaluates to [count_value], without raising,
    as soon as the edge it may have to consult is a mapping. *)
Lemma count_field_value text i u edge :
  consultable text i u edge ->
  count_field text i (JDict u) edge = Ok (count_value text i u edge).
Proof.
  unfold consultable, count_field, count_value. intros Hedge.
  destruct (bool_decide (i < length text)) eqn:Hlt.
  - apply bool_decide_eq_true in Hlt.
    destruct (lookup_lt_is_Some_2 text i Hlt) as [token ->]. reflexivity.
  - apply bool_decide_eq_false in Hlt.
    destruct Hedge as [e He]; [lia|].
    rewrite (lookup_ge_None_2 text i) by lia.
    simpl. rewrite He. reflexivity.
Qed.

(** The record is built, with these counts, whenever the user node is a
    mapping, the JSON-LD mapping is usable and the edges consulted are
    mappings. *)
Lemma profile_record_counts K user desc u text stamp :
  K = display_keys \/ K = snake_keys ->
  usable desc ->
  consultable text 0 u "edge_followed_by" ->
  consultable text 2 u "edge_follow" ->
  consultable text 4 u "edge_owner_to_timeline_media" ->
  exists data,
    profile_record K user desc (JDict u) text stamp = Ok data /\
    counts_are K (count_value text 0 u "edge_followed_by")
      (count_value text 2 u "edge_follow")
      (count_value text 4 u "edge_owner_to_timeline_media") data.
Proof.
  intros HK Hdesc H0 H2 H4.
  unfold profile_record.
  rewrite (count_field_value _ _ _ _ H0), (count_field_value _ _ _ _ H2),
    (count_field_value _ _ _ _ H4).
  assert (Hname : exists v, (if truthy desc then py_get desc "name" (JStr "")
                             else py_get (JDict u) "full_name" (JStr "")) = Ok v).
  { destruct (truthy desc) eqn:Ht; [|eexists; reflexivity].
    destruct Hdesc as [Hf | (d & m & -> & _)]; [congruence | eexists; reflexivity]. }
  assert (Hurl : exists v, (if truthy desc
                            then (m <~ py_get desc "mainEntityofPage" (JDict []);
                                  py_get m "@id" (JStr ""))%py
                            else Ok (JStr (profile_url user))) = Ok v).
  { destruct (truthy desc) eqn:Ht; [|eexists; reflexivity].
    destruct Hdesc as [Hf | (d & m & -> & Hm)]; [congruence|].
    simpl. rewrite Hm. eexists; reflexivity. }
  destruct Hname as [v_name ->]. destruct Hurl as [v_url ->].
  cbn [py_get rbind]. eexists. split; [reflexivity|].
  destruct HK as [-> | ->]; repeat split.
Qed.

(** The expression of a count, when it does not raise, evaluates to
    [count_value]. *)
Lemma count_field_inv text i u edge v :
  count_field text i (JDict u) edge = Ok v -> v = count_value text i u edge.
Proof.
  unfold count_field, count_value.
  destruct (bool_decide (i < length text)) eqn:Hlt.
  - apply bool_decide_eq_true in Hlt.
    destruct (lookup_lt_is_Some_2 text i Hlt) as [token ->]. simpl. congruence.
  - apply bool_decide_eq_false in Hlt.
    rewrite (lookup_ge_None_2 text i) by lia.
    simpl. destruct (dict_get u edge (JDict [])); simpl; congruence.
Qed.

(** The counts of a record that was built. *)
Lemma record_counts K user desc u text stamp data :
  K = display_keys \/ K = snake_keys ->
  profile_record K user desc (JDict u) text stamp = Ok data ->
  counts_are K (count_value text 0 u "edge_followed_by")
    (count_value text 2 u "edge_follow")
    (count_value text 4 u "edge_owner_to_timeline_media") data.
Proof.
  intros HK Hrec.
  destruct (profile_record_fields _ _ _ _ _ _ _ Hrec)
    as (v0 & v_name & v_url & v1 & v2 & v3 & rest & -> & _ & _ & H0 & H2 & H4).
  apply count_field_inv in H0, H2, H4. subst v1 v2 v3.
  destruct HK as [-> | ->]; repeat split.
Qed.

(** C5.  Let the page have been read: [text] are the tokens of its summary,
    [desc] its JSON-LD mapping and [u] the user node of its snapshot.

    - Whenever a record is produced, in either file, each of its three
      counts is [count_value]: the token at index 0, 2 or 4 when [text] has
      one, and otherwise [str] of the snapshot's count for that field,
      ['N/A'] when the snapshot has none.
    - If [text] is of the form [N1, "Followers,", N2, "Following,", N3,
      "Posts"], these counts are N1, N2 and N3 whatever the snapshot holds.
    - A record is produced as soon as the JSON-LD mapping is usable for the
      name and the address and every edge that has to be consulted for a
      missing token is a mapping. *)
Theorem count_precedence (s : state) (resp : response)
    (text : list string) (desc meta : json) (u : pydict) :
  raw_page_data (document resp) = Ok (text, desc, meta, JDict u) ->
  let followers := count_value text 0 u "edge_followed_by" in
  let following := count_value text 2 u "edge_follow" in
  let posts := count_value text 4 u "edge_owner_to_timeline_media" in
  (forall s1 data s',
      Osint._make_request (JStr (profile_url (username (self s)))) 0 s = (Some resp, s1) ->
      Osint.scrape_profile s = (Some data, s') ->
      counts_are display_keys followers following posts data) /\
  (forall s1 s',
      Main._make_request (JStr (profile_url (username (self s)))) 0 s = (Some resp, s1) ->
      Main._fetch_profile_data s = (true, s') ->
      counts_are snake_keys followers following posts (profile_data (self s'))) /\
  (forall n1 n2 n3,
      text = [n1; "Followers,"; n2; "Following,"; n3; "Posts"] ->
      followers = JStr n1 /\ following = JStr n2 /\ posts = JStr n3) /\
  (usable desc ->
   consultable text 0 u "edge_followed_by" ->
   consultable text 2 u "edge_follow" ->
   consultable text 4 u "edge_owner_to_timeline_media" ->
   osint_yields s resp (counts_are display_keys followers following posts) /\
   main_yields s resp (counts_are snake_keys followers following posts)).
Proof.
  intros Hraw followers following posts.
  split; [|split; [|split]].
  - intros s1 data s' Hget Hrun.
    destruct (scrape_profile_inv _ _ _ Hrun) as (resp' & s1' & s2 & Hget' & Hparse & _).
    rewrite Hget in Hget'. injection Hget' as <- <-.
    rewrite (parse_profile_ok display_keys _ s1 _ _ _ _ Hraw) in Hparse.
    destruct (profile_record display_keys _ _ _ _ _) as [data0|] eqn:Hrec; [|discriminate].
    injection Hparse as <- _.
    exact (record_counts _ _ _ _ _ _ _ (or_introl eq_refl) Hrec).
  - intros s1 s' Hget Hrun.
    destruct (fetch_profile_data_inv _ _ Hrun) as (resp' & s1' & data & Hget' & Hparse).
    rewrite Hget in Hget'. injection Hget' as <- <-.
    rewrite (parse_profile_ok snake_keys _ s1 _ _ _ _ Hraw) in Hparse.
    destruct (profile_record snake_keys _ _ _ _ _) as [data0|] eqn:Hrec; [|discriminate].
    injection Hparse as <- <-.
    exact (record_counts _ _ _ _ _ _ _ (or_intror eq_refl) Hrec).
  - intros n1 n2 n3 ->. repeat split.
  - intros Hdesc H0 H2 H4. split; intros s1 Hget.
    + destruct (profile_record_counts display_keys (username (self s1)) desc u text
                  (now_isoformat (time_time s1)) (or_introl eq_refl) Hdesc H0 H2 H4)
        as (data & Hrec & Hcounts).
      pose proof (parse_profile_ok display_keys _ s1 _ _ _ _ Hraw) as Hparse.
      rewrite Hrec in Hparse.
      eexists data, _. split; [exact (scrape_profile_returns _ _ _ _ _ Hget Hparse)|].
      split; [reflexivity | exact Hcounts].
    + destruct (profile_record_counts snake_keys (username (self s1)) desc u text
                  (now_isoformat (time_time s1)) (or_intror eq_refl) Hdesc H0 H2 H4)
        as (data & Hrec & Hcounts).
      pose proof (parse_profile_ok snake_keys _ s1 _ _ _ _ Hraw) as Hparse.
      rewrite Hrec in Hparse.
      eexists. split; [exact (fetch_profile_data_returns _ _ _ _ _ Hget Hparse)|].
      exact Hcounts.
Qed.

End ProfileClaims.

(** ** The profile claims on concrete pages *)

(** A page whose JSON-LD block is [{"@type": "Person"}], for a user whose
    [full_name] is [Alice A]: the record's name and address are empty in
    both files; neither falls through to the snapshot or to the built
    address. *)
Lemma json_ld_without_name_counterexample :
  let s := Scenario.start [Scenario.served Scenario.typed_page] in
  let s1 := snd (@Osint.scrape_profile Py.runtime s) in
  let s2 := snd (@Main._fetch_profile_data Py.runtime s) in
  description (self s1) = Some (JDict [("@type", JStr "Person")]) /\
  (m ← profile_meta (self s1);
   Some (u <~ user_node m; py_get u "full_name" JNull)%py) = Some (Ok (JStr "Alice A")) /\
  dict_lookup "Profile Name" (profile_data (self s1)) = Some (JStr "") /\
  dict_lookup "URL" (profile_data (self s1)) = Some (JStr "") /\
  dict_lookup "profile_name" (profile_data (self s2)) = Some (JStr "") /\
  dict_lookup "url" (profile_data (self s2)) = Some (JStr "").
Proof. vm_compute. repeat split. Qed.

Lemma name_and_url_precedence_witness :
  let s := Scenario.start [Scenario.served Scenario.typed_page] in
  let r := @Osint.scrape_profile Py.runtime s in
  exists resp s1 text desc meta user_data,
    Osint._make_request (JStr (profile_url (username (self s)))) 0 s = (Some resp, s1) /\
    @raw_page_data Py.runtime (document resp) = Ok (text, desc, meta, user_data) /\
    profile_data (self (snd r)) = default [] (fst r) /\
    name_and_url display_keys (username (self s)) desc user_data (default [] (fst r)).
Proof.
  intros s r.
  apply (proj1 (@name_and_url_precedence Py.runtime s (default [] (fst r)) (snd r))).
  vm_compute. reflexivity.
Defined.

(** The same page read without its JSON-LD block: the name is the
    snapshot's and the address is built from the user name. *)
Example no_json_ld_falls_through :
  let s1 := snd (@Osint.scrape_profile Py.runtime
                   (Scenario.start [Scenario.served Scenario.public_page])) in
  dict_lookup "Profile Name" (profile_data (self s1)) = Some (JStr "Alice A") /\
  dict_lookup "URL" (profile_data (self s1)) = Some (JStr "https://www.instagram.com/alice/").
Proof. vm_compute. repeat split. Qed.



(** A page with its summary tag, no marked script and a JSON-LD block that
    is not JSON: the parse fails, but with the decoder's exception, not with
    the one for the missing snapshot. *)
Lemma missing_snapshot_counterexample :
  let s := Scenario.start [Scenario.served Scenario.broken_ld_bare_page] in
  og_description Scenario.broken_ld_bare_page <> [] /\
  find_profile_script (javascript Scenario.broken_ld_bare_page) = None /\
  fst (@Osint.scrape_profile Py.runtime s) = None /\
  last (trace (env (snd (@Osint.scrape_profile Py.runtime s)))) =
    Some (EvLog Error (ScrapeError JSONDecodeError)) /\
  last (trace (env (snd (@Main._fetch_profile_data Py.runtime s)))) =
    Some (EvLog Error (ParseError JSONDecodeError)).
Proof. vm_compute. repeat split. discriminate. Qed.

Lemma missing_snapshot_is_fatal_witness :
  let s := Scenario.start [Scenario.served Scenario.bare_page] in
  let s1 := snd (Osint._make_request (JStr (profile_url (username (self s)))) 0 s) in
  exists e s2,
    @Osint.scrape_profile Py.runtime s = (None, log Error (ScrapeError e) s2) /\
    profile_data (self s2) = profile_data (self s) /\
    ((exists text desc,
        summary_tokens (og_description Scenario.bare_page) = Ok text /\
        @load_description Py.runtime (ld_json Scenario.bare_page) = Ok desc) ->
     e = ValueError "Profile data script not found").
Proof.
  intros s s1.
  apply (proj1 (@missing_snapshot_is_fatal Py.runtime s
                  {| body := "bytes"; document := Scenario.bare_page |} s1
                  ltac:(discriminate)
                  ltac:(intros tag str Hin Hstr;
                        apply list_elem_of_singleton in Hin; subst tag;
                        injection Hstr as <-; reflexivity))).
  vm_compute. reflexivity.
Defined.

Example missing_snapshot_error :
  last (trace (env (snd (@Osint.scrape_profile Py.runtime
                           (Scenario.start [Scenario.served Scenario.bare_page]))))) =
  Some (EvLog Error (ScrapeError (ValueError "Profile data script not found"))).
Proof. vm_compute. reflexivity. Qed.

Lemma count_precedence_witness :
  let s := Scenario.start [Scenario.served Scenario.public_page] in
  let resp := {| body := "bytes"; document := Scenario.public_page |} in
  @osint_yields Py.runtime s resp
    (counts_are display_keys (JStr "1,234") (JStr "56") (JStr "78")) /\
  @main_yields Py.runtime s resp
    (counts_are snake_keys (JStr "1,234") (JStr "56") (JStr "78")).
Proof.
  intros s resp.
  pose proof (@count_precedence Py.runtime s resp) as Hc.
  edestruct Hc as (_ & _ & _ & Hyields); [vm_compute; reflexivity|].
  apply Hyields; [left; reflexivity | intros Hlen; simpl in Hlen; lia ..].
Defined.

(** A summary of two tokens: the followers are the first token, the other
    two counts are the snapshot's. *)
Example short_summary_falls_through :
  let s1 := snd (@Osint.scrape_profile Py.runtime
                   (Scenario.start [Scenario.served Scenario.short_page])) in
  counts_are display_keys (JStr "9") (JStr "7") (JStr "2") (profile_data (self s1)).
Proof. vm_compute. repeat split. Qed.

(** ** Posts *)

Section PostClaims.
Context `{Runtime}.

(** The caption of a node whose caption edges start with a mapping. *)
Lemma post_caption_first d c e rest n :
  dict_get d "edge_media_to_caption" (JDict []) = JDict c ->
  dict_get c "edges" (JList [JDict []]) = JList (JDict e :: rest) ->
  dict_get e "node" (JDict []) = JDict n ->
  post_caption (JDict d) = Ok (dict_get n "text" (JStr "")).
Proof.
  intros Hc He Hn. unfold post_caption. simpl.
  rewrite Hc. simpl. rewrite He. simpl. rewrite Hn. reflexivity.
Qed.

(** The caption of a node that has no caption entry at all. *)
Lemma post_caption_absent d :
  dict_lookup "edge_media_to_caption" d = None ->
  post_caption (JDict d) = Ok (JStr "").
Proof.
  intros Hnone. unfold post_caption, py_get, dict_get. rewrite Hnone. reflexivity.
Qed.

(** The caption of a node whose caption edges are the empty array:
    [[][0]] raises. *)
Lemma post_caption_empty_edges d c :
  dict_get d "edge_media_to_caption" (JDict []) = JDict c ->
  dict_get c "edges" (JList [JDict []]) = JList [] ->
  post_caption (JDict d) = Raise IndexError /\
  Osint.post_entry (JDict d) = Raise IndexError /\
  (forall post_id, Main.post_metadata post_id (JDict d) = Raise IndexError).
Proof.
  intros Hc He.
  assert (Hcap : post_caption (JDict d) = Raise IndexError)
    by (unfold post_caption; simpl; rewrite Hc; simpl; rewrite He; reflexivity).
  split; [exact Hcap|].
  split; [unfold Osint.post_entry | intros post_id; unfold Main.post_metadata];
    rewrite Hcap; reflexivity.
Qed.

(** [Video Views] is the view count for a video and [None] otherwise. *)
Lemma post_entry_video_views d entry :
  Osint.post_entry (JDict d) = Ok entry ->
  dict_lookup "Video Views" entry =
  Some (if truthy (dict_get d "is_video" (JBool false))
        then dict_get d "video_view_count" (JInt 0)
        else JNull).
Proof.
  unfold Osint.post_entry.
  destruct (post_caption (JDict d)) as [caption|]; [|discriminate].
  cbn [rbind].
  destruct (edge_count (JDict d) "edge_media_to_comment") as [comments|]; [|discriminate].
  cbn [rbind py_get].
  destruct (fromtimestamp_isoformat _) as [date|]; [|discriminate].
  cbn [rbind].
  destruct (edge_count (JDict d) "edge_liked_by") as [likes|]; [|discriminate].
  cbn [rbind py_get].
  destruct (truthy (dict_get d "is_video" (JBool false))); cbn [rbind py_get];
    intros [= <-]; reflexivity.
Qed.

End PostClaims.

(** C6 at a post without a caption.  The second post of the page has
    [edge_media_to_caption = {"edges": []}]: its caption raises [IndexError]
    in both files; [scrape_posts] then returns [None], losing the first post
    too, and [_download_posts] stops before it writes the metadata. *)
Lemma uncaptioned_post_raises :
  let node := JDict [("id", JStr "2"); ("display_url", JStr "http://cdn/2");
                     ("edge_media_to_caption", JDict [("edges", JList [])])] in
  let s := @Osint.init Py.runtime " Alice " 3
             (Scenario.world_of [Scenario.served Scenario.uncaptioned_page]) in
  let m := snd (@Main._fetch_profile_data Py.runtime
                  (Scenario.start [Scenario.served Scenario.uncaptioned_page])) in
  post_caption node = Raise IndexError /\
  match timeline_edges (profile_meta (self s)) 12 with
  | Ok edges => py_iter edges !! 1%nat
  | Raise _ => None
  end = Some (JDict [("node", node)]) /\
  @Osint.scrape_posts Py.runtime 12 s = (None, log Error (PostsError IndexError) s) /\
  last (trace (env (@Main._download_posts Py.runtime 12 m)))
    = Some (EvLog Error (DownloadError IndexError)) /\
  writes (trace (env (@Main._download_posts Py.runtime 12 m))) = [].
Proof. vm_compute. repeat split. Qed.

(** The same page without the second post: the caption is the text of the
    first caption edge, and the views are there because the post is a
    video. *)
Example captioned_post_entry :
  let s := @Osint.init Py.runtime " Alice " 3
             (Scenario.world_of [Scenario.served Scenario.public_page]) in
  exists entry,
    fst (@Osint.scrape_posts Py.runtime 12 s) = Some [(JStr "1", entry)] /\
    dict_lookup "Caption" entry = Some (JStr "hi") /\
    dict_lookup "Video Views" entry = Some (JInt 5).
Proof. vm_compute. eexists. repeat split. Qed.

(** ** Downloads *)

Section DownloadClaims.
Context `{Runtime}.

Lemma make_request_first_served bound pool url s resp :
  outcome (net (env s) (issued (env s))) = Served resp ->
  exists s', make_request bound pool url 0 s = (Some resp, s').
Proof.
  intros Hserved. unfold make_request.
  destruct (make_request_from_succeeds 0 (Z.to_nat (bound - Z.of_nat 0)) bound pool url
              0 s resp) as (s' & t & Hrun & _).
  - lia.
  - lia.
  - intros i Hi. lia.
  - rewrite Nat.add_0_r. exact Hserved.
  - exists s'. exact Hrun.
Qed.

Lemma private_download_media out limit s :
  profile_data (self s) <> [] ->
  truthy (dict_get (profile_data (self s)) "Is Private" (JBool true)) = true ->
  let dir := chosen_dir out s in
  let pic := dict_get (profile_data (self s)) "Profile Picture URL" JNull in
  exists s' t,
    Osint.download_media out limit s = (true, s') /\
    trace (env s') = trace (env s) ++ EvMkdir dir :: t /\
    Forall (eq pic) (urls t) /\
    (forall p, p ∈ writes t -> p = picture_path dir s) /\
    (truthy pic = true ->
     forall resp, outcome (net (env s) (issued (env s))) = Served resp ->
                  writes t = [picture_path dir s]).
Proof.
  intros Hdata Hprivate dir pic.
  unfold Osint.download_media.
  destruct (profile_data (self s)) as [|entry data] eqn:Hpd; [contradiction|].
  cbn [truthy negb].
  fold (chosen_dir out s). fold dir.
  change (profile_data (self (os_makedirs dir s))) with (profile_data (self s)).
  rewrite Hpd. fold pic.
  destruct (truthy pic) eqn:Hpic.
  - pose proof (make_request_from_footprint
                  (Z.to_nat (max_retries (self (os_makedirs dir s)) - Z.of_nat 0))
                  (max_retries (self (os_makedirs dir s))) 7 pic 0 (os_makedirs dir s)) as Hf.
    unfold Osint._make_request, make_request.
    destruct (make_request_from _ _ 7 pic 0 (os_makedirs dir s)) as [[resp|] s2] eqn:Hget;
      destruct Hf as (Hattr & _ & _ & t & Ht & Hw & Hu);
      assert (Hpd2 : profile_data (self s2) = entry :: data)
        by (change (profile_data (attributes (self s2)) = entry :: data);
            rewrite Hattr; exact Hpd);
      assert (Hname : username (self s2) = username (self s))
        by (change (username (attributes (self s2)) = username (attributes (self s)));
            rewrite Hattr; reflexivity).
    + cbn [log write_file on_env self]. rewrite Hpd2, Hprivate. cbn [negb].
      eexists _, (t ++ [EvWrite (picture_path dir s) (Bytes (body resp));
                        EvLog Info (DownloadedPicture (picture_path dir s))]).
      unfold picture_path. rewrite <- Hname.
      split; [reflexivity|]. split.
      { simpl. rewrite Ht. simpl. rewrite <- !app_assoc. reflexivity. }
      rewrite urls_app, writes_app, Hw. simpl. rewrite app_nil_r.
      split; [exact Hu|]. split.
      { intros p Hp. apply list_elem_of_singleton in Hp. exact Hp. }
      intros _ resp' _. reflexivity.
    + rewrite Hpd2, Hprivate. cbn [negb].
      exists s2, t. split; [reflexivity|].
      split; [rewrite Ht; simpl; rewrite <- app_assoc; reflexivity|].
      split; [exact Hu|]. split.
      { intros p Hp. rewrite Hw in Hp. apply elem_of_nil in Hp. contradiction. }
      intros _ resp' Hserved. exfalso.
      destruct (make_request_first_served (max_retries (self (os_makedirs dir s))) 7 pic
                  (os_makedirs dir s) resp' Hserved) as (s'' & Hrun).
      unfold make_request in Hrun. rewrite Hget in Hrun. discriminate.
  - cbn [os_makedirs on_env self]. rewrite Hpd, Hprivate. cbn [negb].
    exists (os_makedirs dir s), []. split; [reflexivity|]. split; [reflexivity|].
    split; [constructor|]. split.
    { intros p Hp. apply elem_of_nil in Hp. contradiction. }
    intros Hcontra. discriminate.
Qed.


(** C7, as the code has it.  [_download_content] of [main.py] does nothing
    for a private profile, or for a record without the flag, but log a
    warning: no request, no directory, no file.  [download_media] of
    [InstagramOSINT.py] skips the posts only: for a private profile it
    still creates the output directory and fetches the profile picture when
    the record has an address for it, writing the picture when the fetch
    succeeds; it asks for no other address and writes no other file. *)
Theorem private_profile_downloads (s : state) :
  (truthy (dict_get (profile_data (self s)) "is_private" (JBool true)) = true ->
   Main._download_content s = log Warning PrivateContent s) /\
  (forall out limit,
     profile_data (self s) <> [] ->
     truthy (dict_get (profile_data (self s)) "Is Private" (JBool true)) = true ->
     let dir := chosen_dir out s in
     let pic := dict_get (profile_data (self s)) "Profile Picture URL" JNull in
     exists s' t,
       Osint.download_media out limit s = (true, s') /\
       trace (env s') = trace (env s) ++ EvMkdir dir :: t /\
       Forall (eq pic) (urls t) /\
       (forall p, p ∈ writes t -> p = picture_path dir s) /\
       (truthy pic = true ->
        forall resp, outcome (net (env s) (issued (env s))) = Served resp ->
                     writes t = [picture_path dir s])).
Proof.
  split.
  - intros Hprivate. unfold Main._download_content. rewrite Hprivate. reflexivity.
  - intros out limit. apply private_download_media.
Qed.


End DownloadClaims.

(** A private profile with a picture: [download_media] fetches the picture
    and writes it. *)
Lemma private_profile_counterexample :
  let s := @Osint.init Py.runtime " Alice " 3
             (Scenario.world_of [Scenario.served Scenario.private_page;
                                 Scenario.served Scenario.private_page]) in
  let r := @Osint.download_media Py.runtime None 12 s in
  dict_lookup "Is Private" (profile_data (self s)) = Some (JBool true) /\
  fst r = true /\
  urls (trace (env (snd r))) =
    [JStr "https://www.instagram.com/alice/"; JStr "http://cdn/pic.jpg"] /\
  writes (trace (env (snd r))) = ["alice/alice_profile_pic.jpg"].
Proof. vm_compute. repeat split. Qed.

Lemma private_profile_downloads_witness :
  let s := snd (@Main._fetch_profile_data Py.runtime
                  (Scenario.start [Scenario.served Scenario.private_page])) in
  @Main._download_content Py.runtime s = log Warning PrivateContent s.
Proof.
  intros s. apply (proj1 (@private_profile_downloads Py.runtime s)). reflexivity.
Defined.

(** A public profile whose every download fails: [download_media] still
    returns [True]; only the metadata of the posts is written. *)
Example failed_downloads_return_true :
  let s := @Osint.init Py.runtime " Alice " 3
             (Scenario.world_of [Scenario.served Scenario.public_page]) in
  let r := @Osint.download_media Py.runtime None 12 s in
  fst r = true /\
  writes (trace (env (snd r))) = ["alice/posts/posts_metadata.json"] /\
  length (urls (trace (env (snd r)))) = 9%nat.
Proof. vm_compute. repeat split. Qed.


(** ** The output directory *)


















(** With [alice] and [alice_1] taken, the next directory is [alice_2]. *)
Example third_allocation :
  let s := Scenario.start [] in
  let s2 := snd (Main._create_output_directory (snd (Main._create_output_directory s))) in
  fst (Main._create_output_directory s2) = "/home/u/instagram_osint_results/alice_2".
Proof. vm_compute. reflexivity. Qed.

(** * The rest of the code *)

(** * Further properties of the two files *)

(** ** The extent of a fetch *)

Lemma files_app t u : files (t ++ u) = files t ++ files u.
Proof. apply omap_app. Qed.

Lemma directories_app t u : directories (t ++ u) = directories t ++ directories u.
Proof. apply omap_app. Qed.

Lemma pauses_app t u : pauses (t ++ u) = pauses t ++ pauses u.
Proof. apply omap_app. Qed.

Lemma backoffs_app t u : backoffs (t ++ u) = backoffs t ++ backoffs u.
Proof. apply omap_app. Qed.

Lemma attempt_extent pool url s :
  let (r, s') := attempt pool url s in
  same_surroundings s s' /\
  issued (env s') = S (issued (env s)) /\
  exists t, trace (env s') = trace (env s) ++ t /\ asks_only url 1 t /\ backoffs t = [].
Proof.
  unfold attempt, _rate_limit, random_choice, random, session_get, time_sleep, time_time.
  destruct (Qlt_le_dec _ _) as [Hlt | Hle]; simpl.
  - split; [repeat split|]. split; [reflexivity|].
    eexists [_; _]. rewrite <- app_assoc. repeat split.
  - split; [repeat split|]. split; [reflexivity|].
    eexists [_]. repeat split.
Qed.

(** The sum of the waits of a fetch whose first attempt is made with
    [retry_count = k] and that makes [n] retries. *)
Lemma total_app a b : (total (a ++ b) == total a + total b)%Q.
Proof.
  induction a as [|x a IH]; simpl.
  - lra.
  - unfold total in *. simpl. rewrite IH. lra.
Qed.

Lemma two_power_step (k : nat) : (2 ^ Z.of_nat (S k) = 2 * 2 ^ Z.of_nat k)%Z.
Proof. rewrite Nat2Z.inj_succ, Z.pow_succ_r by lia. reflexivity. Qed.

(** The body of [_make_request], from the attempt made with
    [retry_count = k]: it makes [n + 1] attempts for some [n] within the
    fuel and the bound, all for [url], and waits [2 ^ k (2 ^ n - 1)] in
    all between them. *)
Lemma make_request_from_extent fuel : forall bound pool url k s,
  let (r, s') := make_request_from fuel bound pool url k s in
  same_surroundings s s' /\
  exists t n,
    trace (env s') = trace (env s) ++ t /\
    asks_only url (S n) t /\
    issued (env s') = (issued (env s) + S n)%nat /\
    (n <= fuel)%nat /\ (Z.of_nat (k + n) <= Z.max bound (Z.of_nat k))%Z /\
    (total (backoffs t) == inject_Z (2 ^ Z.of_nat k * (2 ^ Z.of_nat n - 1)))%Q /\
    (r = None -> (fuel <= n)%nat \/ (bound <= Z.of_nat (k + n))%Z).
Proof.
  induction fuel as [|fuel IH]; intros bound pool url k s;
    rewrite make_request_from_eq;
    pose proof (attempt_extent pool url s) as Ha;
    destruct (attempt pool url s) as [r s1];
    destruct Ha as (Hsame & Hiss & t & Ht & (Hu & Hf & Hd & Hp & Hw) & Hb).
  - assert (Hzero : forall s2 u, trace (env s2) = trace (env s1) ++ u ->
              urls u = [] -> files u = [] -> directories u = [] -> pauses u = [] ->
              writes u = [] -> backoffs u = [] ->
              exists t n,
                trace (env s2) = trace (env s) ++ t /\ asks_only url (S n) t /\
                (issued (env s) + 1 = issued (env s) + S n)%nat /\
                (n <= 0)%nat /\ (Z.of_nat (k + n) <= Z.max bound (Z.of_nat k))%Z /\
                (total (backoffs t) == inject_Z (2 ^ Z.of_nat k * (2 ^ Z.of_nat n - 1)))%Q).
    { intros s2 u Hu2 U1 U2 U3 U4 U5 U6. exists (t ++ u), 0%nat.
      split; [rewrite Hu2, Ht, <- app_assoc; reflexivity|].
      split; [unfold asks_only;
              rewrite urls_app, files_app, directories_app, pauses_app, writes_app,
                Hu, Hf, Hd, Hp, Hw, U1, U2, U3, U4, U5; repeat split|].
      split; [reflexivity|]. split; [lia|]. split; [lia|].
      rewrite backoffs_app, Hb, U6. simpl. rewrite Z.mul_0_r. reflexivity. }
    destruct r as [resp | e].
    + split; [exact Hsame|].
      destruct (Hzero s1 []) as (t' & n & H1 & H2 & H3 & H4 & H5 & H6);
        try reflexivity; [rewrite app_nil_r; reflexivity|].
      exists t', n. rewrite Hiss.
      repeat (split; [first [assumption | lia]|]). discriminate.
    + destruct (Z.of_nat k <? bound)%Z eqn:Hk.
      * split; [exact Hsame|].
        destruct (Hzero s1 []) as (t' & n & H1 & H2 & H3 & H4 & H5 & H6);
          try reflexivity; [rewrite app_nil_r; reflexivity|].
        exists t', n. rewrite Hiss.
        repeat (split; [first [assumption | lia]|]). intros _. left. lia.
      * split; [exact Hsame|].
        destruct (Hzero (log Error (FetchGaveUp url bound) s1) [EvLog Error (FetchGaveUp url bound)])
          as (t' & n & H1 & H2 & H3 & H4 & H5 & H6); try reflexivity.
        exists t', n. simpl. rewrite Hiss.
        repeat (split; [first [assumption | lia]|]). intros _. right.
        apply Z.ltb_ge in Hk. lia.
  - destruct r as [resp | e].
    + split; [exact Hsame|]. exists t, 0%nat.
      split; [exact Ht|]. split; [repeat split; assumption|].
      rewrite Hiss. split; [lia|]. split; [lia|]. split; [lia|].
      split; [rewrite Hb; simpl; rewrite Z.mul_0_r; reflexivity | discriminate].
    + destruct (Z.of_nat k <? bound)%Z eqn:Hk.
      * set (s2 := time_sleep Backoff _ _).
        specialize (IH bound pool url (S k) s2).
        destruct (make_request_from fuel bound pool url (S k) s2) as [r s'].
        destruct IH as (Hsame' & u & n & Hu' & (U1 & U2 & U3 & U4 & U5) & Hi' & Hn & Hkn & Hsum & Hnone).
        apply Z.ltb_lt in Hk.
        split.
        { destruct Hsame as (A1 & A2 & A3 & A4 & A5).
          destruct Hsame' as (B1 & B2 & B3 & B4 & B5).
          unfold s2 in B1, B2, B3, B4, B5. simpl in B1, B2, B3, B4, B5.
          repeat split; congruence. }
        exists (t ++ [EvLog Warning (RequestFailed (Z.of_nat k + 1) bound e);
                      EvSleep Backoff (inject_Z (2 ^ Z.of_nat k))] ++ u), (S n).
        split; [rewrite Hu'; unfold s2; simpl; rewrite Ht, <- !app_assoc; reflexivity|].
        split.
        { unfold asks_only.
          rewrite !urls_app, !files_app, !directories_app, !pauses_app, !writes_app,
            Hu, Hf, Hd, Hp, Hw, U1, U2, U3, U4, U5. repeat split. }
        split; [rewrite Hi'; unfold s2; simpl; rewrite Hiss; lia|].
        split; [lia|]. split; [lia|].
        split.
        { rewrite !backoffs_app, Hb. simpl.
          change (backoffs u) with (backoffs u).
          unfold total in *. simpl. rewrite Hsum.
          rewrite <- inject_Z_plus. apply inject_Z_injective.
          rewrite !two_power_step. ring. }
        intros Hr. destruct (Hnone Hr) as [Hfuel | Hbound]; [left; lia | right; lia].
      * split; [exact Hsame|].
        exists (t ++ [EvLog Error (FetchGaveUp url bound)]), 0%nat.
        split; [simpl; rewrite Ht, <- app_assoc; reflexivity|].
        split.
        { unfold asks_only.
          rewrite urls_app, files_app, directories_app, pauses_app, writes_app,
            Hu, Hf, Hd, Hp, Hw. repeat split. }
        simpl. rewrite Hiss. split; [lia|]. split; [lia|]. split; [lia|].
        split; [rewrite backoffs_app, Hb; simpl; rewrite Z.mul_0_r; reflexivity|].
        intros _. right. apply Z.ltb_ge in Hk. lia.
Qed.

(** [_make_request(url)]: between one and [bound + 1] attempts, all for
    [url]; [bound + 1] of them when it gives up. *)
Lemma make_request_extent bound pool url s :
  let (r, s') := make_request bound pool url 0 s in
  same_surroundings s s' /\
  exists t n,
    trace (env s') = trace (env s) ++ t /\
    asks_only url (S n) t /\
    issued (env s') = (issued (env s) + S n)%nat /\
    (Z.of_nat n <= Z.max bound 0)%Z /\
    (total (backoffs t) == inject_Z (2 ^ Z.of_nat n - 1))%Q /\
    (r = None -> Z.of_nat n = Z.max bound 0).
Proof.
  unfold make_request.
  pose proof (make_request_from_extent (Z.to_nat (bound - Z.of_nat 0)) bound pool url 0 s)
    as He.
  destruct (make_request_from _ bound pool url 0 s) as [r s'].
  destruct He as (Hsame & t & n & Ht & Hasks & Hiss & Hfuel & Hbound & Hsum & Hnone).
  split; [exact Hsame|]. exists t, n.
  split; [exact Ht|]. split; [exact Hasks|]. split; [exact Hiss|].
  split; [lia|]. split.
  - rewrite Hsum. simpl. rewrite Z.mul_1_l. reflexivity.
  - intros Hr. destruct (Hnone Hr); lia.
Qed.

(** X1.  A fetch makes at least one attempt and at most one more than the
    bound on retries, exactly that many when it gives up; every attempt asks
    for the address given; the fetch writes no file, creates no directory,
    and leaves alone the file system and every attribute of the instance
    but [last_request_time].  The bound is [self.max_retries] in
    [InstagramOSINT.py] and 3 in [main.py]. *)
Theorem fetch_extent (bound : Z) (pool : nat) (url : json) (s : state) :
  let r := make_request bound pool url 0 s in
  same_surroundings s (snd r) /\
  exists t n,
    trace (env (snd r)) = trace (env s) ++ t /\
    asks_only url (S n) t /\
    (Z.of_nat n <= Z.max bound 0)%Z /\
    match fst r with
    | None => Z.of_nat n = Z.max bound 0
    | Some _ => True
    end.
Proof.
  intros r. unfold r.
  pose proof (make_request_extent bound pool url s) as He.
  destruct (make_request bound pool url 0 s) as [resp s'].
  destruct He as (Hsame & t & n & Ht & Hasks & _ & Hn & _ & Hnone).
  split; [exact Hsame|]. exists t, n.
  repeat (split; [assumption|]).
  destruct resp; simpl; [exact I | apply Hnone; reflexivity].
Qed.

(** X2.  A fetch that has made [n + 1] attempts has waited [2 ^ n - 1]
    in all between them, the pacing apart: nothing when the first attempt
    is served, and [2 ^ bound - 1] when it gives up, which is 7 for the
    bound of 3. *)
Theorem fetch_backoff_total (bound : Z) (pool : nat) (url : json) (s : state) :
  let r := make_request bound pool url 0 s in
  exists t n,
    trace (env (snd r)) = trace (env s) ++ t /\
    length (urls t) = S n /\
    (total (backoffs t) == inject_Z (2 ^ Z.of_nat n - 1))%Q /\
    match fst r with
    | None => (total (backoffs t) == inject_Z (2 ^ Z.max bound 0 - 1))%Q
    | Some _ => (total (backoffs t) <= inject_Z (2 ^ Z.max bound 0 - 1))%Q
    end.
Proof.
  intros r. unfold r.
  pose proof (make_request_extent bound pool url s) as He.
  destruct (make_request bound pool url 0 s) as [resp s'].
  destruct He as (_ & t & n & Ht & (Hu & _) & _ & Hn & Hsum & Hnone).
  exists t, n. split; [exact Ht|].
  split; [rewrite Hu; apply length_replicate|].
  split; [exact Hsum|].
  destruct resp; simpl.
  - rewrite Hsum. rewrite <- Zle_Qle.
    assert (2 ^ Z.of_nat n <= 2 ^ Z.max bound 0)%Z by (apply Z.pow_le_mono_r; lia).
    lia.
  - rewrite Hsum, (Hnone eq_refl). reflexivity.
Qed.

Example backoff_of_an_unreachable_page :
  let s := Scenario.start [] in
  let t := trace (env (snd (make_request 3 5 (JStr "a") 0 s))) in
  backoffs t = [1; 2; 4]%Q /\ Qred (total (backoffs t)) = 7%Q /\ length (urls t) = 4%nat.
Proof. vm_compute. repeat split. Qed.

(** ** Strings *)

Lemma app_assoc_string (a b c : string) : (a +:+ b) +:+ c = a +:+ (b +:+ c).
Proof.
  induction a as [|x a IH]; [reflexivity|].
  change (String x ((a +:+ b) +:+ c) = String x (a +:+ (b +:+ c))).
  rewrite IH. reflexivity.
Qed.

Lemma lstrip_length p s : (String.length (lstrip p s) <= String.length s)%nat.
Proof.
  induction s as [|c s IH]; simpl; [lia|].
  destruct (p c); simpl; lia.
Qed.

(** A string that [lstrip] leaves alone does not start with a character of
    the class. *)
Lemma lstrip_fixed p c s : lstrip p (String c s) = String c s -> p c = false.
Proof.
  simpl. destruct (p c); [|reflexivity].
  intros E. pose proof (lstrip_length p s) as Hl. rewrite E in Hl. simpl in Hl. lia.
Qed.

Lemma lstrip_idem p s : lstrip p (lstrip p s) = lstrip p s.
Proof.
  induction s as [|c s IH]; simpl; [reflexivity|].
  destruct (p c) eqn:Hc; [exact IH|]. simpl. rewrite Hc. reflexivity.
Qed.

Lemma rstrip_idem p s : rstrip p (rstrip p s) = rstrip p s.
Proof.
  induction s as [|c s IH]; simpl; [reflexivity|].
  destruct (String.eqb (rstrip p s) "" && p c) eqn:Hc; [reflexivity|].
  simpl. rewrite IH, Hc. reflexivity.
Qed.

(** Stripping on the right leaves the left end alone. *)
Lemma lstrip_rstrip p s : lstrip p s = s -> lstrip p (rstrip p s) = rstrip p s.
Proof.
  destruct s as [|c s]; [reflexivity|].
  intros Hfix. apply lstrip_fixed in Hfix.
  simpl. rewrite Hfix, andb_false_r. simpl. rewrite Hfix. reflexivity.
Qed.

Lemma py_strip_idem s : py_strip (py_strip s) = py_strip s.
Proof.
  unfold py_strip.
  rewrite (lstrip_rstrip is_space (lstrip is_space s)) by apply lstrip_idem.
  apply rstrip_idem.
Qed.

Lemma lower_char_idem c : lower_char (lower_char c) = lower_char c.
Proof. destruct c as [[] [] [] [] [] [] [] []]; reflexivity. Qed.

Lemma is_space_lower c : is_space (lower_char c) = is_space c.
Proof. destruct c as [[] [] [] [] [] [] [] []]; reflexivity. Qed.

Lemma py_lower_idem s : py_lower (py_lower s) = py_lower s.
Proof.
  induction s as [|c s IH]; simpl; [reflexivity|].
  rewrite lower_char_idem, IH. reflexivity.
Qed.

Lemma py_lower_lstrip s : py_lower (lstrip is_space s) = lstrip is_space (py_lower s).
Proof.
  induction s as [|c s IH]; simpl; [reflexivity|].
  rewrite is_space_lower. destruct (is_space c); [exact IH | reflexivity].
Qed.

Lemma py_lower_empty s : String.eqb (py_lower s) "" = String.eqb s "".
Proof. destruct s; reflexivity. Qed.

Lemma py_lower_rstrip s : py_lower (rstrip is_space s) = rstrip is_space (py_lower s).
Proof.
  induction s as [|c s IH]; simpl; [reflexivity|].
  rewrite <- IH, py_lower_empty, is_space_lower.
  destruct (String.eqb (rstrip is_space s) "" && is_space c); reflexivity.
Qed.

Lemma py_lower_strip s : py_lower (py_strip s) = py_strip (py_lower s).
Proof. unfold py_strip. rewrite py_lower_rstrip, py_lower_lstrip. reflexivity. Qed.

(** White space in front of a string and behind it is stripped. *)
Lemma blank_cons c ws : blank (String c ws) -> is_space c = true /\ blank ws.
Proof.
  unfold blank. simpl. destruct (is_space c); [auto | discriminate].
Qed.

Lemma lstrip_blank ws s : blank ws -> lstrip is_space (ws +:+ s) = lstrip is_space s.
Proof.
  induction ws as [|c ws IH]; intros Hws; [reflexivity|].
  apply blank_cons in Hws as [Hc Hws]. simpl. rewrite Hc. apply IH, Hws.
Qed.

Lemma rstrip_all_blank ws : blank ws -> rstrip is_space ws = "".
Proof.
  induction ws as [|c ws IH]; intros Hws; [reflexivity|].
  apply blank_cons in Hws as [Hc Hws]. simpl. rewrite (IH Hws), Hc. reflexivity.
Qed.

Lemma rstrip_blank ws s : blank ws -> rstrip is_space (s +:+ ws) = rstrip is_space s.
Proof.
  intros Hws. induction s as [|c s IH]; simpl.
  - apply rstrip_all_blank, Hws.
  - rewrite IH. reflexivity.
Qed.

Lemma py_strip_blank ws1 ws2 s :
  blank ws1 -> blank ws2 -> py_strip (ws1 +:+ s +:+ ws2) = py_strip s.
Proof.
  intros H1 H2. unfold py_strip. rewrite (lstrip_blank ws1 (s +:+ ws2) H1).
  induction s as [|c s IH].
  - change ("" +:+ ws2) with ws2. unfold blank in H2. rewrite H2. reflexivity.
  - change (String c s +:+ ws2) with (String c (s +:+ ws2)). cbn [lstrip].
    destruct (is_space c); [exact IH|].
    change (String c (s +:+ ws2)) with (String c s +:+ ws2).
    apply rstrip_blank, H2.
Qed.

(** A character of the class at the right end is stripped; one that is
    not stops the stripping. *)
Lemma rstrip_snoc_in p s c : p c = true -> rstrip p (s +:+ String c "") = rstrip p s.
Proof.
  intros Hc. induction s as [|x s IH]; simpl.
  - rewrite Hc. reflexivity.
  - rewrite IH. reflexivity.
Qed.

Lemma app_not_empty s c : String.eqb (s +:+ String c "") "" = false.
Proof. destruct s; reflexivity. Qed.

Lemma rstrip_snoc_out p s c :
  p c = false -> rstrip p (s +:+ String c "") = s +:+ String c "".
Proof.
  intros Hc. induction s as [|x s IH]; simpl.
  - rewrite Hc. reflexivity.
  - rewrite IH, app_not_empty. reflexivity.
Qed.

Lemma py_lower_app a b : py_lower (a +:+ b) = py_lower a +:+ py_lower b.
Proof.
  induction a as [|x a IH]; [reflexivity|].
  change (String (lower_char x) (py_lower (a +:+ b)) =
          String (lower_char x) (py_lower a +:+ py_lower b)).
  rewrite IH. reflexivity.
Qed.

Lemma blank_lower ws : blank ws -> blank (py_lower ws).
Proof.
  unfold blank. intros Hws. rewrite <- py_lower_lstrip, Hws. reflexivity.
Qed.

(** X3.  The user name an instance keeps is the one it was given, in lower
    case and without the white space around it: it has no upper-case
    letter left and no white space at either end, building an instance
    from it gives the same name again, and white space around the name
    given changes nothing.  The same holds in both files. *)
Theorem username_normal_form (user ws1 ws2 : string) (retries : Z) :
  blank ws1 -> blank ws2 ->
  let name := username (initial user retries) in
  py_lower name = name /\
  py_strip name = name /\
  username (initial name retries) = name /\
  username (initial (ws1 +:+ user +:+ ws2) retries) = name.
Proof.
  intros H1 H2 name. unfold name, initial. cbn [username].
  assert (Hlow : py_lower (py_strip (py_lower user)) = py_strip (py_lower user))
    by (rewrite py_lower_strip, py_lower_idem; reflexivity).
  split; [exact Hlow|].
  split; [apply py_strip_idem|].
  split; [rewrite Hlow; apply py_strip_idem|].
  rewrite !py_lower_app.
  apply py_strip_blank; apply blank_lower; assumption.
Qed.

Lemma username_normal_form_witness :
  let name := username (initial "  Alice " 3) in
  py_lower name = name /\
  py_strip name = name /\
  username (initial name 3) = name /\
  username (initial ("   " +:+ "  Alice " +:+ " ") 3) = name.
Proof.
  apply (username_normal_form "  Alice " "   " " " 3); reflexivity.
Defined.

Lemma strip_prefix_app p s : strip_prefix p (p +:+ s) = Some s.
Proof.
  induction p as [|c p IH]; [reflexivity|].
  change (strip_prefix (String c p) (String c (p +:+ s)) = Some s).
  cbn [strip_prefix]. rewrite Ascii.eqb_refl. exact IH.
Qed.

Lemma contains_cons needle c s :
  contains needle s = true -> contains needle (String c s) = true.
Proof.
  unfold contains. cbn [after_first].
  destruct (strip_prefix needle (String c s)); [reflexivity|].
  intros Hs. exact Hs.
Qed.

Lemma contains_app needle a b : contains needle (a +:+ needle +:+ b) = true.
Proof.
  induction a as [|c a IH].
  - change ("" +:+ needle +:+ b) with (needle +:+ b).
    unfold contains. pose proof (strip_prefix_app needle b) as Hp.
    destruct (needle +:+ b); cbn [after_first]; rewrite Hp; reflexivity.
  - change (String c a +:+ needle +:+ b) with (String c (a +:+ needle +:+ b)).
    apply contains_cons, IH.
Qed.

(** X4.  From a script that is the assignment of a literal to
    [window._sharedData], closed by a semicolon and with any white space
    around it, the parser takes the literal itself, less the semicolons it
    may end with; and such a script holds the marker the parser looks for. *)
Theorem snapshot_literal_of_assignment (ws1 j ws2 : string) :
  blank ws1 -> blank ws2 ->
  snapshot_literal (assignment_script ws1 j ws2) = Ok (rstrip (Ascii.eqb ";") j) /\
  contains "window._sharedData" (assignment_script ws1 j ws2) = true.
Proof.
  intros H1 H2. split.
  - unfold snapshot_literal, assignment_script.
    replace (ws1 +:+ "window._sharedData = " +:+ j +:+ ";" +:+ ws2)
      with (ws1 +:+ (("window._sharedData = " +:+ j) +:+ ";") +:+ ws2)
      by (rewrite !app_assoc_string; reflexivity).
    rewrite (py_strip_blank ws1 ws2 _ H1 H2).
    unfold py_strip.
    remember ("window._sharedData = " +:+ j) as body eqn:Hbody.
    assert (Hl : lstrip is_space (body +:+ ";") = body +:+ ";")
      by (subst body; reflexivity).
    assert (Ha : after_first " = " (body +:+ ";") = Some (j +:+ ";"))
      by (subst body; reflexivity).
    rewrite Hl, rstrip_snoc_out, Ha by reflexivity.
    rewrite rstrip_snoc_in by reflexivity. reflexivity.
  - unfold assignment_script.
    change (ws1 +:+ "window._sharedData = " +:+ j +:+ ";" +:+ ws2)
      with (ws1 +:+ "window._sharedData" +:+ (" = " +:+ j +:+ ";" +:+ ws2)).
    apply contains_app.
Qed.

Lemma snapshot_literal_of_assignment_witness :
  snapshot_literal (assignment_script " " "{};" newline) = Ok "{}" /\
  contains "window._sharedData" (assignment_script " " "{};" newline) = true.
Proof.
  apply (snapshot_literal_of_assignment " " "{};" newline); reflexivity.
Defined.

(** ** The record and the snapshot *)

Section RecordFacts.
Context `{Runtime}.

(** The record that was built, entry by entry. *)
Lemma profile_record_inv K user desc user_data text stamp data :
  profile_record K user desc user_data text stamp = Ok data ->
  exists u v_name v_url v_followers v_following v_posts,
    user_data = JDict u /\
    data = record_of K u v_name v_url v_followers v_following v_posts stamp.
Proof.
  unfold profile_record.
  destruct user_data as [| | | | |u]; try discriminate.
  cbn [py_get rbind].
  destruct (if truthy desc then _ else _) as [v_name|] eqn:Hname; [|discriminate].
  cbn [rbind].
  destruct (if truthy desc then _ else _) as [v_url|] eqn:Hurl in |- *; [|discriminate].
  cbn [rbind].
  destruct (count_field text 0 _ _) as [v0|]; [|discriminate].
  cbn [rbind].
  destruct (count_field text 2 _ _) as [v2|]; [|discriminate].
  cbn [rbind].
  destruct (count_field text 4 _ _) as [v4|]; [|discriminate].
  cbn [rbind].
  intros [= <-]. exists u, v_name, v_url, v0, v2, v4. split; reflexivity.
Qed.

Lemma raw_page_data_user doc text desc meta user_data :
  raw_page_data doc = Ok (text, desc, meta, user_data) ->
  user_node meta = Ok user_data.
Proof.
  unfold raw_page_data, rbind.
  destruct (summary_tokens _) as [text0|]; [|discriminate].
  destruct (load_description _) as [desc0|]; [|discriminate].
  destruct (find_profile_script _) as [p|]; [|discriminate].
  destruct (snapshot_literal p) as [j|]; [|discriminate].
  destruct (loads j) as [meta0|]; [|discriminate].
  destruct (user_node meta0) as [u|] eqn:Hu; [|discriminate].
  intros [= _ _ <- <-]. exact Hu.
Qed.

(** A parse that returns leaves the instance with the record and the
    snapshot it was read from. *)
Lemma parse_profile_holds K doc s data s' :
  parse_profile K doc s = (Ok data, s') ->
  exists u, holds_record K (self s') u data.
Proof.
  intros Hparse.
  destruct (parse_profile_inv _ _ _ _ _ Hparse)
    as (text & desc & meta & user_data & Hraw & Hrec & ->).
  destruct (profile_record_inv _ _ _ _ _ _ _ Hrec)
    as (u & v_name & v_url & v1 & v2 & v3 & -> & Hdata).
  exists u. split; [reflexivity|]. split.
  - exists meta. split; [reflexivity|]. exact (raw_page_data_user _ _ _ _ _ Hraw).
  - exists v_name, v_url, v1, v2, v3. eexists. exact Hdata.
Qed.

Lemma scrape_profile_holds s data s' :
  Osint.scrape_profile s = (Some data, s') ->
  exists u, holds_record display_keys (self s') u data.
Proof.
  intros Hrun.
  destruct (scrape_profile_inv _ _ _ Hrun) as (resp & s1 & s2 & _ & Hparse & ->).
  exact (parse_profile_holds _ _ _ _ _ Hparse).
Qed.

Lemma fetch_profile_data_holds s s' :
  Main._fetch_profile_data s = (true, s') ->
  exists u, holds_record snake_keys (self s') u (profile_data (self s')).
Proof.
  intros Hrun.
  destruct (fetch_profile_data_inv _ _ Hrun) as (resp & s1 & data & _ & Hparse).
  destruct (parse_profile_holds _ _ _ _ _ Hparse) as (u & Hu).
  exists u. destruct Hu as (Hd & Hm & Hr). rewrite Hd. repeat split; assumption.
Qed.

(** The parse touches nothing but [description], [profile_meta] and
    [profile_data]. *)
Lemma parse_profile_frame K doc s :
  let s' := snd (parse_profile K doc s) in
  env s' = env s /\
  username (self s') = username (self s) /\
  max_retries (self s') = max_retries (self s) /\
  last_request_time (self s') = last_request_time (self s) /\
  min_request_interval (self s') = min_request_interval (self s) /\
  output_dir (self s') = output_dir (self s).
Proof.
  destruct (raw_page_data doc) as [[[[text desc] meta] user]|e] eqn:Hraw.
  - rewrite (parse_profile_ok _ _ _ _ _ _ _ Hraw).
    destruct (profile_record _ _ _ _ _ _); repeat split.
  - revert Hraw.
    unfold raw_page_data, parse_profile, tbind, lift, assign, tret, rbind.
    destruct (summary_tokens _) as [text0|]; [|intros _; repeat split].
    destruct (load_description _) as [desc0|]; [|intros _; repeat split].
    destruct (find_profile_script _) as [p|]; [|intros _; repeat split].
    destruct (snapshot_literal p) as [j|]; [|intros _; repeat split].
    destruct (loads j) as [meta0|]; [|intros _; repeat split].
    destruct (user_node meta0) as [u|]; [|intros _; repeat split].
    discriminate.
Qed.
End RecordFacts.

Lemma dict_lookup_key k d v : dict_lookup k d = Some v -> k ∈ d.*1.
Proof.
  induction d as [|[k' v'] d IH]; simpl; [discriminate|].
  destruct (String.eqb k k') eqn:Hk.
  - intros _. apply String.eqb_eq in Hk as ->. left.
  - intros Hd. right. apply IH, Hd.
Qed.

Lemma record_of_keys K u v_name v_url v1 v2 v3 stamp :
  (record_of K u v_name v_url v1 v2 v3 stamp).*1 = record_keys K.
Proof. reflexivity. Qed.

Section RecordProperties.
Context `{Runtime}.

(** X5.  Whenever a record is produced it has the twenty-one keys of the
    file that produced it, in the order of the literal, each once; so it is
    never empty, what [__getitem__] returns for any other key is [None], and
    the file saved from it has a fixed layout. *)
Theorem record_schema (s : state) :
  (forall data s',
     Osint.scrape_profile s = (Some data, s') ->
     data.*1 = record_keys display_keys /\
     profile_data (self s') = data /\
     forall key, OsintApp.__getitem__ key (self s') <> JNull ->
                 key ∈ record_keys display_keys) /\
  (forall s',
     Main._fetch_profile_data s = (true, s') ->
     (profile_data (self s')).*1 = record_keys snake_keys) /\
  NoDup (record_keys display_keys) /\ NoDup (record_keys snake_keys).
Proof.
  split; [|split; [|split]].
  - intros data s' Hrun.
    destruct (scrape_profile_holds _ _ _ Hrun)
      as (u & Hdata & _ & v_name & v_url & v1 & v2 & v3 & stamp & Hrec).
    assert (Hkeys : data.*1 = record_keys display_keys)
      by (rewrite Hrec; apply record_of_keys).
    split; [exact Hkeys|]. split; [exact Hdata|].
    intros key Hkey. unfold OsintApp.__getitem__, dict_get in Hkey.
    rewrite Hdata in Hkey.
    destruct (dict_lookup key data) as [v|] eqn:Hv; [|contradiction].
    rewrite <- Hkeys. exact (dict_lookup_key _ _ _ Hv).
  - intros s' Hrun.
    destruct (fetch_profile_data_holds _ _ Hrun)
      as (u & _ & _ & v_name & v_url & v1 & v2 & v3 & stamp & Hrec).
    rewrite Hrec. apply record_of_keys.
  - apply (bool_decide_unpack _). vm_compute. reflexivity.
  - apply (bool_decide_unpack _). vm_compute. reflexivity.
Qed.

(** X6.  After a successful scrape the privacy test of [scrape_posts],
    [download_media], [save_data] and [_download_content] reads the
    snapshot's [is_private]; a snapshot without the flag counts as public:
    the default of the test, [True], never applies.  When the snapshot says
    private, [scrape_posts] and [_download_content] refuse. *)
Theorem privacy_follows_snapshot (s : state) :
  (forall data s',
     Osint.scrape_profile s = (Some data, s') ->
     exists u,
       holds_record display_keys (self s') u data /\
       truthy (dict_get (profile_data (self s')) "Is Private" (JBool true)) =
         truthy (dict_get u "is_private" (JBool false)) /\
       forall limit,
         fst (Osint.scrape_posts limit s') <> None ->
         truthy (dict_get u "is_private" (JBool false)) = false) /\
  (forall s',
     Main._fetch_profile_data s = (true, s') ->
     exists u,
       holds_record snake_keys (self s') u (profile_data (self s')) /\
       truthy (dict_get (profile_data (self s')) "is_private" (JBool true)) =
         truthy (dict_get u "is_private" (JBool false)) /\
       (truthy (dict_get u "is_private" (JBool false)) = true ->
        Main._download_content s' = log Warning PrivateContent s')).
Proof.
  split.
  - intros data s' Hrun.
    destruct (scrape_profile_holds _ _ _ Hrun) as (u & Hholds).
    exists u. split; [exact Hholds|].
    destruct Hholds as (Hdata & _ & v_name & v_url & v1 & v2 & v3 & stamp & Hrec).
    assert (Htest : truthy (dict_get (profile_data (self s')) "Is Private" (JBool true)) =
                    truthy (dict_get u "is_private" (JBool false)))
      by (rewrite Hdata, Hrec; reflexivity).
    split; [exact Htest|].
    intros limit Hposts. unfold Osint.scrape_posts in Hposts.
    destruct (negb _); [contradiction|].
    rewrite Htest in Hposts.
    destruct (truthy (dict_get u "is_private" (JBool false))); [contradiction | reflexivity].
  - intros s' Hrun.
    destruct (fetch_profile_data_holds _ _ Hrun) as (u & Hholds).
    exists u. split; [exact Hholds|].
    destruct Hholds as (_ & _ & v_name & v_url & v1 & v2 & v3 & stamp & Hrec).
    assert (Htest : truthy (dict_get (profile_data (self s')) "is_private" (JBool true)) =
                    truthy (dict_get u "is_private" (JBool false)))
      by (rewrite Hrec; reflexivity).
    split; [exact Htest|].
    intros Hprivate. unfold Main._download_content. rewrite Htest, Hprivate. reflexivity.
Qed.

(** X7.  The picture address of a record is the snapshot's
    [profile_pic_url_hd] whenever the snapshot has that key, whatever it
    holds, and otherwise its [profile_pic_url], and the empty string when
    it has neither.  So a snapshot whose [profile_pic_url_hd] is null or
    empty yields no picture: [_download_profile_picture] does nothing,
    even when [profile_pic_url] holds an address. *)
Theorem picture_url_precedence (s : state) :
  (forall data s',
     Osint.scrape_profile s = (Some data, s') ->
     exists u,
       holds_record display_keys (self s') u data /\
       dict_lookup "Profile Picture URL" data =
         Some (match dict_lookup "profile_pic_url_hd" u with
               | Some hd => hd
               | None => dict_get u "profile_pic_url" (JStr "")
               end)) /\
  (forall s',
     Main._fetch_profile_data s = (true, s') ->
     exists u,
       holds_record snake_keys (self s') u (profile_data (self s')) /\
       dict_lookup "profile_pic_url" (profile_data (self s')) =
         Some (match dict_lookup "profile_pic_url_hd" u with
               | Some hd => hd
               | None => dict_get u "profile_pic_url" (JStr "")
               end) /\
       forall hd, dict_lookup "profile_pic_url_hd" u = Some hd -> truthy hd = false ->
                  Main._download_profile_picture s' = s').
Proof.
  split.
  - intros data s' Hrun.
    destruct (scrape_profile_holds _ _ _ Hrun) as (u & Hholds).
    exists u. split; [exact Hholds|].
    destruct Hholds as (_ & _ & v_name & v_url & v1 & v2 & v3 & stamp & ->).
    reflexivity.
  - intros s' Hrun.
    destruct (fetch_profile_data_holds _ _ Hrun) as (u & Hholds).
    exists u. split; [exact Hholds|].
    destruct Hholds as (_ & _ & v_name & v_url & v1 & v2 & v3 & stamp & Hrec).
    split; [rewrite Hrec; reflexivity|].
    intros hd Hhd Hfalse. unfold Main._download_profile_picture.
    rewrite Hrec. cbn [dict_get dict_lookup record_of snake_keys k_username k_profile_name
      k_url k_followers k_following k_posts k_bio k_profile_pic_url String.eqb Ascii.eqb Bool.eqb].
    unfold dict_get at 1. rewrite Hhd, Hfalse. reflexivity.
Qed.

(** A fetch of the profile page, seen from the instance. *)
Lemma make_request_reads_profile bound pool s :
  let r := make_request bound pool (JStr (profile_url (username (self s)))) 0 s in
  reads_profile_only bound s (snd r) /\
  profile_data (self (snd r)) = profile_data (self s).
Proof.
  intros r. unfold r.
  pose proof (make_request_extent bound pool (JStr (profile_url (username (self s)))) s) as He.
  destruct (make_request bound pool _ 0 s) as [resp s'].
  destruct He as ((Hattr & Hfs & _) & t & n & Ht & (Hu & Hf & Hd & _) & _ & Hn & _).
  assert (Hfield : forall (A : Type) (f : osint -> A),
            (forall o, f (attributes o) = f o) -> f (self s') = f (self s)).
  { intros A f Hf'. rewrite <- (Hf' (self s')), <- (Hf' (self s)), Hattr. reflexivity. }
  split.
  - split; [exists t, n; auto|].
    split; [exact Hfs|].
    repeat split; apply Hfield; reflexivity.
  - apply Hfield. reflexivity.
Qed.

Lemma record_of_not_empty K u v_name v_url v1 v2 v3 stamp :
  record_of K u v_name v_url v1 v2 v3 stamp <> [].
Proof. discriminate. Qed.

Lemma reads_profile_only_log bound s s1 l m :
  reads_profile_only bound s s1 -> reads_profile_only bound s (log l m s1).
Proof.
  intros ((t & n & Ht & Hu & Hn & Hf & Hd) & Hrest).
  split; [|exact Hrest].
  exists (t ++ [EvLog l m]), n. simpl. rewrite Ht, <- app_assoc.
  rewrite urls_app, files_app, directories_app, Hu, Hf, Hd. repeat split; auto.
  simpl. rewrite app_nil_r. reflexivity.
Qed.

Lemma reads_profile_only_parse bound K doc s s1 :
  reads_profile_only bound s s1 ->
  reads_profile_only bound s (snd (parse_profile K doc s1)).
Proof.
  intros ((t & n & Ht & Hu & Hn & Hf & Hd) & Hfs & A1 & A2 & A3 & A4).
  destruct (parse_profile_frame K doc s1) as (Henv & B1 & B2 & _ & B3 & B4).
  split; [exists t, n; rewrite Henv; auto|].
  rewrite Henv. repeat split; congruence.
Qed.

(** What [scrape_profile] and [_fetch_profile_data] do, whatever the
    network answers. *)
Lemma scrape_profile_reads s :
  let r := Osint.scrape_profile s in
  reads_profile_only (max_retries (self s)) s (snd r) /\
  match fst r with
  | Some data => profile_data (self (snd r)) = data /\ data <> []
  | None => profile_data (self (snd r)) = profile_data (self s)
  end.
Proof.
  intros r. unfold r, Osint.scrape_profile, Osint._make_request.
  destruct (make_request_reads_profile (max_retries (self s)) 7 s) as (Hreads & Hdata).
  destruct (make_request _ 7 _ 0 s) as [[resp|] s1]; simpl in Hreads, Hdata.
  - pose proof (reads_profile_only_parse _ display_keys (document resp) s s1 Hreads)
      as Hreads2.
    pose proof (parse_profile_data display_keys (document resp) s1) as Hpd.
    destruct (parse_profile display_keys (document resp) s1) as [[data|e] s2] eqn:Hrun;
      simpl in Hreads2; simpl.
    + split; [apply reads_profile_only_log, Hreads2|]. split; [exact Hpd|].
      destruct (parse_profile_holds _ _ _ _ _ Hrun)
        as (u & _ & _ & v_name & v_url & v1 & v2 & v3 & stamp & ->).
      apply record_of_not_empty.
    + split; [apply reads_profile_only_log, Hreads2 | congruence].
  - split; [apply reads_profile_only_log, Hreads | exact Hdata].
Qed.

Lemma fetch_profile_data_reads s :
  let r := Main._fetch_profile_data s in
  reads_profile_only 3 s (snd r) /\
  if fst r then profile_data (self (snd r)) <> []
  else profile_data (self (snd r)) = profile_data (self s).
Proof.
  intros r. unfold r, Main._fetch_profile_data, Main._make_request.
  destruct (make_request_reads_profile 3 5 s) as (Hreads & Hdata).
  destruct (make_request 3 5 _ 0 s) as [[resp|] s1]; simpl in Hreads, Hdata.
  - pose proof (reads_profile_only_parse _ snake_keys (document resp) s s1 Hreads)
      as Hreads2.
    pose proof (parse_profile_data snake_keys (document resp) s1) as Hpd.
    destruct (parse_profile snake_keys (document resp) s1) as [[data|e] s2] eqn:Hrun;
      simpl in Hreads2; simpl.
    + split; [exact Hreads2|]. rewrite Hpd.
      destruct (parse_profile_holds _ _ _ _ _ Hrun)
        as (u & _ & _ & v_name & v_url & v1 & v2 & v3 & stamp & ->).
      apply record_of_not_empty.
    + split; [apply reads_profile_only_log, Hreads2 | congruence].
  - split; [exact Hreads | exact Hdata].
Qed.

(** X8.  [scrape_profile] and [_fetch_profile_data] ask for the profile
    page of the instance and for nothing else, between one and
    [max_retries + 1] times (four in [main.py]); they write no file and
    create no directory, and leave the name, the settings and the output
    directory of the instance alone.  When they succeed [profile_data] is
    the record, which is not empty; when they fail, for whatever reason,
    [profile_data] is what it was. *)
Theorem profile_fetch_extent (s : state) :
  (let r := Osint.scrape_profile s in
   reads_profile_only (max_retries (self s)) s (snd r) /\
   match fst r with
   | Some data => profile_data (self (snd r)) = data /\ data <> []
   | None => profile_data (self (snd r)) = profile_data (self s)
   end) /\
  (let r := Main._fetch_profile_data s in
   reads_profile_only 3 s (snd r) /\
   if fst r then profile_data (self (snd r)) <> []
   else profile_data (self (snd r)) = profile_data (self s)).
Proof. split; [apply scrape_profile_reads | apply fetch_profile_data_reads]. Qed.

End RecordProperties.

Lemma record_schema_witness :
  let s := Scenario.start [Scenario.served Scenario.public_page] in
  let r := @Osint.scrape_profile Py.runtime s in
  (default [] (fst r)).*1 = record_keys display_keys /\
  profile_data (self (snd r)) = default [] (fst r) /\
  forall key, OsintApp.__getitem__ key (self (snd r)) <> JNull ->
              key ∈ record_keys display_keys.
Proof.
  intros s r.
  apply (proj1 (@record_schema Py.runtime s) (default [] (fst r)) (snd r)).
  vm_compute. reflexivity.
Defined.

(** A snapshot without [is_private]: the record says [False], and the
    posts are scraped. *)
Lemma privacy_follows_snapshot_witness :
  let s := Scenario.start [Scenario.served Cases.unflagged_page] in
  let r := @Osint.scrape_profile Py.runtime s in
  exists u,
    holds_record display_keys (self (snd r)) u (default [] (fst r)) /\
    truthy (dict_get (profile_data (self (snd r))) "Is Private" (JBool true)) =
      truthy (dict_get u "is_private" (JBool false)) /\
    forall limit,
      fst (@Osint.scrape_posts Py.runtime limit (snd r)) <> None ->
      truthy (dict_get u "is_private" (JBool false)) = false.
Proof.
  intros s r.
  apply (proj1 (@privacy_follows_snapshot Py.runtime s) (default [] (fst r)) (snd r)).
  vm_compute. reflexivity.
Defined.

Example unflagged_profile_is_public :
  let s := @Osint.init Py.runtime "alice" 3
             (Scenario.world_of [Scenario.served Cases.unflagged_page]) in
  dict_lookup "Is Private" (profile_data (self s)) = Some (JBool false) /\
  fst (@Osint.scrape_posts Py.runtime 12 s) = Some [].
Proof. vm_compute. split; reflexivity. Qed.

(** A snapshot whose [profile_pic_url_hd] is null: the record has no
    picture address although [profile_pic_url] has one. *)
Lemma picture_url_precedence_witness :
  let s := Scenario.start [Scenario.served Cases.null_hd_page] in
  let s' := snd (@Main._fetch_profile_data Py.runtime s) in
  exists u,
    holds_record snake_keys (self s') u (profile_data (self s')) /\
    dict_lookup "profile_pic_url" (profile_data (self s')) =
      Some (match dict_lookup "profile_pic_url_hd" u with
            | Some hd => hd
            | None => dict_get u "profile_pic_url" (JStr "")
            end) /\
    forall hd, dict_lookup "profile_pic_url_hd" u = Some hd -> truthy hd = false ->
               Main._download_profile_picture s' = s'.
Proof.
  intros s s'.
  apply (proj2 (@picture_url_precedence Py.runtime s) s').
  vm_compute. reflexivity.
Defined.

Example null_picture_is_kept :
  let s' := snd (@Main._fetch_profile_data Py.runtime
                   (Scenario.start [Scenario.served Cases.null_hd_page])) in
  dict_lookup "profile_pic_url" (profile_data (self s')) = Some JNull /\
  urls (trace (env (Main._download_profile_picture s'))) =
    [JStr "https://www.instagram.com/alice/"].
Proof. vm_compute. split; reflexivity. Qed.

(** ** Posts *)

Lemma timeline_edges_slice pm limit :
  timeline_edges pm limit = (e <~ all_edges pm; py_slice_to e limit)%py.
Proof.
  unfold timeline_edges, all_edges, rbind.
  destruct pm as [m|]; [|reflexivity].
  destruct (user_node m) as [u|]; [|reflexivity].
  destruct (py_item u "edge_owner_to_timeline_media") as [media|]; [|reflexivity].
  destruct (py_item media "edges"); reflexivity.
Qed.

Lemma string_chars_length s : length (string_chars s) = String.length s.
Proof. induction s as [|c s IH]; simpl; [reflexivity | rewrite IH; reflexivity]. Qed.

Lemma string_take_length n s :
  String.length (string_take n s) = Nat.min n (String.length s).
Proof.
  revert s. induction n as [|n IH]; intros [|c s]; simpl; try reflexivity.
  rewrite IH. reflexivity.
Qed.

(** A slice visits no more elements than its bound, and no more than there
    are. *)
Lemma py_slice_to_length e limit e' :
  py_slice_to e limit = Ok e' ->
  length (py_iter e') = Nat.min (slice_stop (length (py_iter e)) limit) (length (py_iter e)).
Proof.
  destruct e as [| | |str|l|]; try discriminate; intros [= <-]; simpl.
  - rewrite !string_chars_length. apply string_take_length.
  - apply length_take.
Qed.

Lemma posts_set_length k v posts :
  (length posts <= length (posts_set k v posts) <= S (length posts))%nat.
Proof.
  induction posts as [|[k' v'] posts IH]; simpl; [lia|].
  destruct (key_eqb k k'); simpl; lia.
Qed.

Section PostFacts.
Context `{Runtime}.

Lemma scrape_edges_length edges : forall posts posts',
  Osint.scrape_edges edges posts = Ok posts' ->
  (length posts <= length posts' <= length posts + length edges)%nat.
Proof.
  induction edges as [|post rest IH]; intros posts posts'; simpl.
  - intros [= <-]. lia.
  - unfold rbind.
    destruct (py_item post "node") as [post_node|]; [|discriminate].
    destruct (py_item post_node "id") as [post_id|]; [|discriminate].
    destruct (Osint.post_entry post_node) as [entry|]; [|discriminate].
    unfold py_setitem. destruct (hashable post_id); [|discriminate].
    intros Hrest. apply IH in Hrest.
    pose proof (posts_set_length post_id entry posts). lia.
Qed.

(** What [scrape_posts] returns depends on [profile_data] and
    [profile_meta] alone, and all it does is log. *)
Lemma scrape_posts_result limit s s2 :
  profile_data (self s2) = profile_data (self s) ->
  profile_meta (self s2) = profile_meta (self s) ->
  fst (Osint.scrape_posts limit s2) = fst (Osint.scrape_posts limit s).
Proof.
  intros Hd Hm. unfold Osint.scrape_posts. rewrite Hd, Hm.
  destruct (negb _); [reflexivity|].
  destruct (truthy _); [reflexivity|].
  destruct (rbind _ _); reflexivity.
Qed.

Lemma scrape_posts_logs limit s :
  exists l m, snd (Osint.scrape_posts limit s) = log l m s.
Proof.
  unfold Osint.scrape_posts.
  destruct (negb _); [eexists _, _; reflexivity|].
  destruct (truthy _); [eexists _, _; reflexivity|].
  destruct (rbind _ _); eexists _, _; reflexivity.
Qed.

(** X9.  The posts [scrape_posts] returns are no more than the edges the
    slice [[:limit]] keeps of those of the snapshot: at most [limit] for a
    limit that is not negative, none for a limit of 0, all but the last
    [-limit] for a negative one, and never more than the snapshot has.  The
    number logged is the number returned. *)
Theorem scrape_posts_within_limit (limit : Z) (s : state) (posts : postdict) (s' : state) :
  Osint.scrape_posts limit s = (Some posts, s') ->
  exists edges,
    all_edges (profile_meta (self s)) = Ok edges /\
    (length posts <= slice_stop (length (py_iter edges)) limit)%nat /\
    (length posts <= length (py_iter edges))%nat /\
    s' = log Info (ScrapedPosts (length posts) (username (self s))) s.
Proof.
  unfold Osint.scrape_posts.
  destruct (negb _); [discriminate|].
  destruct (truthy _); [discriminate|].
  rewrite timeline_edges_slice. unfold rbind.
  destruct (all_edges (profile_meta (self s))) as [edges|]; [|discriminate].
  destruct (py_slice_to edges limit) as [kept|] eqn:Hslice; [|discriminate].
  destruct (Osint.scrape_edges (py_iter kept) []) as [posts0|] eqn:Hloop; [|discriminate].
  intros [= <- <-]. exists edges. split; [reflexivity|].
  apply scrape_edges_length in Hloop. apply py_slice_to_length in Hslice.
  simpl in Hloop. repeat split; lia.
Qed.

(** X10.  [scrape_posts] reads the page kept by the last scrape: it asks
    for nothing, writes nothing and changes no attribute of the instance;
    all it does is log one record.  What it returns depends on
    [profile_data] and [profile_meta] alone, so calling it again, or after
    downloads, gives the same posts. *)
Theorem scrape_posts_offline (limit : Z) (s s2 : state) :
  profile_data (self s2) = profile_data (self s) ->
  profile_meta (self s2) = profile_meta (self s) ->
  (exists l m, snd (Osint.scrape_posts limit s) = log l m s) /\
  fst (Osint.scrape_posts limit s2) = fst (Osint.scrape_posts limit s) /\
  fst (Osint.scrape_posts limit (snd (Osint.scrape_posts limit s))) =
    fst (Osint.scrape_posts limit s).
Proof.
  intros Hd Hm. split; [apply scrape_posts_logs|].
  split; [apply scrape_posts_result; assumption|].
  destruct (scrape_posts_logs limit s) as (l & m & ->).
  apply scrape_posts_result; reflexivity.
Qed.

End PostFacts.

Lemma scrape_posts_within_limit_witness :
  let s := @Osint.init Py.runtime "alice" 3
             (Scenario.world_of [Scenario.served Cases.repeated_page]) in
  let r := @Osint.scrape_posts Py.runtime 2 s in
  exists edges,
    all_edges (profile_meta (self s)) = Ok edges /\
    (length (default [] (fst r)) <= slice_stop (length (py_iter edges)) 2)%nat /\
    (length (default [] (fst r)) <= length (py_iter edges))%nat /\
    snd r = log Info (ScrapedPosts (length (default [] (fst r))) (username (self s))) s.
Proof.
  intros s r.
  apply (@scrape_posts_within_limit Py.runtime 2 s (default [] (fst r)) (snd r)).
  vm_compute. reflexivity.
Defined.

(** Three edges, two of them with the same id: the limit of 3 gives two
    posts, the first of which holds what the third edge says; a limit of
    -1 drops the last edge. *)
Example repeated_ids_collapse :
  let s := @Osint.init Py.runtime "alice" 3
             (Scenario.world_of [Scenario.served Cases.repeated_page]) in
  let media (r : option postdict * state) :=
    (fun e : json * pydict => (e.1, dict_get e.2 "Display URL" JNull)) <$> default [] (fst r) in
  media (@Osint.scrape_posts Py.runtime 3 s)
  = [(JStr "1", JStr "http://cdn/c"); (JStr "2", JStr "http://cdn/b")] /\
  media (@Osint.scrape_posts Py.runtime (-1) s)
  = [(JStr "1", JStr "http://cdn/a"); (JStr "2", JStr "http://cdn/b")].
Proof. vm_compute. split; reflexivity. Qed.

Lemma scrape_posts_offline_witness :
  let s := @Osint.init Py.runtime "alice" 3
             (Scenario.world_of [Scenario.served Scenario.public_page]) in
  let s2 := snd (@Osint.download_media Py.runtime None 12 s) in
  (exists l m, snd (@Osint.scrape_posts Py.runtime 12 s) = log l m s) /\
  fst (@Osint.scrape_posts Py.runtime 12 s2) = fst (@Osint.scrape_posts Py.runtime 12 s) /\
  fst (@Osint.scrape_posts Py.runtime 12 (snd (@Osint.scrape_posts Py.runtime 12 s))) =
    fst (@Osint.scrape_posts Py.runtime 12 s).
Proof.
  intros s s2.
  apply (@scrape_posts_offline Py.runtime 12 s s2); vm_compute; reflexivity.
Defined.

(** ** Downloads *)

(** A field of the instance other than [last_request_time] is the same in
    two instances with the same attributes. *)
Lemma attributes_field {A} (f : osint -> A) (o o' : osint) :
  (forall x, f (attributes x) = f x) -> attributes o' = attributes o -> f o' = f o.
Proof. intros Hf E. rewrite <- (Hf o'), <- (Hf o), E. reflexivity. Qed.

(** The steps around a fetch that touch the trace only. *)
Lemma same_surroundings_refl s : same_surroundings s s.
Proof. repeat split. Qed.

Lemma same_surroundings_trans s1 s2 s3 :
  same_surroundings s1 s2 -> same_surroundings s2 s3 -> same_surroundings s1 s3.
Proof.
  intros (A1 & A2 & A3 & A4 & A5) (B1 & B2 & B3 & B4 & B5).
  repeat split; congruence.
Qed.

Section DownloadFacts.
Context `{Runtime}.




End DownloadFacts.


Example two_posts_two_pauses :
  let s := snd (@Main._fetch_profile_data Py.runtime
                  (Scenario.start [Scenario.served Cases.repeated_page])) in
  Qred <$> pauses (trace (env (@Main._download_posts Py.runtime 2 s))) = [2; 2]%Q.
Proof. vm_compute. reflexivity. Qed.

Section MediaFacts.
Context `{Runtime}.






End MediaFacts.

Example download_of_a_public_profile :
  let s := @Osint.init Py.runtime "alice" 3
             (Scenario.world_of [Scenario.served Scenario.public_page;
                                 Scenario.served Scenario.public_page;
                                 Scenario.served Scenario.public_page]) in
  let t := trace (env (snd (@Osint.download_media Py.runtime (Some "out") 12 s))) in
  urls t = [JStr "https://www.instagram.com/alice/"; JStr "http://cdn/pic.jpg";
            JStr "http://cdn/1"] /\
  writes t = ["out/alice_profile_pic.jpg"; "out/posts/posts_metadata.json";
              "out/posts/1.mp4"] /\
  directories t = ["out"; "out/posts"].
Proof. vm_compute. repeat split. Qed.

(** ** Saving and the command line *)


Section SavingFacts.
Context `{Runtime}.





End SavingFacts.

Example saved_files_of_a_public_profile :
  let s := @Osint.init Py.runtime "alice" 3
             (Scenario.world_of [Scenario.served Scenario.public_page]) in
  let r := @OsintApp.save_data Py.runtime (Some "out") {| tool := s; console := [] |} in
  fst r = true /\
  writes (trace (env (tool (snd r)))) = ["out/profile_data.json"; "out/posts_data.json"] /\
  length (urls (trace (env (tool (snd r))))) = 1%nat.
Proof. vm_compute. repeat split. Qed.

Section CommandLine.
Context `{Runtime}.









End CommandLine.

Example run_without_flags_writes_nothing :
  let r := @OsintApp.main Py.runtime
             {| OsintApp.arg_username := "Alice"; OsintApp.arg_output := None;
                OsintApp.arg_download := false; OsintApp.arg_limit := 12;
                OsintApp.arg_verbose := false |}
             (Scenario.world_of [Scenario.served Scenario.public_page]) in
  fst r = Returned /\
  writes (trace (env (tool (snd r)))) = [] /\
  length (console (snd r)) = 22%nat.
Proof. vm_compute. repeat split. Qed.

Example failed_scan_leaves_an_empty_directory :
  let r := @MainApp.main Py.runtime "banner"
             {| MainApp.arg_username := "Alice"; MainApp.arg_download := true;
                MainApp.arg_verbose := false |}
             (Scenario.world_of []) in
  fst r = Exited 1 /\
  directories (trace (env (tool (snd r)))) =
    ["/home/u/instagram_osint_results"; "/home/u/instagram_osint_results/alice"] /\
  writes (trace (env (tool (snd r)))) = [] /\
  last (console (snd r)) = Some (Noted Error FetchFailed).
Proof. vm_compute. repeat split. Qed.

Example scan_of_a_public_profile :
  let r := @MainApp.main Py.runtime "banner"
             {| MainApp.arg_username := "Alice"; MainApp.arg_download := false;
                MainApp.arg_verbose := false |}
             (Scenario.world_of [Scenario.served Scenario.public_page]) in
  fst r = Returned /\
  writes (trace (env (tool (snd r)))) =
    ["/home/u/instagram_osint_results/alice/profile_data.json"].
Proof. vm_compute. repeat split. Qed.

(** ** A profile that cannot be read *)

Section Unreadable.
Context `{Runtime}.

(** A fetch all of whose attempts fail returns nothing, after one attempt
    more than the bound. *)
Lemma make_request_all_failed bound pool url s :
  (forall i, (Z.of_nat i <= Z.max bound 0)%Z ->
             failed (outcome (net (env s) (issued (env s) + i)))) ->
  exists s' t,
    make_request bound pool url 0 s = (None, s') /\
    attributes (self s') = attributes (self s) /\
    trace (env s') = trace (env s) ++ t /\
    urls t = replicate (S (Z.to_nat bound)) url /\
    files t = [] /\ directories t = [].
Proof.
  intros Hfail.
  destruct (make_request_from_exhausts (Z.to_nat bound) (Z.to_nat (bound - Z.of_nat 0))
              bound pool url 0 s) as (s' & t0 & Hrun & _); [lia | lia | |].
  { intros i Hi. apply Hfail. lia. }
  pose proof (make_request_extent bound pool url s) as He.
  unfold make_request in He |- *. rewrite Hrun in He |- *.
  destruct He as ((Hattr & _) & t & n & Ht & (Hu & Hf & Hd & _) & _ & _ & _ & Hn).
  exists s', t. split; [reflexivity|]. split; [exact Hattr|]. split; [exact Ht|].
  specialize (Hn eq_refl).
  replace (Z.to_nat bound) with n by lia.
  auto.
Qed.

(** X16.  When every attempt to fetch the profile page fails, the instance
    [__init__] leaves has made one attempt more than [max_retries] and holds
    nothing: [profile_data] is empty and neither [description] nor
    [profile_meta] has been assigned.  From then on [scrape_posts] returns
    [None], [download_media] and [save_data] return [False], each having
    only logged, and [__getitem__] returns [None] for every key. *)
Theorem unreachable_profile (user : string) (retries : Z) (w : world) :
  (forall i, (Z.of_nat i <= Z.max retries 0)%Z ->
             failed (outcome (net w (issued w + i)))) ->
  let s := Osint.init user retries w in
  profile_data (self s) = [] /\
  description (self s) = None /\
  profile_meta (self s) = None /\
  (exists t, trace (env s) = trace w ++ t /\
             length (urls t) = S (Z.to_nat retries) /\
             files t = [] /\ directories t = []) /\
  (forall limit, Osint.scrape_posts limit s = (None, log Error NoProfileData s)) /\
  (forall out limit, Osint.download_media out limit s = (false, log Error NoProfileData s)) /\
  (forall out shown,
     OsintApp.save_data out {| tool := s; console := shown |} =
     (false, note Error NoDataToSave {| tool := s; console := shown |})) /\
  (forall key, OsintApp.__getitem__ key (self s) = JNull).
Proof.
  intros Hfail s.
  set (s0 := {| self := initial user retries; env := w |}).
  destruct (make_request_all_failed retries 7 (JStr (profile_url (username (self s0)))) s0 Hfail)
    as (s1 & t & Hrun & Hattr & Ht & Hu & Hf & Hd).
  assert (Hs : s = log Error (ProfileFetchFailed (username (self s1))) s1).
  { unfold s, Osint.init, Osint.scrape_profile, Osint._make_request. fold s0.
    change (max_retries (self s0)) with retries. rewrite Hrun. reflexivity. }
  assert (Hdata : profile_data (self s) = [])
    by (rewrite Hs; exact (attributes_field profile_data _ _ (fun _ => eq_refl) Hattr)).
  split; [exact Hdata|].
  split; [rewrite Hs; exact (attributes_field description _ _ (fun _ => eq_refl) Hattr)|].
  split; [rewrite Hs; exact (attributes_field profile_meta _ _ (fun _ => eq_refl) Hattr)|].
  split.
  { exists (t ++ [EvLog Error (ProfileFetchFailed (username (self s1)))]).
    rewrite Hs. simpl. rewrite Ht, <- app_assoc.
    rewrite urls_app, files_app, directories_app, Hu, Hf, Hd. simpl.
    rewrite app_nil_r, length_replicate. repeat split. }
  clearbody s. clear Hs.
  split; [intros limit; unfold Osint.scrape_posts; rewrite Hdata; reflexivity|].
  split; [intros out limit; unfold Osint.download_media; rewrite Hdata; reflexivity|].
  split; [intros out shown; unfold OsintApp.save_data; cbn [tool]; rewrite Hdata; reflexivity|].
  intros key. unfold OsintApp.__getitem__. rewrite Hdata. reflexivity.
Qed.

(** Among the scripts of a page the parser takes the first that holds the
    marker. *)
Lemma find_profile_script_first pre tag post str :
  (forall t x, t ∈ pre -> script_string t = Some x ->
               contains "window._sharedData" x = false) ->
  script_string tag = Some str ->
  contains "window._sharedData" str = true ->
  find_profile_script (pre ++ tag :: post) = Some str.
Proof.
  intros Hpre Hstr Hmark. induction pre as [|t pre IH]; simpl.
  - rewrite Hstr, Hmark. reflexivity.
  - destruct (script_string t) as [x|] eqn:Hx.
    + rewrite (Hpre t x); [|left|exact Hx]. apply IH.
      intros t' x' Hin. apply Hpre. right. exact Hin.
    + apply IH. intros t' x' Hin. apply Hpre. right. exact Hin.
Qed.

(** X17.  The snapshot is read from the first script that holds the marker
    [window._sharedData], whatever follows it.  When that script has no
    [' = '] in it, as in [window._sharedData={...};], the parse raises
    [IndexError]: no record is produced, [profile_data] and [profile_meta]
    are left as they were, [scrape_profile] returns [None] and
    [_fetch_profile_data] returns [False], even when a later script holds a
    well-formed snapshot. *)
Theorem unassigned_snapshot_is_fatal (s : state) (resp : response) (s1 : state)
    (pre post : list script_tag) (tag : script_tag) (str : string)
    (text : list string) (desc : json) :
  javascript (document resp) = pre ++ tag :: post ->
  (forall t x, t ∈ pre -> script_string t = Some x ->
               contains "window._sharedData" x = false) ->
  script_string tag = Some str ->
  contains "window._sharedData" str = true ->
  contains " = " (py_strip str) = false ->
  summary_tokens (og_description (document resp)) = Ok text ->
  load_description (ld_json (document resp)) = Ok desc ->
  find_profile_script (javascript (document resp)) = Some str /\
  (Osint._make_request (JStr (profile_url (username (self s)))) 0 s = (Some resp, s1) ->
   exists s2,
     Osint.scrape_profile s = (None, log Error (ScrapeError IndexError) s2) /\
     profile_data (self s2) = profile_data (self s) /\
     profile_meta (self s2) = profile_meta (self s)) /\
  (Main._make_request (JStr (profile_url (username (self s)))) 0 s = (Some resp, s1) ->
   exists s2,
     Main._fetch_profile_data s = (false, log Error (ParseError IndexError) s2) /\
     profile_data (self s2) = profile_data (self s) /\
     profile_meta (self s2) = profile_meta (self s)).
Proof.
  intros Hjs Hpre Hstr Hmark Hsep Htext Hdesc.
  assert (Hfind : find_profile_script (javascript (document resp)) = Some str)
    by (rewrite Hjs; apply find_profile_script_first; assumption).
  assert (Hlit : snapshot_literal str = Raise IndexError).
  { unfold snapshot_literal. unfold contains in Hsep.
    destruct (after_first " = " (py_strip str)); [discriminate | reflexivity]. }
  assert (Hparse : forall K s0,
            parse_profile K (document resp) s0 =
            (Raise IndexError, on_self (set_description desc) s0)).
  { intros K s0. unfold parse_profile, tbind, lift, assign.
    rewrite Htext, Hdesc, Hfind, Hlit. reflexivity. }
  split; [exact Hfind|]. split; intros Hget.
  - exists (on_self (set_description desc) s1).
    split; [exact (scrape_profile_raises _ _ _ _ _ Hget (Hparse display_keys s1))|].
    rewrite osint_make_request in Hget.
    pose proof (make_request_extent (max_retries (self s)) 7
                  (JStr (profile_url (username (self s)))) s) as He.
    rewrite Hget in He. destruct He as ((Hattr & _) & _).
    split; [exact (attributes_field profile_data _ _ (fun _ => eq_refl) Hattr)
           |exact (attributes_field profile_meta _ _ (fun _ => eq_refl) Hattr)].
  - exists (on_self (set_description desc) s1).
    split; [exact (fetch_profile_data_raises _ _ _ _ _ Hget (Hparse snake_keys s1))|].
    rewrite main_make_request in Hget.
    pose proof (make_request_extent 3 5 (JStr (profile_url (username (self s)))) s) as He.
    rewrite Hget in He. destruct He as ((Hattr & _) & _).
    split; [exact (attributes_field profile_data _ _ (fun _ => eq_refl) Hattr)
           |exact (attributes_field profile_meta _ _ (fun _ => eq_refl) Hattr)].
Qed.

End Unreadable.

Lemma unreachable_profile_witness :
  let w := Scenario.world_of [] in
  let s := @Osint.init Py.runtime "alice" 3 w in
  profile_data (self s) = [] /\
  description (self s) = None /\
  profile_meta (self s) = None /\
  (exists t, trace (env s) = trace w ++ t /\
             length (urls t) = 4%nat /\
             files t = [] /\ directories t = []) /\
  (forall limit, @Osint.scrape_posts Py.runtime limit s = (None, log Error NoProfileData s)) /\
  (forall out limit,
     @Osint.download_media Py.runtime out limit s = (false, log Error NoProfileData s)) /\
  (forall out shown,
     @OsintApp.save_data Py.runtime out {| tool := s; console := shown |} =
     (false, note Error NoDataToSave {| tool := s; console := shown |})) /\
  (forall key, OsintApp.__getitem__ key (self s) = JNull).
Proof.
  intros w s.
  apply (@unreachable_profile Py.runtime "alice" 3 w).
  intros i _. exists Timeout. unfold w. simpl. destruct i as [|i]; reflexivity.
Defined.

Lemma unassigned_snapshot_is_fatal_witness :
  let s := Scenario.start [Scenario.served Cases.unassigned_page] in
  let s1 := snd (Osint._make_request (JStr (profile_url (username (self s)))) 0 s) in
  exists s2,
    @Osint.scrape_profile Py.runtime s = (None, log Error (ScrapeError IndexError) s2) /\
    profile_data (self s2) = profile_data (self s) /\
    profile_meta (self s2) = profile_meta (self s).
Proof.
  intros s s1.
  refine (proj1 (proj2 (@unassigned_snapshot_is_fatal Py.runtime s
            {| body := "bytes"; document := Cases.unassigned_page |} s1
            [] [Scenario.script (Scenario.snapshot "false" Scenario.captioned)]
            (Scenario.script "window._sharedData={};") "window._sharedData={};"
            (py_split Scenario.summary) (JDict [])
            eq_refl _ eq_refl eq_refl eq_refl eq_refl eq_refl)) _).
  - intros t x Hin. apply elem_of_nil in Hin. contradiction.
  - vm_compute. reflexivity.
Defined.

(** ** The two files side by side *)

Section SideBySide.
Context `{Runtime}.



(** X19.  For the same post the two files extract the same caption,
    counts, time stamp, video flag, shortcode and address.  Whenever
    [InstagramOSINT.py] builds its entry [main.py] builds its own; the
    converse fails only where the date cannot be computed from the time
    stamp, which [main.py] does not try. *)
Theorem post_extractors_agree (post_id post_node : json) :
  match Osint.post_entry post_node, Main.post_metadata post_id post_node with
  | Ok entry, Ok metadata =>
      dict_lookup "id" metadata = Some post_id /\
      dict_lookup "caption" metadata = dict_lookup "Caption" entry /\
      dict_lookup "comments_count" metadata = dict_lookup "Comments Count" entry /\
      dict_lookup "likes_count" metadata = dict_lookup "Likes Count" entry /\
      dict_lookup "timestamp" metadata = dict_lookup "Timestamp" entry /\
      dict_lookup "is_video" metadata = dict_lookup "Is Video" entry /\
      dict_lookup "shortcode" metadata = dict_lookup "Shortcode" entry /\
      dict_lookup "display_url" metadata = dict_lookup "Display URL" entry
  | Ok _, Raise _ => False
  | Raise e, Ok _ => e = DateError
  | Raise _, Raise _ => True
  end.
Proof.
  unfold Osint.post_entry, Main.post_metadata.
  destruct (post_caption post_node) as [caption|]; [|exact I].
  cbn [rbind].
  destruct (edge_count post_node "edge_media_to_comment") as [comments|]; [|exact I].
  cbn [rbind].
  destruct post_node as [| | | | |d];
    try (unfold edge_count; cbn [py_get rbind]; exact I).
  cbn [py_get rbind].
  destruct (fromtimestamp_isoformat _) as [date|]; cbn [rbind].
  - destruct (edge_count (JDict d) "edge_liked_by") as [likes|]; [|exact I].
    cbn [rbind].
    destruct (truthy (dict_get d "is_video" (JBool false))); cbn [rbind];
      repeat split.
  - destruct (edge_count (JDict d) "edge_liked_by") as [likes|]; [|exact I].
    cbn [rbind]. reflexivity.
Qed.

End SideBySide.

(** A post whose time stamp is a string: [InstagramOSINT.py] gives up on
    the posts, [main.py] lists the post. *)
Example stamp_that_is_no_number :
  let node := JDict [("id", JStr "7"); ("taken_at_timestamp", JStr "soon")] in
  @Osint.post_entry Py.runtime node = Raise DateError /\
  (m ← (match Main.post_metadata (JStr "7") node with Ok m => Some m | Raise _ => None end);
   dict_lookup "timestamp" m) = Some (JStr "soon").
Proof. vm_compute. split; reflexivity. Qed.

(** ** Successive output directories *)






Example three_scans :
  successive_directories 3 (Scenario.start []) =
  [ "/home/u/instagram_osint_results/alice";
    "/home/u/instagram_osint_results/alice_1";
    "/home/u/instagram_osint_results/alice_2" ].
Proof. vm_compute. reflexivity. Qed.

(** ** The downloads of [main.py] *)

Section ContentFacts.
Context `{Runtime}.






End ContentFacts.

Example content_of_a_public_profile :
  let operate := @operate Py.runtime in
  let s0 := Scenario.start [Scenario.served Scenario.public_page;
                            Scenario.served Scenario.public_page;
                            Scenario.served Scenario.public_page] in
  let s := snd (@Main._fetch_profile_data Py.runtime
                  (operate CreateOutputDirectory s0)) in
  let t := trace (env (@Main._download_content Py.runtime s)) in
  urls t = [JStr "https://www.instagram.com/alice/"; JStr "http://cdn/pic.jpg";
            JStr "http://cdn/1"] /\
  writes t = ["/home/u/instagram_osint_results/alice/alice_profile_pic.jpg";
              "/home/u/instagram_osint_results/alice/posts/1.mp4";
              "/home/u/instagram_osint_results/alice/posts/posts_metadata.json"].
Proof. vm_compute. repeat split. Qed.

(** ** One entry for each id *)

Lemma key_eqb_refl k : hashable k = true -> key_eqb k k = true.
Proof.
  destruct k as [|b|n|str|l|d]; simpl; try discriminate; intros _.
  - reflexivity.
  - destruct b; reflexivity.
  - apply Z.eqb_refl.
  - apply String.eqb_refl.
Qed.

Lemma key_eqb_sym a b : key_eqb a b = key_eqb b a.
Proof.
  destruct a as [|x|x|x|x|x], b as [|y|y|y|y|y]; simpl; try reflexivity.
  - destruct x, y; reflexivity.
  - apply Z.eqb_sym.
  - apply String.eqb_sym.
Qed.

Lemma key_eqb_trans a b c :
  key_eqb a b = true -> key_eqb b c = true -> key_eqb a c = true.
Proof.
  destruct a as [|x|x|x|x|x], b as [|y|y|y|y|y], c as [|z|z|z|z|z]; simpl;
    try discriminate; try reflexivity;
    rewrite ?Z.eqb_eq, ?String.eqb_eq;
    try (destruct x); try (destruct y); try (destruct z); simpl;
    try discriminate; try reflexivity; try lia; try congruence.
Qed.

Lemma key_eqb_hashable a b : key_eqb a b = true -> hashable a = true.
Proof. destruct a, b; simpl; try discriminate; reflexivity. Qed.

(** Assigning to a key keeps the keys there are, in their order, and adds
    the key at the end if it is new. *)
Lemma posts_set_keys k v posts :
  (posts_set k v posts).*1 = if has_key k posts then posts.*1 else posts.*1 ++ [k].
Proof.
  unfold has_key. induction posts as [|[k' v'] posts IH]; [reflexivity|].
  cbn [posts_set]. destruct (key_eqb k k') eqn:Hk;
    rewrite !fmap_cons; cbn [fst existsb]; rewrite Hk; [reflexivity|].
  rewrite IH. cbn [orb]. destruct (existsb _ _); reflexivity.
Qed.

Lemma has_key_posts_set k v posts :
  hashable k = true -> has_key k (posts_set k v posts) = true.
Proof.
  intros Hk. unfold has_key at 1. rewrite posts_set_keys.
  destruct (has_key k posts) eqn:Hin; [exact Hin|].
  rewrite existsb_app. simpl. rewrite (key_eqb_refl k Hk), orb_true_r. reflexivity.
Qed.

Lemma has_key_mono k v posts k' :
  has_key k' posts = true -> has_key k' (posts_set k v posts) = true.
Proof.
  intros Hin. unfold has_key at 1. rewrite posts_set_keys.
  destruct (has_key k posts); [exact Hin|].
  rewrite existsb_app. unfold has_key in Hin. rewrite Hin. reflexivity.
Qed.

Lemma distinct_keys_snoc keys k :
  distinct_keys keys = true -> existsb (key_eqb k) keys = false ->
  distinct_keys (keys ++ [k]) = true.
Proof.
  induction keys as [|a keys IH]; simpl; [reflexivity|].
  intros [Ha Hd]%andb_true_iff [Hka Hk]%orb_false_iff.
  rewrite existsb_app. simpl. rewrite (key_eqb_sym a k), Hka, orb_false_r.
  apply negb_true_iff in Ha. rewrite Ha. simpl. apply IH; assumption.
Qed.

Lemma posts_set_distinct k v posts :
  distinct_keys posts.*1 = true -> distinct_keys (posts_set k v posts).*1 = true.
Proof.
  intros Hd. rewrite posts_set_keys. destruct (has_key k posts) eqn:Hin; [exact Hd|].
  apply distinct_keys_snoc; assumption.
Qed.

Lemma posts_set_Forall (P : json * pydict -> Prop) k v posts :
  Forall P posts -> (forall k', key_eqb k k' = true -> P (k', v)) -> P (k, v) ->
  Forall P (posts_set k v posts).
Proof.
  intros Hall Hsame Hnew.
  induction posts as [|[k' v'] posts IH]; simpl; [constructor; [exact Hnew | constructor]|].
  apply Forall_cons in Hall as [Hhd Htl].
  destruct (key_eqb k k') eqn:Hk; constructor; auto.
Qed.

Section EntryFacts.
Context `{Runtime}.

Lemma scrape_edges_entries all edges : forall posts posts',
  Osint.scrape_edges edges posts = Ok posts' ->
  (forall post, post ∈ edges -> post ∈ all) ->
  distinct_keys posts.*1 = true ->
  Forall (entry_of_edge all) posts ->
  distinct_keys posts'.*1 = true /\
  Forall (entry_of_edge all) posts' /\
  (forall k, has_key k posts = true -> has_key k posts' = true) /\
  Forall (edge_has_entry posts') edges.
Proof.
  induction edges as [|post rest IH]; intros posts posts'; simpl.
  - intros [= <-] _ Hd Hall. repeat split; auto.
  - unfold rbind.
    destruct (py_item post "node") as [post_node|] eqn:Hnode; [|discriminate].
    destruct (py_item post_node "id") as [post_id|] eqn:Hid; [|discriminate].
    destruct (Osint.post_entry post_node) as [entry|] eqn:Hentry; [|discriminate].
    unfold py_setitem. destruct (hashable post_id) eqn:Hhash; [|discriminate].
    intros Hrest Hsub Hd Hall.
    destruct (IH _ _ Hrest) as (Hd' & Hall' & Hmono & Hrest').
    + intros p Hp. apply Hsub. right. exact Hp.
    + apply posts_set_distinct. exact Hd.
    + assert (Hthis : forall k', key_eqb post_id k' = true -> entry_of_edge all (k', entry)).
      { intros k' Hk. exists post, post_node, post_id.
        split; [apply Hsub; left|]. repeat split; assumption. }
      apply posts_set_Forall; [exact Hall | exact Hthis |].
      apply Hthis, key_eqb_refl, Hhash.
    + split; [exact Hd'|]. split; [exact Hall'|]. split.
      * intros k Hk. apply Hmono, has_key_mono, Hk.
      * constructor; [|exact Hrest'].
        exists post_node, post_id. split; [exact Hnode|]. split; [exact Hid|].
        apply Hmono, has_key_posts_set, Hhash.
Qed.

(** X22.  The posts [scrape_posts] returns hold one entry for each id among
    the edges its slice keeps: no two keys are the same dictionary key,
    every kept edge has its id among the keys, and every entry is what the
    code makes of a kept edge with that id. *)
Theorem scrape_posts_one_entry_per_id (limit : Z) (s : state) (posts : postdict) (s' : state) :
  Osint.scrape_posts limit s = (Some posts, s') ->
  exists kept,
    timeline_edges (profile_meta (self s)) limit = Ok kept /\
    distinct_keys posts.*1 = true /\
    Forall (entry_of_edge (py_iter kept)) posts /\
    Forall (edge_has_entry posts) (py_iter kept).
Proof.
  unfold Osint.scrape_posts.
  destruct (negb _); [discriminate|].
  destruct (truthy _); [discriminate|].
  unfold rbind.
  destruct (timeline_edges (profile_meta (self s)) limit) as [kept|]; [|discriminate].
  destruct (Osint.scrape_edges (py_iter kept) []) as [posts0|] eqn:Hloop; [|discriminate].
  intros [= <- <-]. exists kept. split; [reflexivity|].
  destruct (scrape_edges_entries (py_iter kept) _ _ _ Hloop) as (Hd & Hall & _ & Hedges);
    auto.
Qed.

End EntryFacts.

Lemma scrape_posts_one_entry_per_id_witness :
  let s := @Osint.init Py.runtime "alice" 3
             (Scenario.world_of [Scenario.served Cases.repeated_page]) in
  let r := @Osint.scrape_posts Py.runtime 3 s in
  exists kept,
    timeline_edges (profile_meta (self s)) 3 = Ok kept /\
    distinct_keys (default [] (fst r)).*1 = true /\
    Forall (@entry_of_edge Py.runtime (py_iter kept)) (default [] (fst r)) /\
    Forall (edge_has_entry (default [] (fst r))) (py_iter kept).
Proof.
  intros s r.
  apply (@scrape_posts_one_entry_per_id Py.runtime 3 s (default [] (fst r)) (snd r)).
  vm_compute. reflexivity.
Defined.
